(** * orbkit.grid: the grid on which all computations are performed

    A shallow embedding of [orbkit/grid.py] and the properties of its
    regular-grid builder, flattening routines, random sampler, grid file
    reader and grid centering.

    Conventions of the embedding.
    - A Python/numpy double is an IEEE-754 binary64 value, taken from the
      axiom-free specification [SpecFloat] of the standard library.
    - The module-level globals form the record [GridState]; every function
      is a computation in the monad [M] that threads this record and may
      raise a Python exception.  The state reached when an exception is
      raised is kept, as it is in Python.
    - The code handed to [weave.inline] is C: its counters are [int]s of
      32 bits, its stores into the buffer are not checked.  Where the C
      language leaves the behaviour undefined (a signed overflow, a store
      outside the block of the buffer) the embedding has no outcome at
      all: the C code yields [None], and so does the Python function that
      runs it.  Nothing is said about what follows such a call.
    - The three-element lists [min_], [max_], [N_], [delta_] are triples
      indexed by [axis]; [for ii in range(3)] visits [Ax0], [Ax1], [Ax2].
      The counts in [N_] are C longs of 64 bits, the default integer of
      numpy; [numpy.product] multiplies them with wrap-around.
    - Allocation limits (a [MemoryError], an array too big for the address
      space) are not modelled.
    - The sine and cosine of [sph2cart_vector], numpy's conversion of a
      string to a double and numpy's random generator are parameters; the
      text formatting of [get_grid] is kept as the values that are
      printed. *)

From Stdlib Require Import ZArith Lia String Ascii.
From Stdlib Require Import Floats.SpecFloat.
From stdpp Require Import base tactics option list sets.

Local Open Scope Z_scope.

(** ** IEEE-754 binary64 *)

Module F64.
Definition prec : Z := 53.
Definition emax : Z := 1024.

Definition float : Type := spec_float.

Definition add : float -> float -> float := SFadd prec emax.
Definition sub : float -> float -> float := SFsub prec emax.
Definition mul : float -> float -> float := SFmul prec emax.
Definition div : float -> float -> float := SFdiv prec emax.
Definition abs : float -> float := SFabs.
Definition eqb : float -> float -> bool := SFeqb.
Definition ltb : float -> float -> bool := SFltb.
Definition leb : float -> float -> bool := SFleb.

(** [float(n)] for an integer [n]: the nearest double, ties to even. *)
Definition of_Z (n : Z) : float := binary_normalize prec emax n 0 false.

Definition zero : float := S754_zero false.
Definition one : float := Eval vm_compute in of_Z 1.
(** The literal [1/2.] *)
Definition half : float := Eval vm_compute in div (of_Z 1) (of_Z 2).
(** The literal [10000] once promoted to a double *)
Definition ten_thousand : float := Eval vm_compute in of_Z 10000.

(** [numpy.round(v)] with no decimals: round to the nearest integer,
    ties to even, keeping the sign of zero. *)
Definition round (f : float) : float :=
  match f with
  | S754_finite s m e =>
      if 0 <=? e then f
      else
        let d := 2 ^ (- e) in
        let q := Z.pos m / d in
        let r := Z.pos m mod d in
        let q' := match 2 * r ?= d with
                  | Lt => q
                  | Gt => q + 1
                  | Eq => if Z.even q then q else q + 1
                  end in
        binary_normalize prec emax (if s then - q' else q') 0 s
  | _ => f
  end.

Definition int64_min : Z := - 2 ^ 63.

(** Conversion of a double to a C long ([dtype=int]): truncation toward
    zero; values that do not fit (and NaN, infinities) give the
    "integer indefinite" value of the platform. *)
Definition to_int (f : float) : Z :=
  match f with
  | S754_zero _ => 0
  | S754_finite s m e =>
      let q := if 0 <=? e then Z.pos m * 2 ^ e else Z.pos m / 2 ^ (- e) in
      let v := if s then - q else q in
      if (int64_min <=? v) && (v <? 2 ^ 63) then v else int64_min
  | _ => int64_min
  end.
End F64.

Abbreviation float := F64.float.

Arguments F64.add : simpl never.
Arguments F64.sub : simpl never.
Arguments F64.mul : simpl never.
Arguments F64.div : simpl never.
Arguments F64.abs : simpl never.
Arguments F64.eqb : simpl never.
Arguments F64.ltb : simpl never.
Arguments F64.leb : simpl never.
Arguments F64.of_Z : simpl never.
Arguments F64.round : simpl never.
Arguments F64.to_int : simpl never.

(** ** Axes and triples *)

Inductive axis : Type := Ax0 | Ax1 | Ax2.

#[global] Instance axis_eq_dec : EqDecision axis.
Proof. solve_decision. Defined.

(** [range(3)] *)
Definition axes : list axis := [Ax0; Ax1; Ax2].

Record triple (A : Type) : Type := Triple { t0 : A; t1 : A; t2 : A }.
Arguments Triple {A} _ _ _.
Arguments t0 {A} _.
Arguments t1 {A} _.
Arguments t2 {A} _.

Definition tget {A} (t : triple A) (a : axis) : A :=
  match a with Ax0 => t0 t | Ax1 => t1 t | Ax2 => t2 t end.

Definition tset {A} (t : triple A) (a : axis) (v : A) : triple A :=
  match a with
  | Ax0 => Triple v (t1 t) (t2 t)
  | Ax1 => Triple (t0 t) v (t2 t)
  | Ax2 => Triple (t0 t) (t1 t) v
  end.

Definition tmap {A B} (f : A -> B) (t : triple A) : triple B :=
  Triple (f (t0 t)) (f (t1 t)) (f (t2 t)).

(** ** Numbers held by the bound lists

    [min_] and [max_] start as lists of Python floats; [read] and
    [center_grid] store numpy doubles in them.  The two kinds differ in
    one operation of this module: a Python float division by zero raises
    [ZeroDivisionError], a numpy one returns an infinity or NaN. *)

Inductive number : Type :=
  | PyFloat (f : float)
  | NpFloat (f : float).

Definition val (n : number) : float :=
  match n with PyFloat f | NpFloat f => f end.

(** ** Exceptions, results and the state monad *)

Inductive exn : Type :=
  | ZeroDivisionError
  | ValueError
  | IndexError
  | IOError_Inconsistency (cl : list string)   (* raised by [check] *)
  | IOError_Open.                              (* raised by [open] *)

Inductive result (A : Type) : Type :=
  | Ok (a : A)
  | Raise (e : exn).
Arguments Ok {A} _.
Arguments Raise {A} _.

#[global] Instance result_ret : MRet result := fun _ a => Ok a.
#[global] Instance result_bind : MBind result := fun _ _ f r =>
  match r with Ok a => f a | Raise e => Raise e end.

Record GridState : Type := mkGridState {
  x : list float;               (* the x-coordinates *)
  y : list float;               (* the y-coordinates *)
  z : list float;               (* the z-coordinates *)
  d3r : option float;           (* unbound until a grid is built *)
  min_ : triple number;
  max_ : triple number;
  N_ : triple Z;
  delta_ : triple float;        (* a (3,1) array of doubles *)
  is_initialized : bool
}.

Definition set_x (v : list float) (s : GridState) : GridState :=
  mkGridState v (y s) (z s) (d3r s) (min_ s) (max_ s) (N_ s) (delta_ s) (is_initialized s).
Definition set_y (v : list float) (s : GridState) : GridState :=
  mkGridState (x s) v (z s) (d3r s) (min_ s) (max_ s) (N_ s) (delta_ s) (is_initialized s).
Definition set_z (v : list float) (s : GridState) : GridState :=
  mkGridState (x s) (y s) v (d3r s) (min_ s) (max_ s) (N_ s) (delta_ s) (is_initialized s).
Definition set_d3r (v : float) (s : GridState) : GridState :=
  mkGridState (x s) (y s) (z s) (Some v) (min_ s) (max_ s) (N_ s) (delta_ s) (is_initialized s).
Definition set_min_ (v : triple number) (s : GridState) : GridState :=
  mkGridState (x s) (y s) (z s) (d3r s) v (max_ s) (N_ s) (delta_ s) (is_initialized s).
Definition set_max_ (v : triple number) (s : GridState) : GridState :=
  mkGridState (x s) (y s) (z s) (d3r s) (min_ s) v (N_ s) (delta_ s) (is_initialized s).
Definition set_N_ (v : triple Z) (s : GridState) : GridState :=
  mkGridState (x s) (y s) (z s) (d3r s) (min_ s) (max_ s) v (delta_ s) (is_initialized s).
Definition set_delta_ (v : triple float) (s : GridState) : GridState :=
  mkGridState (x s) (y s) (z s) (d3r s) (min_ s) (max_ s) (N_ s) v (is_initialized s).
Definition set_is_initialized (v : bool) (s : GridState) : GridState :=
  mkGridState (x s) (y s) (z s) (d3r s) (min_ s) (max_ s) (N_ s) (delta_ s) v.

(** The coordinate array of an axis: [[x, y, z][ii]]. *)
Definition coords (s : GridState) (a : axis) : list float :=
  match a with Ax0 => x s | Ax1 => y s | Ax2 => z s end.

Definition set_coords (a : axis) (v : list float) : GridState -> GridState :=
  match a with Ax0 => set_x v | Ax1 => set_y v | Ax2 => set_z v end.

(** A computation over the globals: a result or an exception, and the
    globals as they are at that point; [None] when inlined C code has run
    into undefined behaviour. *)
Definition M (A : Type) : Type := GridState -> option (result A * GridState).

#[global] Instance M_ret : MRet M := fun _ a s => Some (Ok a, s).
#[global] Instance M_bind : MBind M := fun _ _ f m s =>
  match m s with
  | Some (Ok a, s') => f a s'
  | Some (Raise e, s') => Some (Raise e, s')
  | None => None
  end.

Definition get : M GridState := fun s => Some (Ok s, s).
Definition modify (f : GridState -> GridState) : M unit := fun s => Some (Ok tt, f s).
Definition raise {A} (e : exn) : M A := fun s => Some (Raise e, s).
Definition lift {A} (r : result A) : M A := fun s => Some (r, s).

(** [weave.inline(code, ...)]: the outcome of the C code, which raises no
    Python exception and has no access to the globals. *)
Definition inline {A} (c : option A) : M A := fun s =>
  match c with
  | Some a => Some (Ok a, s)
  | None => None
  end.

(** [for v in l: body v] *)
Fixpoint for_each {A} (l : list A) (body : A -> M unit) : M unit :=
  match l with
  | [] => mret tt
  | v :: l' => body v ≫= fun _ => for_each l' body
  end.

(** ** Module defaults and [reset_grid] *)

Definition default_min : triple number :=
  Eval vm_compute in tmap (fun n => PyFloat (F64.of_Z n)) (Triple (-8) (-8) (-8)).
Definition default_max : triple number :=
  Eval vm_compute in tmap (fun n => PyFloat (F64.of_Z n)) (Triple 8 8 8).
Definition default_N : triple Z := Triple 101 101 101.

(** The globals as the module leaves them when it is imported. *)
Definition initial_state : GridState :=
  {| x := [F64.zero]; y := [F64.zero]; z := [F64.zero];
     d3r := None;
     min_ := default_min; max_ := default_max; N_ := default_N;
     delta_ := Triple F64.zero F64.zero F64.zero;
     is_initialized := false |}.

Definition reset_grid : M unit :=
  modify (set_is_initialized false) ;;
  modify (set_min_ default_min) ;;
  modify (set_max_ default_max) ;;
  modify (set_N_ default_N).

(** ** [grid2vector] and [vector2grid] *)

(** A C long of 64 bits holding the integer [n] modulo [2^64]. *)
Definition wrap64 (n : Z) : Z := (n + 2 ^ 63) mod 2 ^ 64 - 2 ^ 63.

(** [numpy.product] of three C longs: the products wrap around. *)
Definition product_Z (n : triple Z) : Z := wrap64 (wrap64 (t0 n * t1 n) * t2 n).

(** [numpy.zeros((3, p))]: negative dimensions are refused.  The array
    is one block of [3 * p] doubles, row after row. *)
Definition np_zeros3 (p : Z) : result (list float) :=
  if p <? 0 then Raise ValueError
  else Ok (replicate (Z.to_nat (3 * p)) F64.zero).

(** [grid[r,:]] of a (3, p) array. *)
Definition row (p : Z) (r : Z) (grid : list float) : list float :=
  take (Z.to_nat p) (drop (Z.to_nat (r * p)) grid).

(** The largest C [int]. *)
Definition INT_MAX : Z := 2 ^ 31 - 1.

(** [c++] and [c += 1] on a C [int]: beyond [INT_MAX] the behaviour is
    undefined. *)
Definition int_incr (c : Z) : option Z :=
  if c <? INT_MAX then Some (c + 1) else None.

(** [GRID2(r, count) = v].  The macro of weave addresses the double at
    [r * Sgrid[0] + count * Sgrid[1]] bytes from the start of the block,
    that is, the double number [r * p + count] of a (3, p) array, without
    any check.  A store outside the block is undefined behaviour. *)
Definition GRID2_store (p : Z) (r : Z) (count : Z) (v : float)
    (grid : list float) : option (list float) :=
  let offset := r * p + count in
  if (0 <=? offset) && (offset <? Z.of_nat (length grid))
  then Some (<[Z.to_nat offset := v]> grid)
  else None.

(** The three nested C loops share the counter [count] and the buffer.
    Each loop is given the value of its own counter and the elements of
    its array from that index on. *)
Fixpoint loop_k (p : Z) (xi yj : float) (k : Z) (zs : list float)
    (st : Z * list float) : option (Z * list float) :=
  match zs with
  | [] => Some st
  | zk :: zs' =>
      let '(count, grid) := st in
      grid ← GRID2_store p 0 count xi grid;
      grid ← GRID2_store p 1 count yj grid;
      grid ← GRID2_store p 2 count zk grid;
      count ← int_incr count;
      k ← int_incr k;
      loop_k p xi yj k zs' (count, grid)
  end.

Fixpoint loop_j (p : Z) (xi : float) (j : Z) (ys zs : list float)
    (st : Z * list float) : option (Z * list float) :=
  match ys with
  | [] => Some st
  | yj :: ys' =>
      st ← loop_k p xi yj 0 zs st;
      j ← int_incr j;
      loop_j p xi j ys' zs st
  end.

Fixpoint loop_i (p : Z) (i : Z) (xs ys zs : list float)
    (st : Z * list float) : option (Z * list float) :=
  match xs with
  | [] => Some st
  | xi :: xs' =>
      st ← loop_j p xi 0 ys zs st;
      i ← int_incr i;
      loop_i p i xs' ys zs st
  end.

(** The inlined code of [grid2vector]: [Nx[0]], [Ny[0]], [Nz[0]] are the
    lengths of the arrays [x], [y], [z] handed to it, [p] the number of
    columns of [grid]. *)
Definition grid_code (p : Z) (xs ys zs : list float) (grid : list float)
    : option (list float) :=
  st ← loop_i p 0 xs ys zs (0, grid); Some (snd st).

Definition grid2vector : M Z :=
  s ← get;
  let p := product_Z (N_ s) in
  grid ← lift (np_zeros3 p);
  grid ← inline (grid_code p (x s) (y s) (z s) grid);
  modify (set_x (row p 0 grid)) ;;
  modify (set_y (row p 1 grid)) ;;
  modify (set_z (row p 2 grid)) ;;
  mret 0.

(** [vector2grid] has its own copy of the inlined code. *)
Fixpoint v2g_loop_k (p : Z) (xi yj : float) (k : Z) (zs : list float)
    (st : Z * list float) : option (Z * list float) :=
  match zs with
  | [] => Some st
  | zk :: zs' =>
      let '(count, grid) := st in
      grid ← GRID2_store p 0 count xi grid;
      grid ← GRID2_store p 1 count yj grid;
      grid ← GRID2_store p 2 count zk grid;
      count ← int_incr count;
      k ← int_incr k;
      v2g_loop_k p xi yj k zs' (count, grid)
  end.

Fixpoint v2g_loop_j (p : Z) (xi : float) (j : Z) (ys zs : list float)
    (st : Z * list float) : option (Z * list float) :=
  match ys with
  | [] => Some st
  | yj :: ys' =>
      st ← v2g_loop_k p xi yj 0 zs st;
      j ← int_incr j;
      v2g_loop_j p xi j ys' zs st
  end.

Fixpoint v2g_loop_i (p : Z) (i : Z) (xs ys zs : list float)
    (st : Z * list float) : option (Z * list float) :=
  match xs with
  | [] => Some st
  | xi :: xs' =>
      st ← v2g_loop_j p xi 0 ys zs st;
      i ← int_incr i;
      v2g_loop_i p i xs' ys zs st
  end.

Definition v2g_grid_code (p : Z) (xs ys zs : list float) (grid : list float)
    : option (list float) :=
  st ← v2g_loop_i p 0 xs ys zs (0, grid); Some (snd st).

Definition vector2grid : M Z :=
  s ← get;
  let p := product_Z (N_ s) in
  grid ← lift (np_zeros3 p);
  grid ← inline (v2g_grid_code p (x s) (y s) (z s) grid);
  modify (set_x (row p 0 grid)) ;;
  modify (set_y (row p 1 grid)) ;;
  modify (set_z (row p 2 grid)) ;;
  mret 0.

(** ** [grid_init] *)

Definition set_delta_at (ii : axis) (v : float) (s : GridState) : GridState :=
  set_delta_ (tset (delta_ s) ii v) s.

(** [a - b] on bound values: the result is a Python float only when both
    operands are. *)
Definition num_sub (a b : number) : number :=
  match a, b with
  | PyFloat fa, PyFloat fb => PyFloat (F64.sub fa fb)
  | _, _ => NpFloat (F64.sub (val a) (val b))
  end.

(** [a / b] where [b] is the Python float [float(...)]. *)
Definition num_div (a : number) (b : float) : result number :=
  match a with
  | PyFloat fa =>
      if F64.eqb b F64.zero then Raise ZeroDivisionError
      else Ok (PyFloat (F64.div fa b))
  | NpFloat fa => Ok (NpFloat (F64.div fa b))
  end.

(** [numpy.arange(n)] *)
Definition arange (n : Z) : list Z := seqZ 0 n.

(** [numpy.product] of the (3,1) array of spacings. *)
Definition product_F (d : triple float) : float :=
  F64.mul (F64.mul (t0 d) (t1 d)) (t2 d).

(** One turn of [for ii in range(3)]; [grid] is the list being filled. *)
Definition grid_init_axis (ii : axis) (grid : triple (list float))
    : M (triple (list float)) :=
  s ← get;
  if F64.eqb (val (tget (max_ s) ii)) (val (tget (min_ s) ii)) then
    let grid := tset grid ii [val (tget (min_ s) ii)] in
    modify (set_delta_at ii F64.one) ;;
    mret grid
  else
    d ← lift (num_div (num_sub (tget (max_ s) ii) (tget (min_ s) ii))
                      (F64.of_Z (tget (N_ s) ii - 1)));
    modify (set_delta_at ii (val d)) ;;
    s ← get;
    mret (tset grid ii
            (map (fun k => F64.add (val (tget (min_ s) ii))
                                   (F64.mul (F64.of_Z k) (tget (delta_ s) ii)))
                 (arange (tget (N_ s) ii)))).

(** The list [grid] is also declared global in the source; no function of
    the module reads that global, and it is left out of [GridState]. *)
Definition grid_init (is_vector : bool) : M Z :=
  s ← get;
  if is_initialized s then mret 0
  else
    let grid := Triple [] [] [] in
    modify (set_delta_ (Triple F64.zero F64.zero F64.zero)) ;;
    grid ← grid_init_axis Ax0 grid;
    grid ← grid_init_axis Ax1 grid;
    grid ← grid_init_axis Ax2 grid;
    modify (set_x (t0 grid)) ;;
    modify (set_y (t1 grid)) ;;
    modify (set_z (t2 grid)) ;;
    s ← get;
    modify (set_d3r (product_F (delta_ s))) ;;
    (if is_vector then grid2vector else mret 0) ;;
    modify (set_is_initialized true) ;;
    mret 0.

(** ** [get_grid] *)

(** Python's [min] and [max] of a sequence: keep the first element and
    replace it by each later one that compares below (above) it. *)
Definition py_min (l : list float) : result float :=
  match l with
  | [] => Raise ValueError
  | v :: l' => Ok (fold_left (fun m e => if F64.ltb e m then e else m) l' v)
  end.

Definition py_max (l : list float) : result float :=
  match l with
  | [] => Raise ValueError
  | v :: l' => Ok (fold_left (fun m e => if F64.ltb m e then e else m) l' v)
  end.

(** One line of the description; the number formats are not modelled, the
    line is kept as the values that are printed. *)
Record axis_line : Type := AxisLine {
  line_start : string;
  line_coord : axis;
  line_min : float;
  line_max : float;
  line_N : nat;
  line_d : option float
}.

Definition get_grid_axis (start : string) (ii : axis) : M axis_line :=
  s ← get;
  mn ← lift (py_min (coords s ii));
  mx ← lift (py_max (coords s ii));
  let d :=
    if negb (F64.eqb (val (tget (max_ s) ii)) (val (tget (min_ s) ii)))
       && negb (F64.eqb (tget (delta_ s) ii) F64.zero)
    then Some (tget (delta_ s) ii) else None in
  mret (AxisLine start ii mn mx (length (coords s ii)) d).

Definition get_grid (start : string) : M (list axis_line) :=
  l0 ← get_grid_axis start Ax0;
  l1 ← get_grid_axis start Ax1;
  l2 ← get_grid_axis start Ax2;
  mret [l0; l1; l2].

(** ** [random_grid] *)

Section RandomGrid.
(** The state of numpy's generator and [numpy.random.normal(loc, scale,
    size)], which returns [size] samples and advances the generator. *)
Variable rng : Type.
Variable normal : float -> float -> nat -> rng -> list float * rng.

(** [numpy.zeros((3, at_num, N))] *)
Definition np_zeros3d (at_num : nat) (N : Z) : result (triple (list (list float))) :=
  if N <? 0 then Raise ValueError
  else
    let plane := replicate at_num (replicate (Z.to_nat N) F64.zero) in
    Ok (Triple plane plane plane).

(** [for ii_a in range(at_num)], here over the rows of [geo_spec] from
    index [ii_a] on. *)
Fixpoint random_atoms (ii_d : axis) (ii_a : nat) (geo_spec : list (triple float))
    (N : Z) (st : triple (list (list float)) * rng)
    : triple (list (list float)) * rng :=
  match geo_spec with
  | [] => st
  | atom :: rest =>
      let '(grid, g) := st in
      let '(sample, g) := normal (tget atom ii_d) F64.half (Z.to_nat N) g in
      random_atoms ii_d (S ii_a) rest N
        (tset grid ii_d (<[ii_a := sample]> (tget grid ii_d)), g)
  end.

Definition random_grid (geo_spec : list (triple float)) (N : Z) (scale : float)
    (g : rng) : M (Z * rng) :=
  let at_num := length geo_spec in
  grid ← lift (np_zeros3d at_num N);
  let st := random_atoms Ax0 0 geo_spec N (grid, g) in
  let st := random_atoms Ax1 0 geo_spec N st in
  let '(grid, g) := random_atoms Ax2 0 geo_spec N st in
  (* numpy.reshape(grid, (3, N*at_num)) *)
  let grid := tmap (fun plane => concat plane) grid in
  modify (set_x (t0 grid)) ;;
  modify (set_y (t1 grid)) ;;
  modify (set_z (t2 grid)) ;;
  modify (set_is_initialized true) ;;
  mret (0, g).

End RandomGrid.

(** ** [read] *)

(** The characters [str.split()] treats as separators. *)
Definition is_space (c : ascii) : bool :=
  let n := nat_of_ascii c in
  ((9 <=? n) && (n <=? 13) || (n =? 32))%nat.

Definition string_of_rev (l : list ascii) : string :=
  fold_left (fun s c => String c s) l EmptyString.

Definition emit (tok : list ascii) (rest : list string) : list string :=
  match tok with
  | [] => rest
  | _ => string_of_rev tok :: rest
  end.

(** [line.split()]: the maximal runs of non-space characters; [tok] is the
    run being read, last character first. *)
Fixpoint split_from (tok : list ascii) (line : string) : list string :=
  match line with
  | EmptyString => emit tok []
  | String c rest =>
      if is_space c then emit tok (split_from [] rest)
      else split_from (c :: tok) rest
  end.

Definition split (line : string) : list string := split_from [] line.

Definition newline : ascii := ascii_of_nat 10.

(** Iterating over a file object: the lines of the text, each with its
    line feed when it has one. *)
Fixpoint lines_from (cur : list ascii) (text : string) : list string :=
  match text with
  | EmptyString => emit cur []
  | String c rest =>
      if Ascii.eqb c newline then string_of_rev (c :: cur) :: lines_from [] rest
      else lines_from (c :: cur) rest
  end.

Definition file_lines (text : string) : list string := lines_from [] text.

(** [s.lower()] on ASCII *)
Definition lower_ascii (c : ascii) : ascii :=
  let n := nat_of_ascii c in
  if ((65 <=? n) && (n <=? 90))%nat then ascii_of_nat (n + 32) else c.

Fixpoint lower (s : string) : string :=
  match s with
  | EmptyString => EmptyString
  | String c rest => String (lower_ascii c) (lower rest)
  end.

(** [hay.find(needle)]: the lowest index where [needle] occurs, or -1. *)
Fixpoint find_from (pos : Z) (hay needle : string) : Z :=
  if String.prefix needle hay then pos
  else match hay with
       | EmptyString => -1
       | String _ rest => find_from (pos + 1) rest needle
       end.

Definition find (hay needle : string) : Z := find_from 0 hay needle.

Definition dim : string := "xyz".

(** Indexing a three-element list with a Python integer. *)
Definition py_index3 (i : Z) : result axis :=
  if (i =? 0) || (i =? -3) then Ok Ax0
  else if (i =? 1) || (i =? -2) then Ok Ax1
  else if (i =? 2) || (i =? -1) then Ok Ax2
  else Raise IndexError.

(** The nested function [check] of [read]. *)
Definition check (i : list string) (is_vector : option bool) : result bool :=
  if (length i =? 3)%nat
     && match is_vector with None | Some true => true | _ => false end
  then Ok true
  else if (length i =? 4)%nat
          && match is_vector with None | Some false => true | _ => false end
  then Ok false
  else Raise (IOError_Inconsistency i).

(** The local variables of [read] that the loop over the lines updates;
    an entry of [index] is [None] while it still holds the empty list. *)
Record read_locals : Type := ReadLocals {
  rl_is_vector : option bool;
  rl_grid : triple (list string);
  rl_index : triple (option Z)
}.

Definition read_locals_init : read_locals :=
  ReadLocals None (Triple [] [] []) (Triple None None None).

(** [for i,j in enumerate(cl)] of the vector branch, from position [i]. *)
Fixpoint read_vector_tokens (i : Z) (cl : list string)
    (grid : triple (list string)) (index : triple (option Z))
    : result (triple (list string) * triple (option Z)) :=
  match cl with
  | [] => Ok (grid, index)
  | j :: cl' =>
      a ← py_index3 i;
      match tget index a with
      | None =>
          read_vector_tokens (i + 1) cl' grid (tset index a (Some (find dim j)))
      | Some k =>
          b ← py_index3 k;
          read_vector_tokens (i + 1) cl' (tset grid b (tget grid b ++ [j])) index
      end
  end.

(** The body of the loop over the lines. *)
Definition read_line (comment : string) (line : string) (st : read_locals)
    : result read_locals :=
  let cl := split line in
  if match cl with
     | [] => true
     | c0 :: _ => String.eqb c0 comment
     end
  then Ok st
  else
    is_vector ← check cl (rl_is_vector st);
    if (is_vector : bool) then
      '(grid, index) ← read_vector_tokens 0 cl (rl_grid st) (rl_index st);
      Ok (ReadLocals (Some is_vector) grid index)
    else
      match cl with
      | [] => Raise IndexError
      | c0 :: rest =>
          a ← py_index3 (find dim (lower c0));
          Ok (ReadLocals (Some is_vector) (tset (rl_grid st) a rest) (rl_index st))
      end.

Fixpoint read_lines (comment : string) (lines : list string) (st : read_locals)
    : result read_locals :=
  match lines with
  | [] => Ok st
  | line :: rest => st ← read_line comment line st; read_lines comment rest st
  end.

Section Read.
(** numpy's conversion of a string to a double; [None] when the string is
    not a number. *)
Variable float_of_string : string -> option float.

Fixpoint floats_of_strings (l : list string) : result (list float) :=
  match l with
  | [] => Ok []
  | t :: l' =>
      match float_of_string t with
      | None => Raise ValueError
      | Some f => fs ← floats_of_strings l'; Ok (f :: fs)
      end
  end.

(** [numpy.array(grid, dtype=numpy.float64)] on the three lists of
    strings: they must have one length. *)
Definition np_array_float64 (grid : triple (list string))
    : result (triple (list float)) :=
  if (length (t0 grid) =? length (t1 grid))%nat
     && (length (t1 grid) =? length (t2 grid))%nat
  then
    r0 ← floats_of_strings (t0 grid);
    r1 ← floats_of_strings (t1 grid);
    r2 ← floats_of_strings (t2 grid);
    Ok (Triple r0 r1 r2)
  else Raise ValueError.

(** [grid[:, k]] *)
Definition column (grid : triple (list float)) (k : nat) : result (triple float) :=
  match t0 grid !! k, t1 grid !! k, t2 grid !! k with
  | Some a, Some b, Some c => Ok (Triple a b c)
  | _, _, _ => Raise IndexError
  end.

(** [read]: [file] is what [open(filename)] delivers, the content of the
    file, or nothing when the file cannot be opened: then [open] raises
    an [IOError]. *)
Definition read (file : option string) (comment : string) : M (option bool) :=
  text ← match file with
         | Some text => mret text
         | None => raise IOError_Open
         end;
  st ← lift (read_lines comment (file_lines text) read_locals_init);
  let is_vector := rl_is_vector st in
  grid ← lift (np_array_float64 (rl_grid st));
  match is_vector with
  | Some true =>
      modify (set_x (t0 grid)) ;;
      modify (set_y (t1 grid)) ;;
      modify (set_z (t2 grid)) ;;
      modify (set_is_initialized true) ;;
      mret is_vector
  | _ =>
      c ← lift (column grid 0);
      modify (set_min_ (tmap NpFloat c)) ;;
      c ← lift (column grid 1);
      modify (set_max_ (tmap NpFloat c)) ;;
      c ← lift (column grid 2);
      modify (set_N_ (tmap F64.to_int c)) ;;
      mret is_vector
  end.

End Read.

(** ** [center_grid] *)

(** What [center_grid] hands to [display], in order. *)
Inductive message : Type :=
  | Centered (ac : triple float)
  | Description (lines : list axis_line)
  | Warning.

(** [numpy.nonzero(mask)[0]]: the indices at which [mask] holds, from
    index [i] on. *)
Fixpoint nonzero_from (i : nat) (mask : list bool) : list nat :=
  match mask with
  | [] => []
  | b :: mask' => if b then i :: nonzero_from (S i) mask' else nonzero_from (S i) mask'
  end.

Definition nonzero (mask : list bool) : list nat := nonzero_from 0 mask.

(** [l[i]] for an index that is not negative. *)
Definition getitem {A} (l : list A) (i : nat) : result A :=
  match l !! i with
  | Some v => Ok v
  | None => Raise IndexError
  end.

(** First loop: the spacing is adapted where [N_tilde[ii] != 0]. *)
Definition center_delta (d_tilde N_tilde : triple float) (ii : axis) : M unit :=
  if negb (F64.eqb (tget N_tilde ii) F64.zero)
  then modify (set_delta_at ii (F64.div (tget d_tilde ii) (tget N_tilde ii)))
  else mret tt.

(** Second loop: [grid[ii] += c] updates the array of the axis in place. *)
Definition center_axis (ac : triple float) (ii : axis) : M unit :=
  s ← get;
  position ← lift (getitem (nonzero (map (F64.leb (tget ac ii)) (coords s ii))) 0);
  v ← lift (getitem (coords s ii) position);
  let g := F64.abs (F64.sub v (tget ac ii)) in
  let c := F64.sub (F64.mul F64.half (tget (delta_ s) ii)) g in
  modify (set_coords ii (map (fun e => F64.add e c) (coords s ii))).

(** Last loop: one warning per axis that has a point rounding to zero. *)
Definition center_warning (ii : axis) : M (list message) :=
  s ← get;
  let mask := map (fun e => F64.eqb F64.zero (F64.round (F64.mul e F64.ten_thousand)))
                  (coords s ii) in
  mret (if (length (nonzero mask) =? 0)%nat then [] else [Warning]).

Definition tab : string := String (ascii_of_nat 9) EmptyString.

Definition center_grid (ac : triple float) : M (Z * list message) :=
  s ← get;
  let d_tilde := tmap (fun a => F64.abs (F64.sub F64.zero a)) ac in
  let N_tilde := Triple
    (F64.round (F64.abs (F64.div (t0 d_tilde) (t0 (delta_ s)))))
    (F64.round (F64.abs (F64.div (t1 d_tilde) (t1 (delta_ s)))))
    (F64.round (F64.abs (F64.div (t2 d_tilde) (t2 (delta_ s))))) in
  for_each axes (center_delta d_tilde N_tilde) ;;
  for_each axes (center_axis ac) ;;
  s ← get;
  modify (set_d3r (product_F (delta_ s))) ;;
  mn0 ← lift (py_min (x s)); mn1 ← lift (py_min (y s)); mn2 ← lift (py_min (z s));
  modify (set_min_ (Triple (NpFloat mn0) (NpFloat mn1) (NpFloat mn2))) ;;
  mx0 ← lift (py_max (x s)); mx1 ← lift (py_max (y s)); mx2 ← lift (py_max (z s));
  modify (set_max_ (Triple (NpFloat mx0) (NpFloat mx1) (NpFloat mx2))) ;;
  modify (set_N_ (Triple (Z.of_nat (length (x s))) (Z.of_nat (length (y s)))
                         (Z.of_nat (length (z s))))) ;;
  description ← get_grid tab;
  w0 ← center_warning Ax0;
  w1 ← center_warning Ax1;
  w2 ← center_warning Ax2;
  mret (0, [Centered ac; Description description] ++ w0 ++ w1 ++ w2).

(** ** [sph2cart_vector] *)

Section Sph2Cart.
(** The sine and the cosine of the C math library. *)
Variable sin cos : float -> float.

(** The inlined loops of [sph2cart_vector], with the same counter and
    buffer discipline as those of [grid2vector]. *)
Fixpoint sph_loop_k (p : Z) (ri thetaj : float) (k : Z) (phis : list float)
    (st : Z * list float) : option (Z * list float) :=
  match phis with
  | [] => Some st
  | phik :: phis' =>
      let '(count, grid) := st in
      grid ← GRID2_store p 0 count (F64.mul (F64.mul ri (sin thetaj)) (cos phik)) grid;
      grid ← GRID2_store p 1 count (F64.mul (F64.mul ri (sin thetaj)) (sin phik)) grid;
      grid ← GRID2_store p 2 count (F64.mul ri (cos thetaj)) grid;
      count ← int_incr count;
      k ← int_incr k;
      sph_loop_k p ri thetaj k phis' (count, grid)
  end.

Fixpoint sph_loop_j (p : Z) (ri : float) (j : Z) (thetas phis : list float)
    (st : Z * list float) : option (Z * list float) :=
  match thetas with
  | [] => Some st
  | thetaj :: thetas' =>
      st ← sph_loop_k p ri thetaj 0 phis st;
      j ← int_incr j;
      sph_loop_j p ri j thetas' phis st
  end.

Fixpoint sph_loop_i (p : Z) (i : Z) (rs thetas phis : list float)
    (st : Z * list float) : option (Z * list float) :=
  match rs with
  | [] => Some st
  | ri :: rs' =>
      st ← sph_loop_j p ri 0 thetas phis st;
      i ← int_incr i;
      sph_loop_i p i rs' thetas phis st
  end.

Definition sph_grid_code (p : Z) (rs thetas phis : list float) (grid : list float)
    : option (list float) :=
  st ← sph_loop_i p 0 rs thetas phis (0, grid); Some (snd st).

Definition sph2cart_vector (r theta phi : list float) : M Z :=
  let p := product_Z (Triple (Z.of_nat (length r))
                             (Z.of_nat (length theta))
                             (Z.of_nat (length phi))) in
  grid ← lift (np_zeros3 p);
  grid ← inline (sph_grid_code p r theta phi grid);
  modify (set_x (row p 0 grid)) ;;
  modify (set_y (row p 1 grid)) ;;
  modify (set_z (row p 2 grid)) ;;
  mret 0.

(** The Cartesian point of one spherical triple, as the loop computes it. *)
Definition sph_point (ri thetaj phik : float) : float * float * float :=
  (F64.mul (F64.mul ri (sin thetaj)) (cos phik),
   F64.mul (F64.mul ri (sin thetaj)) (sin phik),
   F64.mul ri (cos thetaj)).

(** All points in the order of the loops: r slowest, phi fastest. *)
Definition sph_points (rs thetas phis : list float) : list (float * float * float) :=
  ri ← rs; thetaj ← thetas; phik ← phis; [sph_point ri thetaj phik].

End Sph2Cart.

(** ** Reference definitions for the statements *)

(** The Cartesian product of three axes in the order of the nested loops:
    the first axis varies slowest, the last one fastest. *)
Definition points (xs ys zs : list float) : list (float * float * float) :=
  xi ← xs; yj ← ys; zk ← zs; [(xi, yj, zk)].

Definition px (p : float * float * float) : float := fst (fst p).
Definition py (p : float * float * float) : float := snd (fst p).
Definition pz (p : float * float * float) : float := snd p.

(** A (3, p) buffer whose first columns hold the points [w], followed by
    [r] columns that are still zero. *)
Definition buffer_of (w : list (float * float * float)) (r : nat)
    : triple (list float) :=
  Triple ((px <$> w) ++ replicate r F64.zero)
         ((py <$> w) ++ replicate r F64.zero)
         ((pz <$> w) ++ replicate r F64.zero).

(** The block of the (3, p) array that has these rows. *)
Definition flat (rows : triple (list float)) : list float :=
  t0 rows ++ t1 rows ++ t2 rows.

(** The number of points of the grid that three axes span. *)
Definition npoints (xs ys zs : list float) : Z :=
  Z.of_nat (length xs) * Z.of_nat (length ys) * Z.of_nat (length zs).

(** The inlined loops over [xs], [ys], [zs] stay within defined behaviour
    on a buffer of [p] columns: every point has its column, and no counter
    is incremented beyond [INT_MAX]; [count] counts the points, [i] the
    elements of [xs], and [j] those of [ys] once the loop over [ys] is
    entered.  (The counter [k] never exceeds [count].) *)
Definition loops_defined (p : Z) (xs ys zs : list float) : Prop :=
  npoints xs ys zs <= p /\ npoints xs ys zs <= INT_MAX /\
  Z.of_nat (length xs) <= INT_MAX /\
  (length xs = 0%nat \/ Z.of_nat (length ys) <= INT_MAX).

#[global] Instance loops_defined_dec (p : Z) (xs ys zs : list float) :
  Decision (loops_defined p xs ys zs).
Proof. unfold loops_defined. apply _. Defined.

(** The globals after a flattening that went through on a buffer with
    [pad] columns more than there are points. *)
Definition flattened (pad : nat) (s : GridState) : GridState :=
  let grid := buffer_of (points (x s) (y s) (z s)) pad in
  set_z (t2 grid) (set_y (t1 grid) (set_x (t0 grid) s)).

(** The case in which the division of [grid_init] raises: the bounds of
    the axis differ, both are Python floats, and [float(N_[ii] - 1)] is
    zero, that is, the count is 1. *)
Definition is_py (n : number) : bool :=
  match n with PyFloat _ => true | NpFloat _ => false end.

Definition zero_division (s : GridState) (ii : axis) : bool :=
  negb (F64.eqb (val (tget (max_ s) ii)) (val (tget (min_ s) ii)))
  && is_py (tget (max_ s) ii) && is_py (tget (min_ s) ii)
  && (tget (N_ s) ii =? 1).

(** The spacing and the coordinates [grid_init] gives an axis. *)
Definition axis_spacing (s : GridState) (ii : axis) : float :=
  if F64.eqb (val (tget (max_ s) ii)) (val (tget (min_ s) ii)) then F64.one
  else F64.div (F64.sub (val (tget (max_ s) ii)) (val (tget (min_ s) ii)))
               (F64.of_Z (tget (N_ s) ii - 1)).

Definition axis_coords (s : GridState) (ii : axis) : list float :=
  if F64.eqb (val (tget (max_ s) ii)) (val (tget (min_ s) ii))
  then [val (tget (min_ s) ii)]
  else (fun k => F64.add (val (tget (min_ s) ii))
                         (F64.mul (F64.of_Z k) (axis_spacing s ii)))
       <$> seqZ 0 (tget (N_ s) ii).

(** The globals after a [grid_init] that went through. *)
Definition built (s : GridState) : GridState :=
  let d := Triple (axis_spacing s Ax0) (axis_spacing s Ax1) (axis_spacing s Ax2) in
  {| x := axis_coords s Ax0; y := axis_coords s Ax1; z := axis_coords s Ax2;
     d3r := Some (product_F d);
     min_ := min_ s; max_ := max_ s; N_ := N_ s;
     delta_ := d;
     is_initialized := true |}.

(** Small doubles for the examples. *)
Definition f0 : float := F64.zero.
Definition f1 : float := Eval vm_compute in F64.of_Z 1.
Definition f2 : float := Eval vm_compute in F64.of_Z 2.
Definition f3 : float := Eval vm_compute in F64.of_Z 3.
Definition f4 : float := Eval vm_compute in F64.of_Z 4.
Definition f5 : float := Eval vm_compute in F64.of_Z 5.

(** The module as imported, with other counts. *)
Definition with_counts (n0 n1 n2 : Z) : GridState :=
  set_N_ (Triple n0 n1 n2) initial_state.

(** A 2 x 2 x 1 regular grid. *)
Definition grid_221 : GridState :=
  {| x := [f1; f2]; y := [f3; f4]; z := [f5];
     d3r := Some f1;
     min_ := Triple (NpFloat f1) (NpFloat f3) (NpFloat f5);
     max_ := Triple (NpFloat f2) (NpFloat f4) (NpFloat f5);
     N_ := Triple 2 2 1;
     delta_ := Triple f1 f1 f1;
     is_initialized := true |}.




(** The flattened 2 x 2 x 1 grid, with counts that leave room for the 64
    points of a second flattening. *)
Definition grid_221_flat_counts_444 : GridState :=
  set_N_ (Triple 4 4 4) (flattened 0 grid_221).

(** Stand-ins for the sine and the cosine in the examples: their
    first-order approximations at 0. *)
Definition sin_near_0 (t : float) : float := t.
Definition cos_near_0 (t : float) : float := F64.one.

(** Some coordinate of the axis is at or above the anchor. *)
Definition reaches (ac : triple float) (s : GridState) (a : axis) : bool :=
  existsb (F64.leb (tget ac a)) (coords s a).

(** A stand-in for the generator that logs each request [(loc, scale,
    size)] and answers with [size] copies of the mean. *)
Definition request : Type := float * float * nat.

Definition recording_normal (loc scale : float) (size : nat) (log : list request)
    : list float * list request :=
  (replicate size loc, log ++ [(loc, scale, size)]).

(** Every row of a plane has [n] samples. *)
Definition rows_of (n : nat) (plane : list (list float)) : Prop :=
  Forall (fun row => length row = n) plane.

(** A line that [read] passes over: it is blank, or its first token is
    the comment marker. *)
Definition skipped (comment line : string) : bool :=
  match split line with
  | [] => true
  | c0 :: _ => String.eqb c0 comment
  end.

Definition counted (comment line : string) : bool := negb (skipped comment line).

(** The entries of [index] that are set come from [dim.find]. *)
Definition index_ok (index : triple (option Z)) : Prop :=
  forall a k, tget index a = Some k -> -1 <= k <= 2.

(** The axis named by the first token of a line of the regular format. *)
Definition axis_letter (c0 : string) : option axis :=
  if String.eqb (lower c0) "x" then Some Ax0
  else if String.eqb (lower c0) "y" then Some Ax1
  else if String.eqb (lower c0) "z" then Some Ax2
  else None.

(** Anchors for [grid_221]: one that every axis reaches, and one above
    all of its x-coordinates. *)
Definition anchor_inside : triple float := Triple f1 f3 f5.
Definition anchor_above : triple float := Triple f3 f3 f5.

(** Example files, and a conversion that knows decimal integers. *)
Definition nl : string := String newline EmptyString.

Definition regular_line (a : axis) : string :=
  match a with
  | Ax0 => "x -5 5 11" ++ nl
  | Ax1 => "y -2 2 5" ++ nl
  | Ax2 => "Z 0 0 1" ++ nl
  end%string.

Definition regular_text : string :=
  ("# a regular grid" ++ nl ++ regular_line Ax0 ++ nl ++ regular_line Ax2
   ++ "  # y comes last" ++ nl ++ regular_line Ax1)%string.

Definition mixed_text : string :=
  ("x y z" ++ nl ++ "1 2 3" ++ nl ++ "x 0 1 2" ++ nl)%string.

Fixpoint digits_value (acc : Z) (t : string) : option Z :=
  match t with
  | EmptyString => Some acc
  | String c rest =>
      let n := Z.of_nat (nat_of_ascii c) in
      if (48 <=? n) && (n <=? 57) then digits_value (10 * acc + (n - 48)) rest
      else None
  end.

Definition integer_literal (t : string) : option float :=
  match t with
  | EmptyString => None
  | String "-"%char EmptyString => None
  | String "-"%char rest => (fun v => F64.of_Z (- v)) <$> digits_value 0 rest
  | _ => F64.of_Z <$> digits_value 0 t
  end.

Definition regular_token (k : nat) (a : axis) : string :=
  default EmptyString (split (regular_line a) !! k).

Definition regular_value (k : nat) (a : axis) : float :=
  default F64.zero (integer_literal (regular_token k a)).

(** The globals when the loop of [grid_init] is through and [x], [y],
    [z], [d3r] are assigned, before the grid is marked as initialized. *)
Definition prepared (s : GridState) : GridState :=
  set_is_initialized false (built s).

(** The bounds and counts of a regular grid fit together: an axis with
    equal bounds has the count 1, any other axis a count that is not
    negative. *)
Definition counts_fit (s : GridState) : Prop :=
  forall a,
    if F64.eqb (val (tget (max_ s) a)) (val (tget (min_ s) a))
    then tget (N_ s) a = 1
    else 0 <= tget (N_ s) a.

(** What a line of [get_grid] says about an axis. *)
Definition describes (start : string) (s : GridState) (a : axis) (l : axis_line)
    : Prop :=
  line_start l = start /\ line_coord l = a /\
  line_N l = length (coords s a) /\
  line_min l ∈ coords s a /\ line_max l ∈ coords s a /\
  (line_d l = None \/ line_d l = Some (tget (delta_ s) a)).

(** The spacing [center_grid] leaves on an axis: the distance of the
    anchor from the origin divided by the rounded number of cells in it,
    unless that number is zero. *)
Definition centered_spacing (ac : triple float) (s : GridState) (a : axis) : float :=
  let d_tilde := F64.abs (F64.sub F64.zero (tget ac a)) in
  let N_tilde := F64.round (F64.abs (F64.div d_tilde (tget (delta_ s) a))) in
  if F64.eqb N_tilde F64.zero then tget (delta_ s) a
  else F64.div d_tilde N_tilde.

(** The offset [center_grid] adds to an axis: half the new spacing minus
    the distance from the anchor to the first coordinate at or above it. *)
Definition center_offset (ac : triple float) (s : GridState) (a : axis)
    : option float :=
  match List.find (F64.leb (tget ac a)) (coords s a) with
  | Some v =>
      Some (F64.sub (F64.mul F64.half (centered_spacing ac s a))
                    (F64.abs (F64.sub v (tget ac a))))
  | None => None
  end.

Definition is_zero (f : float) : bool :=
  match f with S754_zero _ => true | _ => false end.

(** The list that [read] keeps for an axis is still empty or holds the
    three numbers of a line of the regular format. *)
Definition empty_or_three (grid : triple (list string)) : Prop :=
  forall a, length (tget grid a) = 0%nat \/ length (tget grid a) = 3%nat.

(** The number of tokens on the lines of a format. *)
Definition tokens_of_format (is_vector : bool) : nat :=
  if is_vector then 3%nat else 4%nat.

(** The entry of [grid] that a line of the regular format assigns. *)
Definition line_axis (line : string) : result axis :=
  match split line with
  | [] => Raise IndexError
  | c0 :: _ => py_index3 (find dim (lower c0))
  end.

(** A regular file with a count that is not a number, and one with
    comments only. *)
Definition misspelt_text : string :=
  ("x 0 1 2" ++ nl ++ "y 0 one 2" ++ nl ++ "z 0 1 2")%string.

Definition comments_text : string := ("# nothing here" ++ nl ++ nl)%string.

(** A vector file with a header in another order, its rows as triples
    indexed by axis, and their values. *)
Definition vector_text : string :=
  ("# two points" ++ nl ++ "z y x" ++ nl ++ "1 2 3" ++ nl ++ nl ++ "4 5 6" ++ nl)%string.

Definition vector_rows : list string := ["1 2 3" ++ nl; "4 5 6" ++ nl]%string.

Definition vector_data : list (triple string) :=
  [Triple "3" "2" "1"; Triple "6" "5" "4"]%string.

Definition vector_values : list (triple float) :=
  Eval vm_compute in
    [tmap F64.of_Z (Triple 3 2 1); tmap F64.of_Z (Triple 6 5 4)].

Section RandomDraws.
Variable rng : Type.
Variable normal : float -> float -> nat -> rng -> list float * rng.

(** The samples of one coordinate, drawn center after center: each request
    has the coordinate of the center as its mean, the width 0.5 and the
    size [N]. *)
Fixpoint draw_axis (ii_d : axis) (geo_spec : list (triple float)) (N : Z) (g : rng)
    : list (list float) * rng :=
  match geo_spec with
  | [] => ([], g)
  | atom :: rest =>
      let '(sample, g) := normal (tget atom ii_d) F64.half (Z.to_nat N) g in
      let '(rows, g) := draw_axis ii_d rest N g in
      (sample :: rows, g)
  end.

End RandomDraws.

(** The place of an axis in [for ii in range(3)]. *)
Definition axis_rank (a : axis) : nat :=
  match a with Ax0 => 0 | Ax1 => 1 | Ax2 => 2 end%nat.

(** * Properties *)

(** ** Triples *)

Lemma tget_tset_eq {A} (t : triple A) (a : axis) (v : A) : tget (tset t a v) a = v.
Proof. by destruct a. Qed.

Lemma tget_tset_ne {A} (t : triple A) (a b : axis) (v : A) :
  a <> b -> tget (tset t a v) b = tget t b.
Proof. by destruct a, b. Qed.

(** ** The flattening loops *)

(** Unfolding the plumbing of the monad. *)
Ltac run :=
  repeat (progress (unfold mbind, M_bind, mret, M_ret, get, modify, lift, raise,
                      inline in *;
                    simpl in *)).

(** Unfolding the assignments to the globals. *)
Ltac state :=
  cbn [x y z d3r min_ max_ N_ delta_ is_initialized coords tget tset t0 t1 t2
       set_coords set_delta_at set_x set_y set_z set_d3r set_min_ set_max_
       set_N_ set_delta_ set_is_initialized] in *.

(** Lists made of blocks of one length [n]. *)
Lemma length_bind_blocks {A B} (f : A -> list B) (n : nat) (l : list A) :
  (forall a, length (f a) = n) ->
  length (l ≫= f) = (length l * n)%nat.
Proof.
  intros Hf. induction l as [|a l IH]; [done|].
  rewrite bind_cons, length_app, Hf, IH. simpl. lia.
Qed.

Lemma lookup_bind_blocks {A B} (f : A -> list B) (n : nat) (l : list A)
    (i q : nat) (a : A) :
  (forall a, length (f a) = n) ->
  l !! i = Some a ->
  (q < n)%nat ->
  (l ≫= f) !! (i * n + q)%nat = f a !! q.
Proof.
  intros Hf. revert i.
  induction l as [|b l IH]; intros i Hi Hq; [done|].
  rewrite bind_cons. destruct i as [|i]; simpl in Hi.
  - injection Hi as ->. simpl. by rewrite lookup_app_l by (rewrite Hf; lia).
  - rewrite lookup_app_r by (rewrite Hf; simpl; lia).
    rewrite Hf. replace (S i * n + q - n)%nat with (i * n + q)%nat by (simpl; lia).
    by apply IH.
Qed.

Lemma length_points (xs ys zs : list float) :
  length (points xs ys zs) = (length xs * (length ys * length zs))%nat.
Proof.
  unfold points.
  apply length_bind_blocks. intros xi.
  apply length_bind_blocks. intros yj.
  rewrite (length_bind_blocks _ 1%nat); [lia | done].
Qed.

(** The point at flattened index [i*Ny*Nz + j*Nz + k]. *)
Lemma lookup_points (xs ys zs : list float) (i j k : nat) (xi yj zk : float) :
  xs !! i = Some xi -> ys !! j = Some yj -> zs !! k = Some zk ->
  points xs ys zs !! (i * length ys * length zs + j * length zs + k)%nat
  = Some (xi, yj, zk).
Proof.
  intros Hi Hj Hk. unfold points.
  pose proof (lookup_lt_Some _ _ _ Hj) as Hj'.
  pose proof (lookup_lt_Some _ _ _ Hk) as Hk'.
  replace (i * length ys * length zs + j * length zs + k)%nat
    with (i * (length ys * length zs) + (j * length zs + k))%nat by lia.
  rewrite (lookup_bind_blocks _ (length ys * length zs) xs i _ xi); [| |done|nia].
  - rewrite (lookup_bind_blocks _ (length zs) ys j _ yj); [| |done|done].
    + replace k with (k * 1 + 0)%nat by lia.
      rewrite (lookup_bind_blocks _ 1%nat zs k _ zk); [done|done|done|lia].
    + intros a. rewrite (length_bind_blocks _ 1%nat); [lia | done].
  - intros a. apply length_bind_blocks. intros b.
    rewrite (length_bind_blocks _ 1%nat); [lia | done].
Qed.

Lemma store_next (l : list float) (v : float) (r : nat) :
  <[length l := v]> (l ++ replicate (S r) F64.zero) = (l ++ [v]) ++ replicate r F64.zero.
Proof.
  replace (length l) with (length l + 0)%nat by lia.
  rewrite insert_app_r. simpl. by rewrite <- app_assoc.
Qed.

Lemma length_flat (rows : triple (list float)) (p : nat) :
  (forall a, length (tget rows a) = p) -> length (flat rows) = (3 * p)%nat.
Proof.
  intros H. unfold flat. rewrite !length_app.
  pose proof (H Ax0). pose proof (H Ax1). pose proof (H Ax2).
  simpl in *. lia.
Qed.

Lemma length_buffer_of (w : list (float * float * float)) (r : nat) (a : axis) :
  length (tget (buffer_of w r) a) = (length w + r)%nat.
Proof. destruct a; simpl; by rewrite length_app, length_fmap, length_replicate. Qed.

Lemma length_rows_insert (rows : triple (list float)) (p c : nat) (a : axis)
    (v : float) :
  (forall b, length (tget rows b) = p) ->
  forall b, length (tget (tset rows a (<[c := v]> (tget rows a))) b) = p.
Proof.
  intros H b. pose proof (H Ax0). pose proof (H Ax1). pose proof (H Ax2).
  destruct a, b; simpl in *; by rewrite ?length_insert.
Qed.

(** A store into a column of the array lands in its row. *)
Lemma GRID2_store_flat (rows : triple (list float)) (p c : nat) (a : axis) (v : float) :
  (forall b, length (tget rows b) = p) ->
  (c < p)%nat ->
  GRID2_store (Z.of_nat p) (Z.of_nat (axis_rank a)) (Z.of_nat c) v (flat rows)
  = Some (flat (tset rows a (<[c := v]> (tget rows a)))).
Proof.
  intros Hlen Hc. unfold GRID2_store.
  rewrite (length_flat rows p Hlen).
  pose proof (Hlen Ax0) as H0. pose proof (Hlen Ax1) as H1. simpl in H0, H1.
  assert (Hin : (0 <=? Z.of_nat (axis_rank a) * Z.of_nat p + Z.of_nat c)
                && (Z.of_nat (axis_rank a) * Z.of_nat p + Z.of_nat c
                    <? Z.of_nat (3 * p)) = true).
  { apply andb_true_iff. split; [apply Z.leb_le | apply Z.ltb_lt];
      destruct a; simpl axis_rank; lia. }
  rewrite Hin. f_equal. unfold flat. destruct a; simpl axis_rank; simpl tset; simpl tget.
  - replace (Z.to_nat (Z.of_nat 0 * Z.of_nat p + Z.of_nat c)) with c by lia.
    by rewrite insert_app_l by lia.
  - replace (Z.to_nat (Z.of_nat 1 * Z.of_nat p + Z.of_nat c))
      with (length (t0 rows) + c)%nat by lia.
    rewrite insert_app_r. by rewrite insert_app_l by lia.
  - replace (Z.to_nat (Z.of_nat 2 * Z.of_nat p + Z.of_nat c))
      with (length (t0 rows) + (length (t1 rows) + c))%nat by lia.
    by rewrite !insert_app_r.
Qed.

Lemma GRID2_store_length (p r count : Z) (v : float) (grid grid' : list float) :
  GRID2_store p r count v grid = Some grid' -> length grid' = length grid.
Proof.
  unfold GRID2_store. destruct (_ && _); [|done].
  intros [= <-]. apply length_insert.
Qed.

(** The three stores of one turn of the innermost loop, when the column
    [count] is still free. *)
Lemma store3_next {B} (p : Z) (w : list (float * float * float)) (r : nat)
    (vx vy vz : float) (f : list float -> option B) :
  p = Z.of_nat (length w + S r) ->
  (GRID2_store p 0 (Z.of_nat (length w)) vx (flat (buffer_of w (S r))) ≫= fun grid =>
   GRID2_store p 1 (Z.of_nat (length w)) vy grid ≫= fun grid =>
   GRID2_store p 2 (Z.of_nat (length w)) vz grid ≫= f)
  = f (flat (buffer_of (w ++ [(vx, vy, vz)]) r)).
Proof.
  intros ->.
  rewrite (GRID2_store_flat _ (length w + S r) (length w) Ax0);
    [|apply length_buffer_of|lia].
  cbn [mbind option_bind].
  rewrite (GRID2_store_flat _ (length w + S r) (length w) Ax1);
    [|apply length_rows_insert, length_buffer_of|lia].
  cbn [mbind option_bind].
  rewrite (GRID2_store_flat _ (length w + S r) (length w) Ax2);
    [|apply length_rows_insert, length_rows_insert, length_buffer_of|lia].
  cbn [mbind option_bind]. f_equal. unfold buffer_of. cbn [tset tget t0 t1 t2].
  rewrite !fmap_app. cbn [fmap list_fmap px py pz fst snd].
  rewrite <- (length_fmap px w) at 1. rewrite store_next.
  rewrite <- (length_fmap py w) at 1. rewrite store_next.
  rewrite <- (length_fmap pz w) at 1. rewrite store_next.
  reflexivity.
Qed.

(** The same three stores when every column is taken: the store into the
    last row is outside the block. *)
Lemma store3_full {B} (p : Z) (w : list (float * float * float))
    (vx vy vz : float) (f : list float -> option B) :
  p = Z.of_nat (length w) ->
  (GRID2_store p 0 (Z.of_nat (length w)) vx (flat (buffer_of w 0)) ≫= fun grid =>
   GRID2_store p 1 (Z.of_nat (length w)) vy grid ≫= fun grid =>
   GRID2_store p 2 (Z.of_nat (length w)) vz grid ≫= f)
  = None.
Proof.
  intros ->.
  destruct (GRID2_store _ 0 _ vx _) as [g0|] eqn:H0; [|done].
  cbn [mbind option_bind].
  destruct (GRID2_store _ 1 _ vy g0) as [g1|] eqn:H1; [|done].
  cbn [mbind option_bind].
  apply GRID2_store_length in H0, H1.
  rewrite (length_flat _ (length w + 0)) in H0 by apply length_buffer_of.
  unfold GRID2_store. rewrite H1, H0.
  replace (2 * Z.of_nat (length w) + Z.of_nat (length w)
           <? Z.of_nat (3 * (length w + 0))) with false
    by (symmetry; apply Z.ltb_ge; lia).
  by rewrite andb_false_r.
Qed.

Lemma INT_MAX_pos : 0 <= 0 <= INT_MAX.
Proof. by vm_compute. Qed.

Lemma int_incr_Some (c : Z) : c < INT_MAX -> int_incr c = Some (c + 1).
Proof. intros H. unfold int_incr. by rewrite (proj2 (Z.ltb_lt _ _) H). Qed.

Lemma int_incr_None (c : Z) : INT_MAX <= c -> int_incr c = None.
Proof. intros H. unfold int_incr. by rewrite (proj2 (Z.ltb_ge _ _) H). Qed.

Lemma loop_k_eq (p : Z) (xi yj : float) (zs : list float) :
  forall (k : Z) (w : list (float * float * float)) (r : nat),
    p = Z.of_nat (length w + r) ->
    0 <= k <= INT_MAX ->
    Z.of_nat (length w) <= INT_MAX ->
    loop_k p xi yj k zs (Z.of_nat (length w), flat (buffer_of w r))
    = if decide ((length zs <= r)%nat
                 /\ Z.of_nat (length w + length zs) <= INT_MAX
                 /\ k + Z.of_nat (length zs) <= INT_MAX)
      then Some (Z.of_nat (length (w ++ ((fun zk => (xi, yj, zk)) <$> zs))),
                 flat (buffer_of (w ++ ((fun zk => (xi, yj, zk)) <$> zs))
                                 (r - length zs)))
      else None.
Proof.
  induction zs as [|zk zs IH]; intros k w r Hp Hk Hw.
  - simpl. rewrite decide_True by (simpl; lia).
    by rewrite app_nil_r, Nat.sub_0_r.
  - cbn [loop_k]. destruct r as [|r].
    + rewrite store3_full by (rewrite Hp; f_equal; lia).
      rewrite decide_False; [done | simpl; lia].
    + rewrite (store3_next p w r) by done.
      destruct (Z.lt_ge_cases (Z.of_nat (length w)) INT_MAX) as [Hc|Hc].
      2: { rewrite (int_incr_None _ Hc). cbn [mbind option_bind].
           rewrite decide_False; [done | simpl; lia]. }
      rewrite (int_incr_Some _ Hc). cbn [mbind option_bind].
      destruct (Z.lt_ge_cases k INT_MAX) as [Hkk|Hkk].
      2: { rewrite (int_incr_None _ Hkk). cbn [mbind option_bind].
           rewrite decide_False; [done | simpl; lia]. }
      rewrite (int_incr_Some _ Hkk). cbn [mbind option_bind].
      replace (Z.of_nat (length w) + 1)
        with (Z.of_nat (length (w ++ [(xi, yj, zk)])))
        by (rewrite length_app; simpl; lia).
      rewrite IH; [| rewrite length_app; simpl; lia | lia
                   | rewrite length_app; simpl; lia].
      rewrite length_app. simpl length.
      repeat case_decide; try (exfalso; lia); [|done].
      by rewrite <- app_assoc.
Qed.

Lemma bind_singleton {A B} (f : A -> B) (l : list A) :
  (a ← l; [f a]) = f <$> l.
Proof. induction l as [|a l IH]; [done|]. by rewrite bind_cons, fmap_cons, IH. Qed.

Lemma loop_j_eq (p : Z) (xi : float) (ys zs : list float) :
  forall (j : Z) (w : list (float * float * float)) (r : nat),
    p = Z.of_nat (length w + r) ->
    0 <= j <= INT_MAX ->
    Z.of_nat (length w) <= INT_MAX ->
    loop_j p xi j ys zs (Z.of_nat (length w), flat (buffer_of w r))
    = if decide ((length ys * length zs <= r)%nat
                 /\ Z.of_nat (length w + length ys * length zs) <= INT_MAX
                 /\ j + Z.of_nat (length ys) <= INT_MAX)
      then Some (Z.of_nat (length (w ++ (yj ← ys; zk ← zs; [(xi, yj, zk)]))),
                 flat (buffer_of (w ++ (yj ← ys; zk ← zs; [(xi, yj, zk)]))
                                 (r - length ys * length zs)))
      else None.
Proof.
  induction ys as [|yj ys IH]; intros j w r Hp Hj Hw.
  - simpl. rewrite decide_True by (simpl; lia).
    by rewrite app_nil_r, Nat.sub_0_r.
  - cbn [loop_j]. rewrite (loop_k_eq p xi yj zs 0 w r Hp INT_MAX_pos Hw).
    destruct (decide ((length zs <= r)%nat
                      /\ Z.of_nat (length w + length zs) <= INT_MAX
                      /\ 0 + Z.of_nat (length zs) <= INT_MAX)) as [Hk|Hk].
    2: { cbn [mbind option_bind]. rewrite decide_False; [done | simpl; lia]. }
    cbn [mbind option_bind].
    destruct (Z.lt_ge_cases j INT_MAX) as [Hjj|Hjj].
    2: { rewrite (int_incr_None _ Hjj). cbn [mbind option_bind].
         rewrite decide_False; [done | simpl; lia]. }
    rewrite (int_incr_Some _ Hjj). cbn [mbind option_bind].
    rewrite IH; [| rewrite length_app, length_fmap; lia | lia
                 | rewrite length_app, length_fmap; lia].
    rewrite length_app, length_fmap. simpl length.
    repeat case_decide; try (exfalso; simpl in *; lia); [|done].
    rewrite bind_cons, bind_singleton, <- app_assoc.
    replace (S (length ys) * length zs)%nat
      with (length zs + length ys * length zs)%nat by (simpl; lia).
    by rewrite Nat.sub_add_distr.
Qed.

Lemma loop_i_eq (p : Z) (xs ys zs : list float) :
  forall (i : Z) (w : list (float * float * float)) (r : nat),
    p = Z.of_nat (length w + r) ->
    0 <= i <= INT_MAX ->
    Z.of_nat (length w) <= INT_MAX ->
    loop_i p i xs ys zs (Z.of_nat (length w), flat (buffer_of w r))
    = if decide ((length xs * (length ys * length zs) <= r)%nat
                 /\ Z.of_nat (length w + length xs * (length ys * length zs)) <= INT_MAX
                 /\ i + Z.of_nat (length xs) <= INT_MAX
                 /\ (length xs = 0%nat \/ Z.of_nat (length ys) <= INT_MAX))
      then Some (Z.of_nat (length (w ++ points xs ys zs)),
                 flat (buffer_of (w ++ points xs ys zs)
                                 (r - length xs * (length ys * length zs))))
      else None.
Proof.
  unfold points.
  induction xs as [|xi xs IH]; intros i w r Hp Hi Hw.
  - simpl. rewrite decide_True by (simpl; lia).
    by rewrite app_nil_r, Nat.sub_0_r.
  - cbn [loop_i]. rewrite (loop_j_eq p xi ys zs 0 w r Hp INT_MAX_pos Hw).
    destruct (decide ((length ys * length zs <= r)%nat
                      /\ Z.of_nat (length w + length ys * length zs) <= INT_MAX
                      /\ 0 + Z.of_nat (length ys) <= INT_MAX)) as [Hk|Hk].
    2: { cbn [mbind option_bind]. rewrite decide_False; [done | simpl; lia]. }
    cbn [mbind option_bind].
    destruct (Z.lt_ge_cases i INT_MAX) as [Hii|Hii].
    2: { rewrite (int_incr_None _ Hii). cbn [mbind option_bind].
         rewrite decide_False; [done | simpl; lia]. }
    rewrite (int_incr_Some _ Hii). cbn [mbind option_bind].
    assert (Hlen : length (w ++ (yj ← ys; zk ← zs; [(xi, yj, zk)]))
                   = (length w + length ys * length zs)%nat).
    { rewrite length_app. f_equal.
      apply length_bind_blocks. intros yj. by rewrite bind_singleton, length_fmap. }
    rewrite IH; [| rewrite Hlen; lia | lia | rewrite Hlen; lia].
    rewrite Hlen. simpl length.
    repeat case_decide; try (exfalso; simpl in *; lia); try done.
    all: rewrite bind_cons, <- app_assoc.
    all: replace (S (length xs) * (length ys * length zs))%nat
           with (length ys * length zs + length xs * (length ys * length zs))%nat
           by (simpl; lia).
    all: by rewrite Nat.sub_add_distr.
Qed.

Lemma npoints_length (xs ys zs : list float) :
  npoints xs ys zs = Z.of_nat (length (points xs ys zs)).
Proof. unfold npoints. rewrite length_points. lia. Qed.

Lemma npoints_nonneg (xs ys zs : list float) : 0 <= npoints xs ys zs.
Proof. rewrite npoints_length. lia. Qed.

(** The buffer of [numpy.zeros] and its rows. *)
Lemma zeros_flat (p : nat) :
  replicate (Z.to_nat (3 * Z.of_nat p)) F64.zero = flat (buffer_of [] p).
Proof.
  unfold flat, buffer_of. simpl.
  replace (Z.to_nat (3 * Z.of_nat p)) with (p + (p + p))%nat by lia.
  by rewrite !replicate_add.
Qed.

Lemma row_flat (rows : triple (list float)) (p : nat) (a : axis) :
  (forall b, length (tget rows b) = p) ->
  row (Z.of_nat p) (Z.of_nat (axis_rank a)) (flat rows) = tget rows a.
Proof.
  intros H. pose proof (H Ax0) as H0. pose proof (H Ax1) as H1.
  pose proof (H Ax2) as H2. simpl in H0, H1, H2.
  unfold row, flat. rewrite Nat2Z.id.
  destruct a; simpl axis_rank; simpl tget.
  - replace (Z.to_nat (Z.of_nat 0 * Z.of_nat p)) with 0%nat by lia.
    rewrite drop_0. by apply take_app_length'.
  - replace (Z.to_nat (Z.of_nat 1 * Z.of_nat p)) with p by lia.
    rewrite drop_app_length' by done. by apply take_app_length'.
  - replace (Z.to_nat (Z.of_nat 2 * Z.of_nat p)) with (p + p)%nat by lia.
    rewrite <- drop_drop.
    rewrite drop_app_length' by done. rewrite drop_app_length' by done.
    apply take_ge. lia.
Qed.

(** The inlined code on a fresh buffer of [p] columns: it is defined
    exactly when [loops_defined] holds, and then leaves the points in the
    first columns and zeros in the others. *)
Lemma grid_code_eq (p : nat) (xs ys zs : list float) :
  grid_code (Z.of_nat p) xs ys zs (flat (buffer_of [] p))
  = if decide (loops_defined (Z.of_nat p) xs ys zs)
    then Some (flat (buffer_of (points xs ys zs) (p - length (points xs ys zs))))
    else None.
Proof.
  unfold grid_code.
  change 0 with (Z.of_nat (length (@nil (float * float * float)))) at 2.
  rewrite (loop_i_eq (Z.of_nat p) xs ys zs 0 [] p eq_refl INT_MAX_pos)
    by apply INT_MAX_pos.
  pose proof (npoints_length xs ys zs) as Hn. rewrite length_points in Hn.
  rewrite length_points.
  destruct (decide (loops_defined (Z.of_nat p) xs ys zs)) as [Hd|Hd];
    unfold loops_defined in Hd; rewrite Hn in Hd; simpl length;
    case_decide as Hc; try (exfalso; simpl in *; lia); done.
Qed.

Lemma grid2vector_eq (s : GridState) :
  grid2vector s
  = if product_Z (N_ s) <? 0 then Some (Raise ValueError, s)
    else if decide (loops_defined (product_Z (N_ s)) (x s) (y s) (z s))
    then Some (Ok 0, flattened (Z.to_nat (product_Z (N_ s)
                                          - npoints (x s) (y s) (z s))) s)
    else None.
Proof.
  unfold grid2vector, np_zeros3. run.
  destruct (product_Z (N_ s) <? 0) eqn:Hneg; [done|].
  apply Z.ltb_ge in Hneg.
  set (p := Z.to_nat (product_Z (N_ s))).
  replace (product_Z (N_ s)) with (Z.of_nat p) by (unfold p; lia).
  rewrite zeros_flat, grid_code_eq.
  case_decide as Hd; [|done].
  unfold flattened.
  rewrite npoints_length.
  replace (Z.to_nat (Z.of_nat p - Z.of_nat (length (points (x s) (y s) (z s)))))
    with (p - length (points (x s) (y s) (z s)))%nat by lia.
  assert (Hrows : forall b,
             length (tget (buffer_of (points (x s) (y s) (z s))
                                     (p - length (points (x s) (y s) (z s)))) b) = p).
  { intros b. rewrite length_buffer_of.
    destruct Hd as (Hd & _). rewrite npoints_length in Hd. lia. }
  pose proof (row_flat _ p Ax0 Hrows) as R0.
  pose proof (row_flat _ p Ax1 Hrows) as R1.
  pose proof (row_flat _ p Ax2 Hrows) as R2.
  change (Z.of_nat (axis_rank Ax0)) with 0 in R0.
  change (Z.of_nat (axis_rank Ax1)) with 1 in R1.
  change (Z.of_nat (axis_rank Ax2)) with 2 in R2.
  by rewrite R0, R1, R2.
Qed.

Lemma grid2vector_negative (s : GridState) :
  product_Z (N_ s) < 0 -> grid2vector s = Some (Raise ValueError, s).
Proof.
  intros H. rewrite grid2vector_eq. by rewrite (proj2 (Z.ltb_lt _ _) H).
Qed.

Lemma loops_defined_nonneg (p : Z) (xs ys zs : list float) :
  loops_defined p xs ys zs -> 0 <= p.
Proof. intros (H & _). pose proof (npoints_nonneg xs ys zs). lia. Qed.

Lemma grid2vector_defined (s : GridState) :
  loops_defined (product_Z (N_ s)) (x s) (y s) (z s) ->
  grid2vector s
  = Some (Ok 0, flattened (Z.to_nat (product_Z (N_ s) - npoints (x s) (y s) (z s))) s).
Proof.
  intros H. rewrite grid2vector_eq.
  rewrite (proj2 (Z.ltb_ge _ _) (loops_defined_nonneg _ _ _ _ H)).
  by rewrite decide_True.
Qed.

Lemma grid2vector_undefined (s : GridState) :
  0 <= product_Z (N_ s) ->
  ~ loops_defined (product_Z (N_ s)) (x s) (y s) (z s) ->
  grid2vector s = None.
Proof.
  intros Hp H. rewrite grid2vector_eq.
  rewrite (proj2 (Z.ltb_ge _ _) Hp). by rewrite decide_False.
Qed.

(** What a [grid2vector] that returns leaves behind. *)
Lemma grid2vector_Ok (s s' : GridState) (u : Z) :
  grid2vector s = Some (Ok u, s') ->
  u = 0 /\
  loops_defined (product_Z (N_ s)) (x s) (y s) (z s) /\
  s' = flattened (Z.to_nat (product_Z (N_ s) - npoints (x s) (y s) (z s))) s.
Proof.
  rewrite grid2vector_eq.
  destruct (product_Z (N_ s) <? 0); [done|].
  case_decide as Hd; [|done].
  by intros [= <- <-].
Qed.

(** The only exception of [grid2vector] is that of [numpy.zeros]; it
    leaves the globals as they were. *)
Lemma grid2vector_Raise (s s' : GridState) (e : exn) :
  grid2vector s = Some (Raise e, s') ->
  e = ValueError /\ s' = s /\ product_Z (N_ s) < 0.
Proof.
  rewrite grid2vector_eq.
  destruct (product_Z (N_ s) <? 0) eqn:Hneg.
  - apply Z.ltb_lt in Hneg. by intros [= <- <-].
  - by case_decide.
Qed.

(** More points than the buffer has columns: a store falls outside it. *)
Lemma grid2vector_overrun (s : GridState) :
  0 <= product_Z (N_ s) < npoints (x s) (y s) (z s) ->
  grid2vector s = None.
Proof.
  intros H. apply grid2vector_undefined; [lia|].
  intros (Hd & _). lia.
Qed.

(** The second copy of the loops computes what the first one does. *)
Lemma v2g_loop_k_eq (p : Z) (xi yj : float) (zs : list float) :
  forall k st, v2g_loop_k p xi yj k zs st = loop_k p xi yj k zs st.
Proof.
  induction zs as [|zk zs IH]; intros k [count grid]; [done|].
  cbn [v2g_loop_k loop_k].
  destruct (GRID2_store p 0 count xi grid) as [g0|]; [|done]. cbn [mbind option_bind].
  destruct (GRID2_store p 1 count yj g0) as [g1|]; [|done]. cbn [mbind option_bind].
  destruct (GRID2_store p 2 count zk g1) as [g2|]; [|done]. cbn [mbind option_bind].
  destruct (int_incr count) as [c|]; [|done]. cbn [mbind option_bind].
  destruct (int_incr k) as [k'|]; [|done]. cbn [mbind option_bind].
  apply IH.
Qed.

Lemma v2g_loop_j_eq (p : Z) (xi : float) (ys zs : list float) :
  forall j st, v2g_loop_j p xi j ys zs st = loop_j p xi j ys zs st.
Proof.
  induction ys as [|yj ys IH]; intros j st; [done|].
  cbn [v2g_loop_j loop_j]. rewrite v2g_loop_k_eq.
  destruct (loop_k p xi yj 0 zs st); [|done]. cbn [mbind option_bind].
  destruct (int_incr j); [|done]. cbn [mbind option_bind]. apply IH.
Qed.

Lemma v2g_loop_i_eq (p : Z) (xs ys zs : list float) :
  forall i st, v2g_loop_i p i xs ys zs st = loop_i p i xs ys zs st.
Proof.
  induction xs as [|xi xs IH]; intros i st; [done|].
  cbn [v2g_loop_i loop_i]. rewrite v2g_loop_j_eq.
  destruct (loop_j p xi 0 ys zs st); [|done]. cbn [mbind option_bind].
  destruct (int_incr i); [|done]. cbn [mbind option_bind]. apply IH.
Qed.

Lemma v2g_grid_code_eq (p : Z) (xs ys zs : list float) (grid : list float) :
  v2g_grid_code p xs ys zs grid = grid_code p xs ys zs grid.
Proof. unfold v2g_grid_code, grid_code. by rewrite v2g_loop_i_eq. Qed.

Lemma vector2grid_unfold (s : GridState) : vector2grid s = grid2vector s.
Proof.
  unfold vector2grid, grid2vector. run.
  destruct (np_zeros3 (product_Z (N_ s))) as [grid|]; [|done].
  by rewrite v2g_grid_code_eq.
Qed.

(** ** The wrap-around of [numpy.product] *)

Lemma wrap64_small (n : Z) : - 2 ^ 63 <= n < 2 ^ 63 -> wrap64 n = n.
Proof.
  unfold wrap64.
  change (2 ^ 63) with 9223372036854775808.
  change (2 ^ 64) with 18446744073709551616.
  intros H. rewrite Z.mod_small; lia.
Qed.

Lemma wrap64_zero : wrap64 0 = 0.
Proof. reflexivity. Qed.

(** Counts that are not negative and whose product fits a C long are
    multiplied exactly. *)
Lemma product_Z_exact (n : triple Z) :
  0 <= t0 n -> 0 <= t1 n -> 0 <= t2 n ->
  t0 n * t1 n * t2 n < 2 ^ 63 ->
  product_Z n = t0 n * t1 n * t2 n.
Proof.
  intros H0 H1 H2 H. unfold product_Z.
  destruct (decide (t2 n = 0)) as [Hz|Hz].
  - rewrite Hz, !Z.mul_0_r. apply wrap64_zero.
  - assert (t0 n * t1 n < 2 ^ 63) by nia.
    rewrite (wrap64_small (t0 n * t1 n)) by nia.
    apply wrap64_small. nia.
Qed.

Lemma INT_MAX_eq : INT_MAX = 2147483647.
Proof. reflexivity. Qed.

Lemma product_Z_lengths (s : GridState) :
  Z.of_nat (length (x s)) = t0 (N_ s) ->
  Z.of_nat (length (y s)) = t1 (N_ s) ->
  Z.of_nat (length (z s)) = t2 (N_ s) ->
  t0 (N_ s) * t1 (N_ s) * t2 (N_ s) <= INT_MAX ->
  product_Z (N_ s) = npoints (x s) (y s) (z s).
Proof.
  intros Hx Hy Hz H. unfold npoints. rewrite Hx, Hy, Hz.
  apply product_Z_exact; try lia.
  rewrite INT_MAX_eq in H. change (2 ^ 63) with 9223372036854775808. lia.
Qed.

(** ** Flattening a regular grid *)

(** C1. For a regular grid whose arrays [x], [y], [z] have the lengths
    stored in [N_], with at most [INT_MAX] coordinates on each axis and at
    most [INT_MAX] points in all (the range of the C counters),
    [grid2vector] returns, the three arrays it leaves have length
    [Nx*Ny*Nz], and the point at index [i*Ny*Nz + j*Nz + k] is
    [(x[i], y[j], z[k])]: x varies slowest, z fastest. *)
Theorem grid2vector_flatten (s : GridState) :
  Z.of_nat (length (x s)) = t0 (N_ s) ->
  Z.of_nat (length (y s)) = t1 (N_ s) ->
  Z.of_nat (length (z s)) = t2 (N_ s) ->
  t0 (N_ s) <= INT_MAX -> t1 (N_ s) <= INT_MAX -> t2 (N_ s) <= INT_MAX ->
  t0 (N_ s) * t1 (N_ s) * t2 (N_ s) <= INT_MAX ->
  exists s',
    grid2vector s = Some (Ok 0, s') /\
    Z.of_nat (length (x s')) = t0 (N_ s) * t1 (N_ s) * t2 (N_ s) /\
    Z.of_nat (length (y s')) = t0 (N_ s) * t1 (N_ s) * t2 (N_ s) /\
    Z.of_nat (length (z s')) = t0 (N_ s) * t1 (N_ s) * t2 (N_ s) /\
    forall (i j k : nat) (xi yj zk : float),
      x s !! i = Some xi -> y s !! j = Some yj -> z s !! k = Some zk ->
      let count := (i * length (y s) * length (z s) + j * length (z s) + k)%nat in
      x s' !! count = Some xi /\ y s' !! count = Some yj /\ z s' !! count = Some zk.
Proof.
  intros Hx Hy Hz B0 B1 B2 B.
  pose proof (product_Z_lengths s Hx Hy Hz B) as Hp.
  assert (Hd : loops_defined (product_Z (N_ s)) (x s) (y s) (z s)).
  { unfold loops_defined. rewrite Hp. unfold npoints. rewrite Hx, Hy, Hz. lia. }
  eexists. split; [apply (grid2vector_defined s Hd)|].
  rewrite Hp, Z.sub_diag. unfold flattened, buffer_of. simpl.
  rewrite !app_nil_r, !length_fmap.
  rewrite <- npoints_length. unfold npoints. rewrite Hx, Hy, Hz.
  repeat split; try done.
  all: rewrite list_lookup_fmap, (lookup_points _ _ _ _ _ _ xi yj zk) by done.
  all: done.
Qed.

(** C3. [vector2grid] computes exactly what [grid2vector] computes, on
    every state.  It therefore does not give the per-axis arrays back:
    after a 2 x 2 x 1 grid has been flattened, no outcome of [vector2grid]
    on the flattened arrays, whatever counts are stored by then, leaves
    the original x-axis in [x].  (With the counts of the grid itself the
    call stores outside its buffer.) *)
Theorem vector2grid_is_grid2vector :
  (forall s : GridState, vector2grid s = grid2vector s) /\
  (forall (a b c d e : float) (s s1 s2 s3 : GridState) (r : result Z),
      x s = [a; b] -> y s = [c; d] -> z s = [e] -> N_ s = Triple 2 2 1 ->
      grid2vector s = Some (Ok 0, s1) ->
      x s2 = x s1 -> y s2 = y s1 -> z s2 = z s1 ->
      vector2grid s2 = Some (r, s3) ->
      x s3 <> x s).
Proof.
  split; [exact vector2grid_unfold|].
  intros a b c d e s s1 s2 s3 r Hx Hy Hz HN H1 Hx2 Hy2 Hz2 H2 Hback.
  rewrite vector2grid_unfold in H2.
  apply grid2vector_Ok in H1 as (_ & _ & ->).
  simpl in Hx2, Hy2, Hz2. rewrite Hx, Hy, Hz in Hx2, Hy2, Hz2.
  simpl in Hx2, Hy2, Hz2.
  destruct r as [u|err].
  - apply grid2vector_Ok in H2 as (_ & (Hd & _) & ->).
    simpl in Hback. rewrite Hx in Hback.
    apply (f_equal length) in Hback.
    rewrite length_app, length_fmap, length_replicate, <- Nat2Z.inj_iff in Hback.
    rewrite Nat2Z.inj_add, <- npoints_length in Hback.
    unfold npoints in *. rewrite Hx2, Hy2, Hz2 in *. simpl in *. lia.
  - apply grid2vector_Raise in H2 as (_ & -> & _).
    rewrite Hx2, Hx in Hback. done.
Qed.

(** ** Conversion of an integer to a double *)

Lemma shr_1_digits (mrs : shr_record) :
  0 <= shr_m mrs ->
  0 <= shr_m (shr_1 mrs) /\
  Zdigits2 (shr_m (shr_1 mrs)) = Z.max 0 (Zdigits2 (shr_m mrs) - 1).
Proof.
  destruct mrs as [m r s]. simpl. intros Hm.
  destruct m as [|p|p]; [done| |lia].
  destruct p; simpl; lia.
Qed.

Lemma iter_shr_1_digits (p : positive) :
  forall mrs : shr_record,
    0 <= shr_m mrs ->
    0 <= shr_m (SpecFloat.iter_pos shr_1 p mrs) /\
    Zdigits2 (shr_m (SpecFloat.iter_pos shr_1 p mrs)) = Z.max 0 (Zdigits2 (shr_m mrs) - Z.pos p).
Proof.
  induction p as [p IH|p IH|]; intros mrs Hm; simpl.
  - destruct (shr_1_digits mrs Hm) as [H1 E1].
    destruct (IH _ H1) as [H2 E2].
    destruct (IH _ H2) as [H3 E3].
    split; [done|]. rewrite E3, E2, E1. lia.
  - destruct (IH _ Hm) as [H2 E2].
    destruct (IH _ H2) as [H3 E3].
    split; [done|]. rewrite E3, E2. lia.
  - by apply shr_1_digits.
Qed.

Lemma Zdigits2_pos_inv (m : Z) : 0 <= m -> 0 < Zdigits2 m -> exists q, m = Z.pos q.
Proof. destruct m as [|q|q]; simpl; [lia | by exists q | lia]. Qed.

Lemma shr_m_of_loc (m : Z) (l : location) : shr_m (shr_record_of_loc m l) = m.
Proof. by destruct l as [|[]]. Qed.

(** Rounding a positive mantissa whose exponent is not below the smallest
    one keeps a positive mantissa and does not lower the exponent. *)
Lemma shr_fexp_positive (q : positive) (e : Z) (l : location) :
  - 1074 <= e ->
  exists q',
    shr_m (fst (shr_fexp F64.prec F64.emax (Z.pos q) e l)) = Z.pos q' /\
    e <= snd (shr_fexp F64.prec F64.emax (Z.pos q) e l).
Proof.
  intros He. unfold shr_fexp, shr, fexp, emin, F64.prec, F64.emax.
  set (D := Zdigits2 (Z.pos q)).
  assert (HD : 0 < D) by (unfold D; simpl; lia).
  destruct (Z.max (D + e - 53) (3 - 1024 - 53) - e) as [|k|k] eqn:Hk; simpl.
  - exists q. by rewrite shr_m_of_loc.
  - destruct (iter_shr_1_digits k (shr_record_of_loc (Z.pos q) l)) as [Hn Hd].
    { rewrite shr_m_of_loc. lia. }
    rewrite shr_m_of_loc in Hd. fold D in Hd.
    destruct (Zdigits2_pos_inv _ Hn) as [q' Hq']; [lia|].
    exists q'. split; [done | lia].
  - exists q. by rewrite shr_m_of_loc.
Qed.

Lemma binary_round_aux_nonzero (sx : bool) (q : positive) (e : Z) (l : location) :
  - 1074 <= e ->
  (exists m' e', binary_round_aux F64.prec F64.emax sx (Z.pos q) e l = S754_finite sx m' e')
  \/ binary_round_aux F64.prec F64.emax sx (Z.pos q) e l = S754_infinity sx.
Proof.
  intros He. unfold binary_round_aux.
  destruct (shr_fexp_positive q e l He) as (q1 & Hq1 & He1).
  destruct (shr_fexp F64.prec F64.emax (Z.pos q) e l) as [mrs1 e1]. simpl in *.
  assert (exists q2, round_nearest_even (shr_m mrs1) (loc_of_shr_record mrs1) = Z.pos q2)
    as [q2 Hq2].
  { rewrite Hq1. unfold round_nearest_even.
    destruct (loc_of_shr_record mrs1) as [|[]]; try (by eexists).
    destruct (Z.even (Z.pos q1)); by eexists. }
  rewrite Hq2.
  destruct (shr_fexp_positive q2 e1 loc_Exact) as (q3 & Hq3 & He3); [lia|].
  destruct (shr_fexp F64.prec F64.emax (Z.pos q2) e1 loc_Exact) as [mrs3 e3].
  simpl in *. rewrite Hq3.
  destruct (e3 <=? F64.emax - F64.prec); [left; by eexists _, _ | by right].
Qed.

Lemma binary_round_nonzero (sx : bool) (q : positive) :
  (exists m' e', binary_round F64.prec F64.emax sx q 0 = S754_finite sx m' e')
  \/ binary_round F64.prec F64.emax sx q 0 = S754_infinity sx.
Proof.
  unfold binary_round.
  destruct (shl_align q 0 _) as [mz ez] eqn:Hal.
  apply binary_round_aux_nonzero.
  unfold shl_align, fexp, emin, F64.prec, F64.emax in Hal.
  destruct (Z.max _ _ - 0) as [|k|k] eqn:Hk; injection Hal as <- <-; lia.
Qed.

(** [float(n)] compares equal to zero only for [n = 0]. *)
Lemma of_Z_eqb_zero (n : Z) : F64.eqb (F64.of_Z n) F64.zero = (n =? 0).
Proof.
  unfold F64.of_Z, binary_normalize.
  destruct n as [|q|q]; [done| |].
  - destruct (binary_round_nonzero false q) as [(m' & e' & ->)| ->]; done.
  - destruct (binary_round_nonzero true q) as [(m' & e' & ->)| ->]; done.
Qed.

(** ** The regular grid builder *)

Lemma val_num_sub (a b : number) : val (num_sub a b) = F64.sub (val a) (val b).
Proof. by destruct a, b. Qed.

Lemma is_py_num_sub (a b : number) : is_py (num_sub a b) = is_py a && is_py b.
Proof. by destruct a, b. Qed.

Lemma num_div_Ok (a : number) (b : float) :
  is_py a && F64.eqb b F64.zero = false ->
  exists d, num_div a b = Ok d /\ val d = F64.div (val a) b.
Proof.
  destruct a as [fa|fa]; simpl; intros H.
  - rewrite H. by eexists.
  - by eexists.
Qed.

Lemma num_div_Raise (a : number) (b : float) :
  is_py a && F64.eqb b F64.zero = true ->
  num_div a b = Raise ZeroDivisionError.
Proof. destruct a as [fa|fa]; simpl; [by intros -> | done]. Qed.

(** One turn of the loop on an axis whose division does not raise. *)
Lemma grid_init_axis_Ok (s : GridState) (ii : axis) (grid : triple (list float)) :
  zero_division s ii = false ->
  grid_init_axis ii grid s
  = Some (Ok (tset grid ii (axis_coords s ii)), set_delta_at ii (axis_spacing s ii) s).
Proof.
  unfold zero_division, grid_init_axis, axis_coords, axis_spacing. run.
  destruct (F64.eqb _ _) eqn:Heq; simpl; [done|].
  intros Hz.
  destruct (num_div_Ok (num_sub (tget (max_ s) ii) (tget (min_ s) ii))
                       (F64.of_Z (tget (N_ s) ii - 1))) as (d & -> & Hd).
  { rewrite is_py_num_sub, of_Z_eqb_zero.
    replace (tget (N_ s) ii - 1 =? 0) with (tget (N_ s) ii =? 1); [done|].
    destruct (Z.eqb_spec (tget (N_ s) ii) 1), (Z.eqb_spec (tget (N_ s) ii - 1) 0);
      (done || lia). }
  rewrite val_num_sub in Hd. rewrite Hd.
  destruct ii; reflexivity.
Qed.

(** One turn of the loop on an axis whose division raises. *)
Lemma grid_init_axis_Raise (s : GridState) (ii : axis) (grid : triple (list float)) :
  zero_division s ii = true ->
  grid_init_axis ii grid s = Some (Raise ZeroDivisionError, s).
Proof.
  unfold zero_division, grid_init_axis. run.
  destruct (F64.eqb _ _) eqn:Heq; simpl; [done|].
  intros Hz.
  rewrite num_div_Raise; [done|].
  rewrite is_py_num_sub, of_Z_eqb_zero.
  replace (tget (N_ s) ii - 1 =? 0) with (tget (N_ s) ii =? 1); [done|].
  destruct (Z.eqb_spec (tget (N_ s) ii) 1), (Z.eqb_spec (tget (N_ s) ii - 1) 0);
    (done || lia).
Qed.

Lemma grid_init_Ok (s : GridState) :
  is_initialized s = false ->
  (forall a, zero_division s a = false) ->
  grid_init false s = Some (Ok 0, built s).
Proof.
  intros Hinit Hz. unfold grid_init. run. rewrite Hinit.
  rewrite grid_init_axis_Ok by apply (Hz Ax0). simpl.
  rewrite grid_init_axis_Ok by apply (Hz Ax1). simpl.
  rewrite grid_init_axis_Ok by apply (Hz Ax2). simpl.
  reflexivity.
Qed.

Lemma grid_init_Raise (is_vector : bool) (s : GridState) :
  is_initialized s = false ->
  (exists a, zero_division s a = true) ->
  exists s', grid_init is_vector s = Some (Raise ZeroDivisionError, s').
Proof.
  intros Hinit Hz. unfold grid_init. run. rewrite Hinit.
  destruct (zero_division s Ax0) eqn:H0.
  { rewrite grid_init_axis_Raise by apply H0. by eexists. }
  rewrite grid_init_axis_Ok by apply H0. simpl.
  destruct (zero_division s Ax1) eqn:H1.
  { rewrite grid_init_axis_Raise by apply H1. by eexists. }
  rewrite grid_init_axis_Ok by apply H1. simpl.
  destruct (zero_division s Ax2) eqn:H2.
  { rewrite grid_init_axis_Raise by apply H2. by eexists. }
  destruct Hz as [[] Hz]; congruence.
Qed.


(** C4, as the code has it. On an uninitialized state [grid_init] raises
    when some axis has different Python-float bounds together with the
    count 1, and what it raises is the [ZeroDivisionError] of the spacing;
    on every other state, those with counts below 1 included, it returns
    (taken here without the conversion to a vector grid). *)
Theorem grid_init_raises_only_on_zero_division (s : GridState) :
  is_initialized s = false ->
  ((exists a, zero_division s a = true) ->
   forall is_vector,
   exists s', grid_init is_vector s = Some (Raise ZeroDivisionError, s')) /\
  ((forall a, zero_division s a = false) ->
   exists s', grid_init false s = Some (Ok 0, s')) /\
  ((forall a, tget (N_ s) a <> 1) ->
   exists s', grid_init false s = Some (Ok 0, s')).
Proof.
  intros Hinit. split; [|split].
  - intros Hz is_vector. by apply grid_init_Raise.
  - intros Hz. exists (built s). by apply grid_init_Ok.
  - intros HN. exists (built s). apply grid_init_Ok; [done|].
    intros a. unfold zero_division.
    destruct (Z.eqb_spec (tget (N_ s) a) 1) as [E|E]; [by destruct (HN a)|].
    by rewrite andb_false_r.
Qed.

(** ** Centering *)

Lemma nonzero_from_nil (i : nat) (mask : list bool) :
  nonzero_from i mask = [] <-> forall b, b ∈ mask -> b = false.
Proof.
  revert i. induction mask as [|b mask IH]; intros i; simpl.
  - split; [|done]. intros _ b Hb. by apply elem_of_nil in Hb.
  - destruct b.
    + split; [done|]. intros H. by specialize (H true (list_elem_of_here _ _)).
    + rewrite IH. split.
      * intros H b [->|Hb]%elem_of_cons; [done | by apply H].
      * intros H b Hb. apply H. by apply elem_of_cons; right.
Qed.

Lemma nonzero_from_head (i p : nat) (mask : list bool) (rest : list nat) :
  nonzero_from i mask = p :: rest ->
  (i <= p < i + length mask)%nat.
Proof.
  revert i. induction mask as [|b mask IH]; intros i; simpl; [done|].
  destruct b.
  - intros [= <- _]. lia.
  - intros H%IH. lia.
Qed.

Lemma py_min_nonempty (l : list float) :
  l <> [] -> exists v, py_min l = Ok v.
Proof. destruct l; [done | by eexists]. Qed.

Lemma py_max_nonempty (l : list float) :
  l <> [] -> exists v, py_max l = Ok v.
Proof. destruct l; [done | by eexists]. Qed.

(** The first loop returns and touches the spacing only. *)
Lemma center_delta_Ok (d_tilde N_tilde : triple float) (ii : axis) (s : GridState) :
  exists d, center_delta d_tilde N_tilde ii s = Some (Ok tt, set_delta_ d s).
Proof.
  unfold center_delta. run.
  destruct (negb _).
  - by eexists.
  - exists (delta_ s). by destruct s.
Qed.

Lemma center_deltas_Ok (d_tilde N_tilde : triple float) (s : GridState) :
  exists d, for_each axes (center_delta d_tilde N_tilde) s = Some (Ok tt, set_delta_ d s).
Proof.
  unfold axes. simpl. run.
  destruct (center_delta_Ok d_tilde N_tilde Ax0 s) as [d0 ->].
  destruct (center_delta_Ok d_tilde N_tilde Ax1 (set_delta_ d0 s)) as [d1 ->].
  destruct (center_delta_Ok d_tilde N_tilde Ax2 (set_delta_ d1 (set_delta_ d0 s)))
    as [d2 ->].
  by exists d2.
Qed.

(** The second loop on one axis: an [IndexError] when no coordinate is at
    or above the anchor, a shift of the whole axis otherwise. *)
Lemma center_axis_Raise (ac : triple float) (ii : axis) (s : GridState) :
  (forall c, c ∈ coords s ii -> F64.leb (tget ac ii) c = false) ->
  center_axis ac ii s = Some (Raise IndexError, s).
Proof.
  intros H. unfold center_axis, nonzero. run.
  replace (nonzero_from 0 (map (F64.leb (tget ac ii)) (coords s ii))) with (@nil nat);
    [done|].
  symmetry. apply nonzero_from_nil.
  intros b (c & -> & Hc)%list_elem_of_fmap. by apply H.
Qed.

Lemma center_axis_Ok (ac : triple float) (ii : axis) (s : GridState) (c : float) :
  c ∈ coords s ii -> F64.leb (tget ac ii) c = true ->
  exists l,
    center_axis ac ii s = Some (Ok tt, set_coords ii l s) /\
    length l = length (coords s ii).
Proof.
  intros Hc Hle. unfold center_axis, nonzero. run.
  destruct (nonzero_from 0 (map (F64.leb (tget ac ii)) (coords s ii)))
    as [|p rest] eqn:Hnz.
  { exfalso. enough (true = false) by done.
    apply (proj1 (nonzero_from_nil _ _) Hnz).
    apply list_elem_of_fmap. by exists c. }
  apply nonzero_from_head in Hnz. rewrite length_map in Hnz.
  unfold getitem. simpl.
  destruct (coords s ii !! p) as [v|] eqn:Hv.
  - eexists. split; [reflexivity|]. by rewrite length_map.
  - apply lookup_ge_None in Hv. lia.
Qed.

Lemma reaches_true (ac : triple float) (s : GridState) (a : axis) :
  reaches ac s a = true <->
  exists c, c ∈ coords s a /\ F64.leb (tget ac a) c = true.
Proof.
  unfold reaches. induction (coords s a) as [|v l IH]; simpl.
  - split; [done|]. intros (c & Hc & _). by apply elem_of_nil in Hc.
  - rewrite orb_true_iff, IH. split.
    + intros [H|(c & Hc & H)].
      * exists v. split; [apply list_elem_of_here | done].
      * exists c. split; [by apply list_elem_of_further | done].
    + intros (c & [->|Hc]%elem_of_cons & H); [by left | right; by exists c].
Qed.

Lemma reaches_false (ac : triple float) (s : GridState) (a : axis) :
  reaches ac s a = false <->
  forall c, c ∈ coords s a -> F64.leb (tget ac a) c = false.
Proof.
  split.
  - intros Hr c Hc. destruct (F64.leb (tget ac a) c) eqn:Hle; [|done].
    rewrite <- Hr. symmetry. apply reaches_true. by exists c.
  - intros H. destruct (reaches ac s a) eqn:Hr; [|done].
    apply reaches_true in Hr as (c & Hc & Hle). by rewrite (H c Hc) in Hle.
Qed.

Lemma center_axis_cases (ac : triple float) (ii : axis) (s : GridState) :
  if reaches ac s ii
  then exists l, center_axis ac ii s = Some (Ok tt, set_coords ii l s) /\
                 length l = length (coords s ii)
  else center_axis ac ii s = Some (Raise IndexError, s).
Proof.
  destruct (reaches ac s ii) eqn:Hr.
  - apply reaches_true in Hr as (c & Hc & Hle). by apply (center_axis_Ok _ _ _ c).
  - apply center_axis_Raise. by apply reaches_false.
Qed.

(** The second loop as a whole. *)
Lemma center_axes_Ok (ac : triple float) (s : GridState) :
  (forall a, reaches ac s a = true) ->
  exists lx ly lz,
    for_each axes (center_axis ac) s = Some (Ok tt, set_z lz (set_y ly (set_x lx s))) /\
    length lx = length (x s) /\ length ly = length (y s) /\ length lz = length (z s).
Proof.
  intros Hr. unfold axes. simpl. run.
  pose proof (center_axis_cases ac Ax0 s) as H0. rewrite (Hr Ax0) in H0.
  destruct H0 as (lx & -> & Hx). simpl.
  pose proof (center_axis_cases ac Ax1 (set_x lx s)) as H1.
  change (reaches ac (set_x lx s) Ax1) with (reaches ac s Ax1) in H1.
  rewrite (Hr Ax1) in H1. destruct H1 as (ly & -> & Hy). simpl.
  pose proof (center_axis_cases ac Ax2 (set_y ly (set_x lx s))) as H2.
  change (reaches ac (set_y ly (set_x lx s)) Ax2) with (reaches ac s Ax2) in H2.
  rewrite (Hr Ax2) in H2. destruct H2 as (lz & -> & Hz). simpl.
  by exists lx, ly, lz.
Qed.

Lemma center_axes_Raise (ac : triple float) (s : GridState) :
  (exists a, reaches ac s a = false) ->
  exists s', for_each axes (center_axis ac) s = Some (Raise IndexError, s').
Proof.
  intros Hr. unfold axes. simpl. run.
  pose proof (center_axis_cases ac Ax0 s) as H0.
  destruct (reaches ac s Ax0) eqn:R0; [|rewrite H0; by eexists].
  destruct H0 as (lx & -> & Hx). simpl.
  pose proof (center_axis_cases ac Ax1 (set_x lx s)) as H1.
  change (reaches ac (set_x lx s) Ax1) with (reaches ac s Ax1) in H1.
  destruct (reaches ac s Ax1) eqn:R1; [|rewrite H1; by eexists].
  destruct H1 as (ly & -> & Hy). simpl.
  pose proof (center_axis_cases ac Ax2 (set_y ly (set_x lx s))) as H2.
  change (reaches ac (set_y ly (set_x lx s)) Ax2) with (reaches ac s Ax2) in H2.
  destruct (reaches ac s Ax2) eqn:R2; [|rewrite H2; by eexists].
  destruct Hr as [[] Hr]; congruence.
Qed.

Lemma reaches_nonempty (ac : triple float) (s : GridState) (a : axis) :
  reaches ac s a = true -> coords s a <> [].
Proof. unfold reaches. by destruct (coords s a). Qed.

Lemma length_nonempty {A} (l l' : list A) : length l = length l' -> l' <> [] -> l <> [].
Proof. by destruct l, l'. Qed.

Lemma get_grid_axis_Ok (start : string) (ii : axis) (s : GridState) :
  coords s ii <> [] ->
  exists line, get_grid_axis start ii s = Some (Ok line, s).
Proof.
  intros Hne. unfold get_grid_axis. run.
  destruct (py_min_nonempty _ Hne) as [mn ->].
  destruct (py_max_nonempty _ Hne) as [mx ->].
  by eexists.
Qed.

Lemma get_grid_Ok (start : string) (s : GridState) :
  (forall a, coords s a <> []) ->
  exists lines, get_grid start s = Some (Ok lines, s).
Proof.
  intros Hne. unfold get_grid. run.
  destruct (get_grid_axis_Ok start Ax0 s (Hne Ax0)) as [l0 ->].
  destruct (get_grid_axis_Ok start Ax1 s (Hne Ax1)) as [l1 ->].
  destruct (get_grid_axis_Ok start Ax2 s (Hne Ax2)) as [l2 ->].
  by eexists.
Qed.

(** [center_grid] when every axis reaches the anchor. *)
Lemma center_grid_Ok (ac : triple float) (s : GridState) :
  (forall a, reaches ac s a = true) ->
  exists msgs s',
    center_grid ac s = Some (Ok (0, msgs), s') /\
    length (x s') = length (x s) /\
    length (y s') = length (y s) /\
    length (z s') = length (z s) /\
    N_ s' = Triple (Z.of_nat (length (x s'))) (Z.of_nat (length (y s')))
                   (Z.of_nat (length (z s'))).
Proof.
  intros Hr.
  destruct (center_deltas_Ok
              (tmap (fun a => F64.abs (F64.sub F64.zero a)) ac)
              (Triple
                 (F64.round (F64.abs (F64.div (F64.abs (F64.sub F64.zero (t0 ac))) (t0 (delta_ s)))))
                 (F64.round (F64.abs (F64.div (F64.abs (F64.sub F64.zero (t1 ac))) (t1 (delta_ s)))))
                 (F64.round (F64.abs (F64.div (F64.abs (F64.sub F64.zero (t2 ac))) (t2 (delta_ s))))))
              s) as [d Hd].
  destruct (center_axes_Ok ac (set_delta_ d s)) as (lx & ly & lz & Ha & Hx & Hy & Hz).
  { intros a. by rewrite <- (Hr a). }
  unfold center_grid, axes in *. run. rewrite Hd, Ha. clear Hd Ha. state.
  assert (Nx : lx <> []).
  { apply (length_nonempty _ _ Hx), (reaches_nonempty ac s Ax0), Hr. }
  assert (Ny : ly <> []).
  { apply (length_nonempty _ _ Hy), (reaches_nonempty ac s Ax1), Hr. }
  assert (Nz : lz <> []).
  { apply (length_nonempty _ _ Hz), (reaches_nonempty ac s Ax2), Hr. }
  destruct (py_min_nonempty _ Nx) as [mn0 ->].
  destruct (py_min_nonempty _ Ny) as [mn1 ->].
  destruct (py_min_nonempty _ Nz) as [mn2 ->].
  destruct (py_max_nonempty _ Nx) as [mx0 ->].
  destruct (py_max_nonempty _ Ny) as [mx1 ->].
  destruct (py_max_nonempty _ Nz) as [mx2 ->].
  match goal with
  | |- context [get_grid tab ?st] =>
      destruct (get_grid_Ok tab st) as [lines ->]; [by intros []|]
  end.
  unfold center_warning. run.
  eexists _, _. split; [reflexivity|]. by simpl.
Qed.

(** [center_grid] when some axis does not reach the anchor. *)
Lemma center_grid_Raise (ac : triple float) (s : GridState) :
  (exists a, reaches ac s a = false) ->
  exists s', center_grid ac s = Some (Raise IndexError, s').
Proof.
  intros Hr.
  destruct (center_deltas_Ok
              (tmap (fun a => F64.abs (F64.sub F64.zero a)) ac)
              (Triple
                 (F64.round (F64.abs (F64.div (F64.abs (F64.sub F64.zero (t0 ac))) (t0 (delta_ s)))))
                 (F64.round (F64.abs (F64.div (F64.abs (F64.sub F64.zero (t1 ac))) (t1 (delta_ s)))))
                 (F64.round (F64.abs (F64.div (F64.abs (F64.sub F64.zero (t2 ac))) (t2 (delta_ s))))))
              s) as [d Hd].
  destruct (center_axes_Raise ac (set_delta_ d s)) as [s' Ha].
  { destruct Hr as [a Ha]. exists a. by rewrite <- Ha. }
  unfold center_grid, axes in *. run. rewrite Hd, Ha. by eexists.
Qed.

Lemma reaches_all_or_not (ac : triple float) (s : GridState) :
  (forall a, reaches ac s a = true) \/ (exists a, reaches ac s a = false).
Proof.
  destruct (reaches ac s Ax0) eqn:R0; [|right; by exists Ax0].
  destruct (reaches ac s Ax1) eqn:R1; [|right; by exists Ax1].
  destruct (reaches ac s Ax2) eqn:R2; [|right; by exists Ax2].
  left. by intros [].
Qed.

(** C8. When on some axis no coordinate is at or above the anchor,
    [center_grid] raises [IndexError]; when every axis has such a
    coordinate, it returns. *)
Theorem center_grid_index_error (ac : triple float) (s : GridState) :
  ((exists a, forall c, c ∈ coords s a -> F64.leb (tget ac a) c = false) ->
   exists s', center_grid ac s = Some (Raise IndexError, s')) /\
  ((forall a, exists c, c ∈ coords s a /\ F64.leb (tget ac a) c = true) ->
   exists msgs s', center_grid ac s = Some (Ok (0, msgs), s')).
Proof.
  split.
  - intros [a Ha]. apply center_grid_Raise. exists a. by apply reaches_false.
  - intros H.
    destruct (center_grid_Ok ac s) as (msgs & s' & Hc & _).
    + intros a. by apply reaches_true.
    + by exists msgs, s'.
Qed.

(** C10. A [center_grid] that returns leaves as many points on each axis
    as there were, and stores exactly these lengths in [N_]. *)
Theorem center_grid_keeps_lengths (ac : triple float) (s s' : GridState)
    (r : Z * list message) :
  center_grid ac s = Some (Ok r, s') ->
  length (x s') = length (x s) /\
  length (y s') = length (y s) /\
  length (z s') = length (z s) /\
  N_ s' = Triple (Z.of_nat (length (x s))) (Z.of_nat (length (y s)))
                 (Z.of_nat (length (z s))).
Proof.
  intros Hc.
  destruct (reaches_all_or_not ac s) as [Hr|Hr].
  - destruct (center_grid_Ok ac s Hr) as (msgs & s1 & Hc1 & Hx & Hy & Hz & HN).
    rewrite Hc in Hc1. injection Hc1 as _ <-.
    by rewrite HN, Hx, Hy, Hz.
  - destruct (center_grid_Raise ac s Hr) as [s1 Hc1].
    by rewrite Hc in Hc1.
Qed.

(** ** The random sampler *)

Section RandomGridFacts.
Variable rng : Type.
Variable normal : float -> float -> nat -> rng -> list float * rng.
Hypothesis normal_size :
  forall loc scale size g, length (fst (normal loc scale size g)) = size.

Lemma length_concat_rows (n : nat) (plane : list (list float)) :
  rows_of n plane -> length (concat plane) = (length plane * n)%nat.
Proof.
  induction 1 as [|row plane Hrow _ IH]; simpl; [done|].
  rewrite length_app, IH, Hrow. lia.
Qed.

Lemma random_atoms_shape (ii_d : axis) (N : Z) (geo_spec : list (triple float)) :
  forall (ii_a : nat) (grid : triple (list (list float))) (g : rng),
    (forall a, rows_of (Z.to_nat N) (tget grid a)) ->
    exists grid' g',
      random_atoms rng normal ii_d ii_a geo_spec N (grid, g) = (grid', g') /\
      (forall a, rows_of (Z.to_nat N) (tget grid' a)) /\
      (forall a, length (tget grid' a) = length (tget grid a)).
Proof.
  induction geo_spec as [|atom rest IH]; intros ii_a grid g Hrows; simpl.
  { by exists grid, g. }
  destruct (normal (tget atom ii_d) F64.half (Z.to_nat N) g) as [sample g1] eqn:Hs.
  assert (Hlen : length sample = Z.to_nat N).
  { by rewrite <- (normal_size (tget atom ii_d) F64.half (Z.to_nat N) g), Hs. }
  destruct (IH (S ii_a)
              (tset grid ii_d (<[ii_a := sample]> (tget grid ii_d))) g1)
    as (grid' & g' & Hr & H1 & H2).
  { intros a. unfold rows_of. destruct (decide (ii_d = a)) as [<-|Hne].
    - rewrite tget_tset_eq. apply Forall_insert; [apply Hrows | done].
    - rewrite tget_tset_ne by done. apply Hrows. }
  exists grid', g'. split; [exact Hr|]. split; [exact H1|].
  intros a. rewrite H2. destruct (decide (ii_d = a)) as [<-|Hne].
  - by rewrite tget_tset_eq, length_insert.
  - by rewrite tget_tset_ne.
Qed.

(** The part of C5 that the code does have: for a count that is not
    negative, [random_grid] returns, leaves three arrays of [A*N] values
    and marks the grid as initialized. *)
Lemma random_grid_shape (geo_spec : list (triple float)) (N : Z) (scale : float)
    (g : rng) (s : GridState) :
  0 <= N ->
  exists g' s',
    random_grid rng normal geo_spec N scale g s = Some (Ok (0, g'), s') /\
    length (x s') = (length geo_spec * Z.to_nat N)%nat /\
    length (y s') = (length geo_spec * Z.to_nat N)%nat /\
    length (z s') = (length geo_spec * Z.to_nat N)%nat /\
    is_initialized s' = true.
Proof.
  intros HN. unfold random_grid, np_zeros3d. run.
  destruct (N <? 0) eqn:Hneg; [lia|]. simpl.
  set (plane := replicate (length geo_spec) (replicate (Z.to_nat N) F64.zero)).
  assert (H0 : forall a, rows_of (Z.to_nat N) (tget (Triple plane plane plane) a)).
  { intros a. unfold rows_of, plane.
    destruct a; simpl; apply Forall_replicate; by rewrite length_replicate. }
  destruct (random_atoms_shape Ax0 N geo_spec 0 _ g H0)
    as (grid0 & g0 & -> & R0 & L0).
  destruct (random_atoms_shape Ax1 N geo_spec 0 _ g0 R0)
    as (grid1 & g1 & -> & R1 & L1).
  destruct (random_atoms_shape Ax2 N geo_spec 0 _ g1 R1)
    as (grid2 & g2 & -> & R2 & L2).
  eexists _, _. split; [reflexivity|]. state. unfold tmap. state.
  pose proof (length_concat_rows _ _ (R2 Ax0)) as C0.
  pose proof (length_concat_rows _ _ (R2 Ax1)) as C1.
  pose proof (length_concat_rows _ _ (R2 Ax2)) as C2.
  pose proof (L2 Ax0) as A0. pose proof (L1 Ax0) as B0. pose proof (L0 Ax0) as D0.
  pose proof (L2 Ax1) as A1. pose proof (L1 Ax1) as B1. pose proof (L0 Ax1) as D1.
  pose proof (L2 Ax2) as A2. pose proof (L1 Ax2) as B2. pose proof (L0 Ax2) as D2.
  state. unfold plane in *. rewrite length_replicate in D0, D1, D2.
  rewrite C0, C1, C2, A0, A1, A2, B0, B1, B2, D0, D1, D2. done.
Qed.

End RandomGridFacts.

(** C5, where the code departs from it. The argument [scale] does not
    reach the generator: two calls that differ in [scale] only are the same
    computation, and on one center with two samples and [scale = 2] the
    three requests made carry the width 0.5. *)
Theorem random_grid_scale_is_fixed :
  (forall (rng : Type) (normal : float -> float -> nat -> rng -> list float * rng)
          (geo_spec : list (triple float)) (N : Z) (scale scale' : float)
          (g : rng) (s : GridState),
      random_grid rng normal geo_spec N scale g s
      = random_grid rng normal geo_spec N scale' g s) /\
  fst <$> random_grid (list request) recording_normal [Triple f1 f2 f3] 2 f2 []
            initial_state
  = Some (Ok (0, [(f1, F64.half, 2%nat); (f2, F64.half, 2%nat);
                  (f3, F64.half, 2%nat)])).
Proof. split; [reflexivity | vm_compute; reflexivity]. Qed.

(** ** The grid file reader *)

Lemma find_dim_range (j : string) : -1 <= find dim j <= 2.
Proof.
  unfold find, dim. simpl.
  destruct j as [|c j]; [simpl; lia|].
  repeat (match goal with
          | |- context [if ?b then _ else _] => destruct b
          end; try lia).
Qed.

Lemma py_index3_Ok (k : Z) : -1 <= k <= 2 -> exists a, py_index3 k = Ok a.
Proof.
  intros Hk. unfold py_index3.
  assert (k = -1 \/ k = 0 \/ k = 1 \/ k = 2) as [-> | [-> | [-> | ->]]] by lia;
    by eexists.
Qed.

Lemma axis_letter_index (c0 : string) (a : axis) :
  axis_letter c0 = Some a -> py_index3 (find dim (lower c0)) = Ok a.
Proof.
  unfold axis_letter.
  destruct (String.eqb_spec (lower c0) "x") as [->|_]; [by intros [= <-]|].
  destruct (String.eqb_spec (lower c0) "y") as [->|_]; [by intros [= <-]|].
  destruct (String.eqb_spec (lower c0) "z") as [->|_]; [by intros [= <-]|].
  done.
Qed.

Lemma read_line_skipped (comment line : string) (st : read_locals) :
  skipped comment line = true -> read_line comment line st = Ok st.
Proof. unfold skipped, read_line. by intros ->. Qed.

(** Lines that are passed over have no effect on the loop. *)
Lemma read_lines_counted (comment : string) (lines : list string) :
  forall st,
    read_lines comment lines st
    = read_lines comment (List.filter (counted comment) lines) st.
Proof.
  induction lines as [|line lines IH]; intros st; simpl; [done|].
  unfold counted at 1. destruct (skipped comment line) eqn:Hs; simpl.
  - rewrite read_line_skipped by done. simpl. apply IH.
  - destruct (read_line comment line st); simpl; [apply IH | done].
Qed.

Lemma index_ok_set (index : triple (option Z)) (a : axis) (j : string) :
  index_ok index -> index_ok (tset index a (Some (find dim j))).
Proof.
  intros H b k. pose proof (find_dim_range j).
  destruct (decide (a = b)) as [<-|Hne].
  - rewrite tget_tset_eq. intros [= <-]. lia.
  - rewrite tget_tset_ne by done. apply H.
Qed.

(** The loop over the tokens of a three-token line does not raise. *)
Lemma read_vector_tokens_Ok (cl : list string) :
  forall (i : Z) (grid : triple (list string)) (index : triple (option Z)),
    0 <= i -> i + Z.of_nat (length cl) <= 3 ->
    index_ok index ->
    exists grid' index',
      read_vector_tokens i cl grid index = Ok (grid', index') /\ index_ok index'.
Proof.
  induction cl as [|j cl IH]; intros i grid index Hi Hlen Hok; simpl in *.
  - by eexists _, _.
  - destruct (py_index3_Ok i) as [a ->]; [lia|]. simpl.
    destruct (tget index a) as [k|] eqn:Hk.
    + destruct (py_index3_Ok k (Hok _ _ Hk)) as [b ->]. simpl.
      apply IH; [lia | lia | done].
    + apply IH; [lia | lia | by apply index_ok_set].
Qed.

Lemma counted_tokens (comment line : string) :
  counted comment line = true ->
  exists c0 rest, split line = c0 :: rest /\ String.eqb c0 comment = false.
Proof.
  unfold counted, skipped. destruct (split line) as [|c0 rest]; [done|].
  intros H%negb_true_iff. by exists c0, rest.
Qed.

(** Once the file is taken for a vector grid, a counted line that does not
    have three tokens stops the reading. *)
Lemma read_lines_vector_conflict (comment : string) (lines : list string) :
  forall st,
    rl_is_vector st = Some true ->
    index_ok (rl_index st) ->
    (exists l, l ∈ lines /\ counted comment l = true /\ length (split l) <> 3%nat) ->
    exists cl, read_lines comment lines st = Raise (IOError_Inconsistency cl).
Proof.
  induction lines as [|line lines IH]; intros st Hv Hok (l & Hl & Hc & Hn).
  { by apply elem_of_nil in Hl. }
  simpl. destruct (skipped comment line) eqn:Hs.
  - rewrite read_line_skipped by done. simpl. apply IH; [done | done|].
    apply elem_of_cons in Hl as [->|Hl]; [|by exists l].
    unfold counted in Hc. by rewrite Hs in Hc.
  - destruct (counted_tokens comment line) as (c0 & rest & Hsp & Hc0).
    { unfold counted. by rewrite Hs. }
    unfold read_line. rewrite Hsp, Hc0, <- Hsp. unfold check. rewrite Hv.
    destruct (length (split line) =? 3)%nat eqn:H3; simpl.
    + apply Nat.eqb_eq in H3.
      destruct (read_vector_tokens_Ok (split line) 0 (rl_grid st) (rl_index st))
        as (grid' & index' & -> & Hok'); [lia | lia | done|].
      simpl. apply IH; [done | done|].
      apply elem_of_cons in Hl as [->|Hl]; [done | by exists l].
    + rewrite andb_false_r. simpl. by eexists.
Qed.

(** Once the file is taken for a regular grid, a counted line that does
    not have four tokens stops the reading. *)
Lemma read_lines_regular_conflict (comment : string) (lines : list string) :
  forall st,
    rl_is_vector st = Some false ->
    (exists l, l ∈ lines /\ counted comment l = true /\ length (split l) <> 4%nat) ->
    exists cl, read_lines comment lines st = Raise (IOError_Inconsistency cl).
Proof.
  induction lines as [|line lines IH]; intros st Hv (l & Hl & Hc & Hn).
  { by apply elem_of_nil in Hl. }
  simpl. destruct (skipped comment line) eqn:Hs.
  - rewrite read_line_skipped by done. simpl. apply IH; [done|].
    apply elem_of_cons in Hl as [->|Hl]; [|by exists l].
    unfold counted in Hc. by rewrite Hs in Hc.
  - destruct (counted_tokens comment line) as (c0 & rest & Hsp & Hc0).
    { unfold counted. by rewrite Hs. }
    unfold read_line. rewrite Hsp, Hc0, <- Hsp. unfold check. rewrite Hv.
    rewrite andb_false_r.
    destruct (length (split line) =? 4)%nat eqn:H4; simpl.
    + apply Nat.eqb_eq in H4. rewrite ?Hsp.
      destruct (py_index3_Ok _ (find_dim_range (lower c0))) as [a ->]. simpl.
      apply IH; [done|].
      apply elem_of_cons in Hl as [->|Hl]; [done | by exists l].
    + by eexists.
Qed.

(** From the start: a counted line of three tokens and one of four cannot
    both be read. *)
Lemma read_lines_mixed (comment : string) (lines : list string) :
  forall st,
    rl_is_vector st = None ->
    index_ok (rl_index st) ->
    (exists l, l ∈ lines /\ counted comment l = true /\ length (split l) = 3%nat) ->
    (exists l, l ∈ lines /\ counted comment l = true /\ length (split l) = 4%nat) ->
    exists cl, read_lines comment lines st = Raise (IOError_Inconsistency cl).
Proof.
  induction lines as [|line lines IH];
    intros st Hv Hok (l3 & Hl3 & Hc3 & Hn3) (l4 & Hl4 & Hc4 & Hn4).
  { by apply elem_of_nil in Hl3. }
  simpl. destruct (skipped comment line) eqn:Hs.
  - rewrite read_line_skipped by done. simpl. apply IH; [done | done | |].
    + apply elem_of_cons in Hl3 as [->|Hl3]; [|by exists l3].
      unfold counted in Hc3. by rewrite Hs in Hc3.
    + apply elem_of_cons in Hl4 as [->|Hl4]; [|by exists l4].
      unfold counted in Hc4. by rewrite Hs in Hc4.
  - destruct (counted_tokens comment line) as (c0 & rest & Hsp & Hc0).
    { unfold counted. by rewrite Hs. }
    unfold read_line. rewrite Hsp, Hc0, <- Hsp. unfold check. rewrite Hv.
    rewrite !andb_true_r.
    destruct (length (split line) =? 3)%nat eqn:H3; simpl.
    + apply Nat.eqb_eq in H3.
      destruct (read_vector_tokens_Ok (split line) 0 (rl_grid st) (rl_index st))
        as (grid' & index' & -> & Hok'); [lia | lia | done|].
      simpl. apply read_lines_vector_conflict; [done | done|].
      apply elem_of_cons in Hl4 as [->|Hl4]; [lia|].
      exists l4. repeat split; [done | done | lia].
    + destruct (length (split line) =? 4)%nat eqn:H4; simpl; [|by eexists].
      apply Nat.eqb_eq in H4. rewrite ?Hsp.
      destruct (py_index3_Ok _ (find_dim_range (lower c0))) as [a ->]. simpl.
      apply read_lines_regular_conflict; [done|].
      apply elem_of_cons in Hl3 as [->|Hl3]; [lia|].
      exists l3. repeat split; [done | done | lia].
Qed.

(** C6. A file that has, among the lines that are neither blank nor
    comments, one of three tokens and one of four makes [read] raise the
    inconsistency error; and the lines that are blank or start with the
    comment marker play no part: two files with the same other lines are
    read alike. *)
Theorem read_mixed_file_inconsistent (float_of_string : string -> option float)
    (comment : string) :
  (forall (text : string) (s : GridState) (l3 l4 : string),
      l3 ∈ file_lines text -> counted comment l3 = true ->
      length (split l3) = 3%nat ->
      l4 ∈ file_lines text -> counted comment l4 = true ->
      length (split l4) = 4%nat ->
      exists cl,
        read float_of_string (Some text) comment s
        = Some (Raise (IOError_Inconsistency cl), s)) /\
  (forall (text text' : string) (s : GridState),
      List.filter (counted comment) (file_lines text)
      = List.filter (counted comment) (file_lines text') ->
      read float_of_string (Some text) comment s
      = read float_of_string (Some text') comment s).
Proof.
  split.
  - intros text s l3 l4 Hl3 Hc3 Hn3 Hl4 Hc4 Hn4.
    destruct (read_lines_mixed comment (file_lines text) read_locals_init)
      as [cl Hcl]; [done | by intros a k; destruct a | by exists l3 | by exists l4|].
    exists cl. unfold read. run. by rewrite Hcl.
  - intros text text' s Heq. unfold read. run.
    by rewrite (read_lines_counted comment (file_lines text)), Heq,
      <- (read_lines_counted comment (file_lines text')).
Qed.

(** One line [<axis-letter> <min> <max> <count>] read in the regular
    format. *)
Lemma read_line_regular (comment line : string) (st : read_locals)
    (c0 lo hi cnt : string) (a : axis) :
  split line = [c0; lo; hi; cnt] ->
  counted comment line = true ->
  rl_is_vector st <> Some true ->
  axis_letter c0 = Some a ->
  read_line comment line st
  = Ok (ReadLocals (Some false) (tset (rl_grid st) a [lo; hi; cnt]) (rl_index st)).
Proof.
  intros Hsp Hc Hv Ha.
  destruct (counted_tokens comment line Hc) as (c0' & rest & Hsp' & Hc0).
  rewrite Hsp in Hsp'. injection Hsp' as <- <-.
  unfold read_line. rewrite Hsp, Hc0. unfold check. simpl.
  destruct (rl_is_vector st) as [[]|]; [done | |];
    simpl; by rewrite (axis_letter_index _ _ Ha).
Qed.

Lemma order_cases (order : list axis) :
  order ≡ₚ axes ->
  order = [Ax0; Ax1; Ax2] \/ order = [Ax0; Ax2; Ax1] \/
  order = [Ax1; Ax0; Ax2] \/ order = [Ax1; Ax2; Ax0] \/
  order = [Ax2; Ax0; Ax1] \/ order = [Ax2; Ax1; Ax0].
Proof.
  intros Hp.
  assert (Hnd : NoDup order).
  { rewrite Hp. by apply (bool_decide_unpack (NoDup axes)). }
  pose proof (Permutation_length Hp) as Hlen.
  destruct order as [|a0 [|a1 [|a2 [|]]]]; try done.
  apply NoDup_cons in Hnd as [H0 Hnd].
  apply NoDup_cons in Hnd as [H1 _].
  destruct a0, a1, a2; set_solver.
Qed.

(** C7. A regular-format file has, apart from blank and comment lines, one
    line [<axis-letter> <min> <max> <count>] per axis, in any order, with
    numbers that convert.  Reading it returns [False], stores the three
    columns in [min_], [max_] and [N_], and leaves [x], [y], [z],
    [is_initialized] and the other globals as they were. *)
Theorem read_regular_file (float_of_string : string -> option float)
    (comment text : string) (s : GridState) (order : list axis)
    (line letter lo hi cnt : axis -> string) (flo fhi fcnt : axis -> float) :
  List.filter (counted comment) (file_lines text) = line <$> order ->
  order ≡ₚ axes ->
  (forall a, split (line a) = [letter a; lo a; hi a; cnt a]) ->
  (forall a, axis_letter (letter a) = Some a) ->
  (forall a, float_of_string (lo a) = Some (flo a)) ->
  (forall a, float_of_string (hi a) = Some (fhi a)) ->
  (forall a, float_of_string (cnt a) = Some (fcnt a)) ->
  exists s',
    read float_of_string (Some text) comment s = Some (Ok (Some false), s') /\
    min_ s' = Triple (NpFloat (flo Ax0)) (NpFloat (flo Ax1)) (NpFloat (flo Ax2)) /\
    max_ s' = Triple (NpFloat (fhi Ax0)) (NpFloat (fhi Ax1)) (NpFloat (fhi Ax2)) /\
    N_ s' = Triple (F64.to_int (fcnt Ax0)) (F64.to_int (fcnt Ax1))
                   (F64.to_int (fcnt Ax2)) /\
    x s' = x s /\ y s' = y s /\ z s' = z s /\
    is_initialized s' = is_initialized s /\
    d3r s' = d3r s /\ delta_ s' = delta_ s.
Proof.
  intros Hdata Horder Hsplit Hletter Hlo Hhi Hcnt.
  assert (Hcounted : forall a, counted comment (line a) = true).
  { intros a.
    assert (Hin : In (line a) (List.filter (counted comment) (file_lines text))).
    { rewrite Hdata. apply list_elem_of_In, list_elem_of_fmap. exists a.
      split; [done|]. rewrite Horder. unfold axes. destruct a; set_solver. }
    by apply filter_In in Hin as [_ Hin]. }
  assert (Hread : read_lines comment (file_lines text) read_locals_init
                  = Ok (ReadLocals (Some false)
                          (Triple [lo Ax0; hi Ax0; cnt Ax0] [lo Ax1; hi Ax1; cnt Ax1]
                                  [lo Ax2; hi Ax2; cnt Ax2])
                          (Triple None None None))).
  { rewrite read_lines_counted, Hdata.
    destruct (order_cases order Horder) as [-> | [-> | [-> | [-> | [-> | ->]]]]]; simpl;
      repeat (erewrite read_line_regular;
              [simpl | apply Hsplit | apply Hcounted | done | apply Hletter]);
      reflexivity. }
  unfold read. run. rewrite Hread. simpl.
  unfold np_array_float64. simpl.
  rewrite !Hlo, !Hhi, !Hcnt. simpl.
  eexists. split; [reflexivity|]. by simpl.
Qed.

(** * The statements on concrete grids and files *)

Lemma grid2vector_flatten_witness :
  exists s',
    grid2vector grid_221 = Some (Ok 0, s') /\
    x s' = [f1; f1; f2; f2] /\ y s' = [f3; f4; f3; f4] /\ z s' = [f5; f5; f5; f5].
Proof.
  destruct (grid2vector_flatten grid_221) as (s' & Hg & _);
    [reflexivity | reflexivity | reflexivity
     | by vm_compute | by vm_compute | by vm_compute | by vm_compute |].
  exists s'. split; [exact Hg|].
  vm_compute in Hg. injection Hg as <-. by vm_compute.
Defined.

(** C1 as stated fails on the default bounds with 1291 points per axis:
    [grid_init] builds the three axes, their lengths are the stored
    counts, and the counter [count] of the inlined loop would have to pass
    [INT_MAX]. *)
Lemma grid2vector_flatten_counterexample :
  exists s,
    grid_init false (with_counts 1291 1291 1291) = Some (Ok 0, s) /\
    Z.of_nat (length (x s)) = t0 (N_ s) /\
    Z.of_nat (length (y s)) = t1 (N_ s) /\
    Z.of_nat (length (z s)) = t2 (N_ s) /\
    INT_MAX < npoints (x s) (y s) (z s) /\
    grid2vector s = None.
Proof.
  exists (built (with_counts 1291 1291 1291)).
  split; [apply grid_init_Ok; [reflexivity | by intros []]|].
  assert (L : forall a, length (axis_coords (with_counts 1291 1291 1291) a) = 1291%nat).
  { intros a. unfold axis_coords.
    replace (F64.eqb _ _) with false by (by destruct a).
    rewrite length_fmap, length_seqZ. by destruct a. }
  assert (Hn : npoints (x (built (with_counts 1291 1291 1291)))
                       (y (built (with_counts 1291 1291 1291)))
                       (z (built (with_counts 1291 1291 1291))) = 2151685171).
  { unfold npoints. cbn [built x y z]. by rewrite !L. }
  split; [cbn [built x]; by rewrite L|].
  split; [cbn [built y]; by rewrite L|].
  split; [cbn [built z]; by rewrite L|].
  split; [by rewrite Hn|].
  apply grid2vector_undefined; [by vm_compute|].
  intros (_ & H & _). rewrite Hn in H. by vm_compute in H.
Qed.



Lemma vector2grid_is_grid2vector_witness :
  vector2grid grid_221 = grid2vector grid_221 /\
  exists s3,
    vector2grid grid_221_flat_counts_444 = Some (Ok 0, s3) /\
    length (x s3) = 64%nat /\ x s3 <> x grid_221.
Proof.
  split; [apply (proj1 vector2grid_is_grid2vector)|].
  assert (H : exists s3, vector2grid grid_221_flat_counts_444 = Some (Ok 0, s3)
                         /\ length (x s3) = 64%nat).
  { eexists. vm_compute. split; reflexivity. }
  destruct H as (s3 & H & Hlen). exists s3. split; [exact H|]. split; [exact Hlen|].
  apply (proj2 vector2grid_is_grid2vector f1 f2 f3 f4 f5 grid_221
           (flattened 0 grid_221) grid_221_flat_counts_444 s3 (Ok 0));
    try reflexivity; exact H.
Defined.

Lemma grid_init_raises_only_on_zero_division_witness :
  (exists s', grid_init true (with_counts 2 1 2) = Some (Raise ZeroDivisionError, s')) /\
  (exists s', grid_init false (with_counts 0 2 2) = Some (Ok 0, s')).
Proof.
  split.
  - apply (proj1 (grid_init_raises_only_on_zero_division (with_counts 2 1 2) eq_refl)).
    by exists Ax1.
  - apply (proj1 (proj2 (grid_init_raises_only_on_zero_division (with_counts 0 2 2)
                           eq_refl))).
    by intros [].
Defined.

(** C4 as stated fails on the defaults with no point on the x-axis: the
    count is below 1 and [grid_init] returns, with an empty x-axis. *)
Lemma grid_init_raises_only_on_zero_division_counterexample :
  is_initialized (with_counts 0 2 2) = false /\
  tget (N_ (with_counts 0 2 2)) Ax0 < 1 /\
  exists s', grid_init false (with_counts 0 2 2) = Some (Ok 0, s') /\ x s' = [].
Proof. repeat split; try done. eexists. vm_compute. split; reflexivity. Qed.



Lemma read_mixed_file_inconsistent_witness :
  exists cl,
    read integer_literal (Some mixed_text) "#" initial_state
    = Some (Raise (IOError_Inconsistency cl), initial_state).
Proof.
  apply (proj1 (read_mixed_file_inconsistent integer_literal "#") mixed_text
           initial_state ("x y z" ++ nl)%string ("x 0 1 2" ++ nl)%string);
    try reflexivity; apply list_elem_of_In; vm_compute; tauto.
Defined.

Lemma read_regular_file_witness :
  exists s',
    read integer_literal (Some regular_text) "#" initial_state
    = Some (Ok (Some false), s') /\
    N_ s' = Triple 11 5 1 /\
    x s' = x initial_state /\ is_initialized s' = false.
Proof.
  destruct (read_regular_file integer_literal "#" regular_text initial_state
              [Ax0; Ax2; Ax1] regular_line
              (regular_token 0) (regular_token 1) (regular_token 2) (regular_token 3)
              (regular_value 1) (regular_value 2) (regular_value 3))
    as (s' & Hr & _ & _ & HN & Hx & _ & _ & Hi & _);
    try (by intros []); try (by vm_compute).
  { unfold axes. apply perm_skip, perm_swap. }
  exists s'. split; [exact Hr|]. split; [|done].
  rewrite HN. by vm_compute.
Defined.

Lemma center_grid_index_error_witness :
  (exists s', center_grid anchor_above grid_221 = Some (Raise IndexError, s')) /\
  (exists msgs s', center_grid anchor_inside grid_221 = Some (Ok (0, msgs), s')).
Proof.
  split.
  - apply (proj1 (center_grid_index_error anchor_above grid_221)).
    exists Ax0. intros c Hc. simpl in Hc.
    apply elem_of_cons in Hc as [->|Hc]; [by vm_compute|].
    apply elem_of_cons in Hc as [->|Hc]; [by vm_compute|].
    by apply elem_of_nil in Hc.
  - apply (proj2 (center_grid_index_error anchor_inside grid_221)).
    intros []; eexists; (split; [apply list_elem_of_here | by vm_compute]).
Defined.

Lemma center_grid_keeps_lengths_witness :
  exists r s',
    center_grid anchor_inside grid_221 = Some (Ok r, s') /\
    length (x s') = 2%nat /\ length (y s') = 2%nat /\ length (z s') = 1%nat /\
    N_ s' = Triple 2 2 1.
Proof.
  assert (H : exists r s', center_grid anchor_inside grid_221 = Some (Ok r, s')).
  { eexists _, _. vm_compute. reflexivity. }
  destruct H as (r & s' & H). exists r, s'. split; [exact H|].
  apply (center_grid_keeps_lengths _ _ _ _ H).
Defined.

(** * Further properties of the module *)

(** ** The spherical sampler *)

Section Sph2CartFacts.
Variable sin cos : float -> float.

Lemma sph_points_alt (rs thetas phis : list float) :
  sph_points sin cos rs thetas phis
  = (ri ← rs; thetaj ← thetas; sph_point sin cos ri thetaj <$> phis).
Proof.
  unfold sph_points.
  apply list_bind_ext; [|done]. intros ri.
  apply list_bind_ext; [|done]. intros thetaj.
  induction phis as [|phik phis IH]; [done|].
  rewrite bind_cons, IH. done.
Qed.

Lemma sph_loop_k_eq (p : Z) (ri thetaj : float) (phis : list float) :
  forall (k : Z) (w : list (float * float * float)) (r : nat),
    p = Z.of_nat (length w + r) ->
    0 <= k <= INT_MAX ->
    Z.of_nat (length w) <= INT_MAX ->
    sph_loop_k sin cos p ri thetaj k phis (Z.of_nat (length w), flat (buffer_of w r))
    = if decide ((length phis <= r)%nat
                 /\ Z.of_nat (length w + length phis) <= INT_MAX
                 /\ k + Z.of_nat (length phis) <= INT_MAX)
      then Some (Z.of_nat (length (w ++ (sph_point sin cos ri thetaj <$> phis))),
                 flat (buffer_of (w ++ (sph_point sin cos ri thetaj <$> phis))
                                 (r - length phis)))
      else None.
Proof.
  induction phis as [|phik phis IH]; intros k w r Hp Hk Hw.
  - simpl. rewrite decide_True by (simpl; lia).
    by rewrite app_nil_r, Nat.sub_0_r.
  - cbn [sph_loop_k]. destruct r as [|r].
    + rewrite store3_full by (rewrite Hp; f_equal; lia).
      rewrite decide_False; [done | simpl; lia].
    + rewrite (store3_next p w r) by done.
      destruct (Z.lt_ge_cases (Z.of_nat (length w)) INT_MAX) as [Hc|Hc].
      2: { rewrite (int_incr_None _ Hc). cbn [mbind option_bind].
           rewrite decide_False; [done | simpl; lia]. }
      rewrite (int_incr_Some _ Hc). cbn [mbind option_bind].
      destruct (Z.lt_ge_cases k INT_MAX) as [Hkk|Hkk].
      2: { rewrite (int_incr_None _ Hkk). cbn [mbind option_bind].
           rewrite decide_False; [done | simpl; lia]. }
      rewrite (int_incr_Some _ Hkk). cbn [mbind option_bind].
      fold (sph_point sin cos ri thetaj phik).
      replace (Z.of_nat (length w) + 1)
        with (Z.of_nat (length (w ++ [sph_point sin cos ri thetaj phik])))
        by (rewrite length_app; simpl; lia).
      rewrite IH; [| rewrite length_app; simpl; lia | lia
                   | rewrite length_app; simpl; lia].
      rewrite length_app. simpl length.
      repeat case_decide; try (exfalso; lia); [|done].
      by rewrite <- app_assoc.
Qed.

Lemma sph_loop_j_eq (p : Z) (ri : float) (thetas phis : list float) :
  forall (j : Z) (w : list (float * float * float)) (r : nat),
    p = Z.of_nat (length w + r) ->
    0 <= j <= INT_MAX ->
    Z.of_nat (length w) <= INT_MAX ->
    sph_loop_j sin cos p ri j thetas phis (Z.of_nat (length w), flat (buffer_of w r))
    = if decide ((length thetas * length phis <= r)%nat
                 /\ Z.of_nat (length w + length thetas * length phis) <= INT_MAX
                 /\ j + Z.of_nat (length thetas) <= INT_MAX)
      then Some (Z.of_nat (length (w ++ (thetaj ← thetas;
                                         sph_point sin cos ri thetaj <$> phis))),
                 flat (buffer_of (w ++ (thetaj ← thetas;
                                        sph_point sin cos ri thetaj <$> phis))
                                 (r - length thetas * length phis)))
      else None.
Proof.
  induction thetas as [|thetaj thetas IH]; intros j w r Hp Hj Hw.
  - simpl. rewrite decide_True by (simpl; lia).
    by rewrite app_nil_r, Nat.sub_0_r.
  - cbn [sph_loop_j].
    rewrite (sph_loop_k_eq p ri thetaj phis 0 w r Hp INT_MAX_pos Hw).
    destruct (decide ((length phis <= r)%nat
                      /\ Z.of_nat (length w + length phis) <= INT_MAX
                      /\ 0 + Z.of_nat (length phis) <= INT_MAX)) as [Hk|Hk].
    2: { cbn [mbind option_bind]. rewrite decide_False; [done | simpl; lia]. }
    cbn [mbind option_bind].
    destruct (Z.lt_ge_cases j INT_MAX) as [Hjj|Hjj].
    2: { rewrite (int_incr_None _ Hjj). cbn [mbind option_bind].
         rewrite decide_False; [done | simpl; lia]. }
    rewrite (int_incr_Some _ Hjj). cbn [mbind option_bind].
    rewrite IH; [| rewrite length_app, length_fmap; lia | lia
                 | rewrite length_app, length_fmap; lia].
    rewrite length_app, length_fmap. simpl length.
    repeat case_decide; try (exfalso; simpl in *; lia); [|done].
    rewrite bind_cons, <- app_assoc.
    replace (S (length thetas) * length phis)%nat
      with (length phis + length thetas * length phis)%nat by (simpl; lia).
    by rewrite Nat.sub_add_distr.
Qed.

Lemma length_sph_row (ri : float) (thetas phis : list float) :
  length (thetaj ← thetas; sph_point sin cos ri thetaj <$> phis)
  = (length thetas * length phis)%nat.
Proof. apply length_bind_blocks. intros thetaj. by rewrite length_fmap. Qed.

Lemma sph_loop_i_eq (p : Z) (rs thetas phis : list float) :
  forall (i : Z) (w : list (float * float * float)) (r : nat),
    p = Z.of_nat (length w + r) ->
    0 <= i <= INT_MAX ->
    Z.of_nat (length w) <= INT_MAX ->
    sph_loop_i sin cos p i rs thetas phis (Z.of_nat (length w), flat (buffer_of w r))
    = if decide ((length rs * (length thetas * length phis) <= r)%nat
                 /\ Z.of_nat (length w + length rs * (length thetas * length phis))
                    <= INT_MAX
                 /\ i + Z.of_nat (length rs) <= INT_MAX
                 /\ (length rs = 0%nat \/ Z.of_nat (length thetas) <= INT_MAX))
      then Some (Z.of_nat (length (w ++ sph_points sin cos rs thetas phis)),
                 flat (buffer_of (w ++ sph_points sin cos rs thetas phis)
                                 (r - length rs * (length thetas * length phis))))
      else None.
Proof.
  rewrite sph_points_alt.
  induction rs as [|ri rs IH]; intros i w r Hp Hi Hw.
  - simpl. rewrite decide_True by (simpl; lia).
    by rewrite app_nil_r, Nat.sub_0_r.
  - cbn [sph_loop_i].
    rewrite (sph_loop_j_eq p ri thetas phis 0 w r Hp INT_MAX_pos Hw).
    destruct (decide ((length thetas * length phis <= r)%nat
                      /\ Z.of_nat (length w + length thetas * length phis) <= INT_MAX
                      /\ 0 + Z.of_nat (length thetas) <= INT_MAX)) as [Hk|Hk].
    2: { cbn [mbind option_bind]. rewrite decide_False; [done | simpl; lia]. }
    cbn [mbind option_bind].
    destruct (Z.lt_ge_cases i INT_MAX) as [Hii|Hii].
    2: { rewrite (int_incr_None _ Hii). cbn [mbind option_bind].
         rewrite decide_False; [done | simpl; lia]. }
    rewrite (int_incr_Some _ Hii). cbn [mbind option_bind].
    pose proof (length_sph_row ri thetas phis) as Hrow.
    rewrite IH; [| rewrite length_app, Hrow; lia | lia
                 | rewrite length_app, Hrow; lia].
    rewrite length_app, Hrow. simpl length.
    repeat case_decide; try (exfalso; simpl in *; lia); try done.
    all: rewrite bind_cons, <- app_assoc.
    all: replace (S (length rs) * (length thetas * length phis))%nat
           with (length thetas * length phis
                 + length rs * (length thetas * length phis))%nat by (simpl; lia).
    all: by rewrite Nat.sub_add_distr.
Qed.

Lemma length_sph_points (rs thetas phis : list float) :
  length (sph_points sin cos rs thetas phis)
  = (length rs * (length thetas * length phis))%nat.
Proof.
  unfold sph_points.
  apply length_bind_blocks. intros ri.
  apply length_bind_blocks. intros thetaj.
  rewrite (length_bind_blocks _ 1%nat); [lia | done].
Qed.

Lemma lookup_sph_points (rs thetas phis : list float) (i j k : nat)
    (ri thetaj phik : float) :
  rs !! i = Some ri -> thetas !! j = Some thetaj -> phis !! k = Some phik ->
  sph_points sin cos rs thetas phis
    !! (i * length thetas * length phis + j * length phis + k)%nat
  = Some (sph_point sin cos ri thetaj phik).
Proof.
  intros Hi Hj Hk. unfold sph_points.
  pose proof (lookup_lt_Some _ _ _ Hj) as Hj'.
  pose proof (lookup_lt_Some _ _ _ Hk) as Hk'.
  replace (i * length thetas * length phis + j * length phis + k)%nat
    with (i * (length thetas * length phis) + (j * length phis + k))%nat by lia.
  rewrite (lookup_bind_blocks _ (length thetas * length phis) rs i _ ri); [| |done|nia].
  - rewrite (lookup_bind_blocks _ (length phis) thetas j _ thetaj); [| |done|done].
    + replace k with (k * 1 + 0)%nat by lia.
      rewrite (lookup_bind_blocks _ 1%nat phis k _ phik); [done|done|done|lia].
    + intros a. rewrite (length_bind_blocks _ 1%nat); [lia | done].
  - intros a. apply length_bind_blocks. intros b.
    rewrite (length_bind_blocks _ 1%nat); [lia | done].
Qed.

(** X1. For arrays [r], [theta], [phi] of at most [INT_MAX] elements each
    that span at most [INT_MAX] points (the range of the C counters),
    [sph2cart_vector] returns: its buffer is sized from the very arrays it
    loops over.  It leaves in [x], [y], [z] three arrays of
    [len(r)*len(theta)*len(phi)] values, the point at index
    [i*Ntheta*Nphi + j*Nphi + k] being
    [(r[i]*sin(theta[j])*cos(phi[k]), r[i]*sin(theta[j])*sin(phi[k]),
    r[i]*cos(theta[j]))], and it changes no other global: counts, bounds,
    spacing, [d3r] and [is_initialized] stay as they were. *)
Theorem sph2cart_vector_points (r theta phi : list float) (s : GridState) :
  Z.of_nat (length r) <= INT_MAX ->
  Z.of_nat (length theta) <= INT_MAX ->
  Z.of_nat (length phi) <= INT_MAX ->
  npoints r theta phi <= INT_MAX ->
  exists s',
    sph2cart_vector sin cos r theta phi s = Some (Ok 0, s') /\
    length (x s') = (length r * length theta * length phi)%nat /\
    length (y s') = (length r * length theta * length phi)%nat /\
    length (z s') = (length r * length theta * length phi)%nat /\
    (forall (i j k : nat) (ri thetaj phik : float),
        r !! i = Some ri -> theta !! j = Some thetaj -> phi !! k = Some phik ->
        let count := (i * length theta * length phi + j * length phi + k)%nat in
        x s' !! count = Some (F64.mul (F64.mul ri (sin thetaj)) (cos phik)) /\
        y s' !! count = Some (F64.mul (F64.mul ri (sin thetaj)) (sin phik)) /\
        z s' !! count = Some (F64.mul ri (cos thetaj))) /\
    N_ s' = N_ s /\ min_ s' = min_ s /\ max_ s' = max_ s /\
    delta_ s' = delta_ s /\ d3r s' = d3r s /\
    is_initialized s' = is_initialized s.
Proof.
  intros Br Bt Bp Bn.
  set (p := (length r * (length theta * length phi))%nat).
  assert (Hn : npoints r theta phi = Z.of_nat p) by (unfold npoints, p; lia).
  assert (HP : product_Z (Triple (Z.of_nat (length r)) (Z.of_nat (length theta))
                                 (Z.of_nat (length phi))) = Z.of_nat p).
  { rewrite product_Z_exact; simpl; try lia.
    rewrite INT_MAX_eq in Bn. change (2 ^ 63) with 9223372036854775808.
    unfold npoints in Bn. lia. }
  unfold sph2cart_vector, np_zeros3, sph_grid_code. rewrite HP. run.
  destruct (Z.of_nat p <? 0) eqn:Hneg; [lia|].
  rewrite zeros_flat.
  change 0 with (Z.of_nat (length (@nil (float * float * float)))) at 2.
  rewrite (sph_loop_i_eq (Z.of_nat p) r theta phi 0 [] p eq_refl INT_MAX_pos)
    by apply INT_MAX_pos.
  rewrite decide_True by (simpl; fold p; lia).
  cbn [mbind option_bind snd app].
  fold p. rewrite Nat.sub_diag.
  assert (Hrows : forall b,
             length (tget (buffer_of (sph_points sin cos r theta phi) 0) b) = p).
  { intros b. rewrite length_buffer_of, length_sph_points. unfold p. lia. }
  pose proof (row_flat _ p Ax0 Hrows) as R0.
  pose proof (row_flat _ p Ax1 Hrows) as R1.
  pose proof (row_flat _ p Ax2 Hrows) as R2.
  change (Z.of_nat (axis_rank Ax0)) with 0 in R0.
  change (Z.of_nat (axis_rank Ax1)) with 1 in R1.
  change (Z.of_nat (axis_rank Ax2)) with 2 in R2.
  rewrite R0, R1, R2.
  eexists. split; [reflexivity|]. state. unfold buffer_of. state.
  rewrite !app_nil_r, !length_fmap, length_sph_points. fold p.
  repeat split; try (unfold p; lia).
  all: rewrite list_lookup_fmap,
         (lookup_sph_points _ _ _ _ _ _ ri thetaj phik) by done.
  all: done.
Qed.

End Sph2CartFacts.

Lemma sph2cart_vector_points_witness :
  exists s',
    sph2cart_vector sin_near_0 cos_near_0 [f2] [f0; f1] [f3] grid_221
    = Some (Ok 0, s') /\
    length (x s') = 2%nat /\
    z s' !! 1%nat = Some f2 /\
    N_ s' = N_ grid_221.
Proof.
  destruct (sph2cart_vector_points sin_near_0 cos_near_0 [f2] [f0; f1] [f3] grid_221)
    as (s' & H & Hlen & _ & _ & Hpts & HN & _);
    [by vm_compute | by vm_compute | by vm_compute | by vm_compute |].
  exists s'. split; [exact H|]. split; [exact Hlen|]. split; [|exact HN].
  destruct (Hpts 0%nat 1%nat 0%nat f2 f1 f3 eq_refl eq_refl eq_refl) as (_ & _ & Hz).
  simpl in Hz. rewrite Hz. clear. by vm_compute.
Defined.

(** ** Outcomes of the flattening *)

(** X2. [grid2vector] has three outcomes, decided by the stored product
    [P = numpy.product(N_)] and the arrays [x], [y], [z].  It raises
    exactly when [P] is negative: the [ValueError] of [numpy.zeros], and no
    global is changed.  It returns exactly when [P] is not negative and
    the loops stay defined (a column for every point, counters within the
    C [int]s); it then returns 0 and changes [x], [y], [z] only.  In every
    other case, and so whenever [0 <= P < len(x)*len(y)*len(z)], the
    inlined code runs into undefined behaviour. *)
Theorem grid2vector_outcome (s : GridState) :
  (forall e s', grid2vector s = Some (Raise e, s') ->
                e = ValueError /\ s' = s /\ product_Z (N_ s) < 0) /\
  (product_Z (N_ s) < 0 -> grid2vector s = Some (Raise ValueError, s)) /\
  (forall r s', grid2vector s = Some (Ok r, s') ->
                r = 0 /\ loops_defined (product_Z (N_ s)) (x s) (y s) (z s)) /\
  (loops_defined (product_Z (N_ s)) (x s) (y s) (z s) ->
   exists s',
     grid2vector s = Some (Ok 0, s') /\
     N_ s' = N_ s /\ min_ s' = min_ s /\ max_ s' = max_ s /\
     delta_ s' = delta_ s /\ d3r s' = d3r s /\
     is_initialized s' = is_initialized s) /\
  (0 <= product_Z (N_ s) ->
   ~ loops_defined (product_Z (N_ s)) (x s) (y s) (z s) ->
   grid2vector s = None) /\
  (0 <= product_Z (N_ s) < npoints (x s) (y s) (z s) -> grid2vector s = None).
Proof.
  split; [intros e s'; apply grid2vector_Raise|].
  split; [apply grid2vector_negative|].
  split; [intros r s' H; by apply grid2vector_Ok in H as (-> & Hd & _)|].
  split; [|split; [apply grid2vector_undefined | apply grid2vector_overrun]].
  intros Hd. eexists. split; [apply (grid2vector_defined s Hd)|]. done.
Qed.

Lemma grid2vector_outcome_witness :
  grid2vector (set_N_ (Triple (-1) 2 1) grid_221)
  = Some (Raise ValueError, set_N_ (Triple (-1) 2 1) grid_221) /\
  grid2vector (set_N_ (Triple 1 2 1) grid_221) = None /\
  (exists s', grid2vector grid_221 = Some (Ok 0, s') /\ N_ s' = Triple 2 2 1).
Proof.
  split; [|split].
  - apply (proj1 (proj2 (grid2vector_outcome _))). by vm_compute.
  - apply (proj2 (proj2 (proj2 (proj2 (proj2 (grid2vector_outcome _)))))).
    by vm_compute.
  - destruct (proj1 (proj2 (proj2 (proj2 (grid2vector_outcome grid_221)))))
      as (s' & H & HN & _).
    + apply (bool_decide_unpack _). by vm_compute.
    + exists s'. split; [exact H | exact HN].
Defined.

(** X3. Flattening again.  After a [grid2vector] that has returned, the
    three arrays have the length of the stored product each, and [N_] is
    as it was.  When that product is above 1, a second [grid2vector], or a
    [vector2grid], has more points than columns and stores outside its
    buffer; when it is 0 or 1, the second call returns and changes
    nothing. *)
Theorem flatten_twice_overruns (s s1 : GridState) (r : Z) :
  grid2vector s = Some (Ok r, s1) ->
  (1 < product_Z (N_ s) -> grid2vector s1 = None /\ vector2grid s1 = None) /\
  (product_Z (N_ s) <= 1 ->
   grid2vector s1 = Some (Ok 0, s1) /\ vector2grid s1 = Some (Ok 0, s1)).
Proof.
  intros H1.
  apply grid2vector_Ok in H1 as (_ & (Hd & _) & ->).
  pose proof (npoints_length (x s) (y s) (z s)) as Hn.
  set (pad := Z.to_nat (product_Z (N_ s) - npoints (x s) (y s) (z s))) in *.
  set (s1 := flattened pad s).
  assert (HN : N_ s1 = N_ s) by done.
  assert (L : forall a, Z.of_nat (length (coords s1 a)) = product_Z (N_ s)).
  { intros a. destruct a; simpl; rewrite length_app, length_fmap, length_replicate;
      unfold pad; lia. }
  pose proof (L Ax0) as L0. pose proof (L Ax1) as L1. pose proof (L Ax2) as L2.
  clearbody s1. cbn [coords] in L0, L1, L2.
  split; intros Hp.
  - assert (Hg : grid2vector s1 = None).
    { apply grid2vector_overrun. rewrite HN. unfold npoints.
      rewrite L0, L1, L2. nia. }
    split; [exact Hg|]. by rewrite vector2grid_unfold.
  - assert (Hg : grid2vector s1 = Some (Ok 0, s1)).
    { rewrite grid2vector_defined.
      2: { unfold loops_defined, npoints. rewrite HN, L0, L1, L2.
           rewrite INT_MAX_eq. pose proof (npoints_nonneg (x s) (y s) (z s)).
           assert (Z.of_nat (length (x s1)) = 0 \/ Z.of_nat (length (x s1)) = 1)
             as [E|E] by lia; rewrite <- L0, E; lia. }
      f_equal. f_equal. rewrite HN. unfold npoints. rewrite L0, L1, L2.
      replace (Z.to_nat _) with 0%nat by nia.
      assert (E : forall l1 l2 l3 : list float,
                 Z.of_nat (length l1) = product_Z (N_ s) ->
                 Z.of_nat (length l2) = product_Z (N_ s) ->
                 Z.of_nat (length l3) = product_Z (N_ s) ->
                 (px <$> points l1 l2 l3) ++ [] = l1 /\
                 (py <$> points l1 l2 l3) ++ [] = l2 /\
                 (pz <$> points l1 l2 l3) ++ [] = l3).
      { intros [|a1 [|? ?]] [|a2 [|? ?]] [|a3 [|? ?]] E1 E2 E3;
          simpl in *; try done; lia. }
      destruct (E _ _ _ L0 L1 L2) as (E0 & E1 & E2).
      unfold flattened, buffer_of. simpl replicate. cbn [t0 t1 t2].
      rewrite E0, E1, E2. by destruct s1. }
    split; [exact Hg|]. by rewrite vector2grid_unfold.
Qed.

Lemma flatten_twice_overruns_witness :
  grid2vector (flattened 0 grid_221) = None.
Proof.
  apply (proj1 (flatten_twice_overruns grid_221 (flattened 0 grid_221) 0
                  ltac:(by vm_compute))).
  by vm_compute.
Defined.

(** ** The life cycle of the regular grid *)

Lemma zero_division_all_or_not (s : GridState) :
  (forall a, zero_division s a = false) \/ (exists a, zero_division s a = true).
Proof.
  destruct (zero_division s Ax0) eqn:R0; [right; by exists Ax0|].
  destruct (zero_division s Ax1) eqn:R1; [right; by exists Ax1|].
  destruct (zero_division s Ax2) eqn:R2; [right; by exists Ax2|].
  left. by intros [].
Qed.

(** [grid2vector] neither reads nor writes [is_initialized]. *)
Lemma grid2vector_set_is_initialized (b : bool) (s : GridState) :
  grid2vector (set_is_initialized b s)
  = match grid2vector s with
    | Some (r, s') => Some (r, set_is_initialized b s')
    | None => None
    end.
Proof.
  unfold grid2vector. run.
  destruct (np_zeros3 (product_Z (N_ s))) as [grid|]; [|done].
  by destruct (grid_code _ (x s) (y s) (z s) grid).
Qed.

Lemma grid2vector_returns_zero (s s' : GridState) (u : Z) :
  grid2vector s = Some (Ok u, s') -> u = 0.
Proof. by intros (-> & _)%grid2vector_Ok. Qed.

(** [grid_init] with the conversion, when no division raises. *)
Lemma grid_init_vector_unfold (s : GridState) :
  is_initialized s = false ->
  (forall a, zero_division s a = false) ->
  grid_init true s
  = match grid2vector (prepared s) with
    | Some (Ok _, s2) => Some (Ok 0, set_is_initialized true s2)
    | Some (Raise e, s2) => Some (Raise e, s2)
    | None => None
    end.
Proof.
  intros Hinit Hz. unfold grid_init. run. rewrite Hinit.
  rewrite grid_init_axis_Ok by apply (Hz Ax0). simpl.
  rewrite grid_init_axis_Ok by apply (Hz Ax1). simpl.
  rewrite grid_init_axis_Ok by apply (Hz Ax2). simpl.
  match goal with
  | |- context [grid2vector ?st] =>
      replace st with (prepared s)
        by (destruct s; simpl in Hinit; subst; reflexivity)
  end.
  by destruct (grid2vector (prepared s)) as [[[r|e] s2]|].
Qed.


Lemma grid_init_guard (is_vector : bool) (s : GridState) :
  is_initialized s = true -> grid_init is_vector s = Some (Ok 0, s).
Proof. intros H. unfold grid_init. run. by rewrite H. Qed.

(** Whatever [grid_init] returns, it returns 0 on an initialized grid. *)
Lemma grid_init_Ok_initialized (is_vector : bool) (s s' : GridState) (r : Z) :
  grid_init is_vector s = Some (Ok r, s') -> r = 0 /\ is_initialized s' = true.
Proof.
  destruct (is_initialized s) eqn:Hinit.
  { rewrite grid_init_guard by done. by intros [= <- <-]. }
  destruct (zero_division_all_or_not s) as [Hz|Hz].
  - destruct is_vector.
    + rewrite grid_init_vector_unfold by done.
      destruct (grid2vector (prepared s)) as [[[r2|e] s2]|]; [|done|done].
      by intros [= <- <-].
    + rewrite grid_init_Ok by done. by intros [= <- <-].
  - destruct (grid_init_Raise is_vector s Hinit Hz) as [s2 ->]. done.
Qed.

(** X4. Once a [grid_init] has returned, every later [grid_init], with
    or without the conversion to a vector grid, returns 0 and changes
    nothing: the bounds and counts set in between are ignored until
    [reset_grid] is called. *)
Theorem grid_init_once (v1 v2 : bool) (s s1 : GridState) (r : Z)
    (mn mx : triple number) (n : triple Z) :
  grid_init v1 s = Some (Ok r, s1) ->
  grid_init v2 (set_N_ n (set_max_ mx (set_min_ mn s1)))
  = Some (Ok 0, set_N_ n (set_max_ mx (set_min_ mn s1))).
Proof.
  intros [_ Hi]%grid_init_Ok_initialized.
  by apply grid_init_guard.
Qed.

Lemma grid_init_once_witness :
  grid_init true (set_N_ (Triple 5 5 5) (set_max_ default_max (set_min_ default_min
                    (built (with_counts 3 2 2)))))
  = Some (Ok 0, set_N_ (Triple 5 5 5) (set_max_ default_max (set_min_ default_min
                  (built (with_counts 3 2 2))))).
Proof.
  apply (grid_init_once false true (with_counts 3 2 2) _ 0). by vm_compute.
Defined.

(** X5. On an uninitialized grid, [grid_init(True)] returns exactly when
    [grid_init(False)] followed by [grid2vector] does, and with the same
    globals. *)
Theorem grid_init_vector_is_init_then_flatten (s s' : GridState) :
  is_initialized s = false ->
  grid_init true s = Some (Ok 0, s') <->
  exists s1, grid_init false s = Some (Ok 0, s1) /\ grid2vector s1 = Some (Ok 0, s').
Proof.
  intros Hinit.
  destruct (zero_division_all_or_not s) as [Hz|Hz].
  - rewrite grid_init_vector_unfold, grid_init_Ok by done.
    pose proof (grid2vector_set_is_initialized false (built s)) as Hp.
    fold (prepared s) in Hp. rewrite Hp. clear Hp.
    destruct (grid2vector (built s)) as [[[r2|e] s2]|] eqn:Hg; simpl.
    + pose proof (grid2vector_returns_zero _ _ _ Hg) as ->.
      pose proof Hg as Hg'.
      apply grid2vector_Ok in Hg' as (_ & _ & ->).
      match goal with
      | |- context [set_is_initialized true (set_is_initialized false ?st)] =>
          change (set_is_initialized true (set_is_initialized false st)) with st
      end.
      split.
      * intros [= <-]. by exists (built s).
      * intros (s1 & [= <-] & Hg2). rewrite Hg in Hg2. by injection Hg2 as <-.
    + split; [done|]. intros (s1 & [= <-] & Hg2). by rewrite Hg in Hg2.
    + split; [done|]. intros (s1 & [= <-] & Hg2). by rewrite Hg in Hg2.
  - destruct (grid_init_Raise true s Hinit Hz) as [s2 ->].
    destruct (grid_init_Raise false s Hinit Hz) as [s3 H3].
    split; [done|]. intros (s1 & H1 & _). by rewrite H3 in H1.
Qed.

Lemma grid_init_vector_is_init_then_flatten_witness :
  exists s1 s',
    grid_init true (with_counts 3 2 2) = Some (Ok 0, s') /\
    grid_init false (with_counts 3 2 2) = Some (Ok 0, s1) /\
    grid2vector s1 = Some (Ok 0, s') /\ length (x s') = 12%nat.
Proof.
  assert (H : exists s', grid_init true (with_counts 3 2 2) = Some (Ok 0, s')
                         /\ length (x s') = 12%nat).
  { eexists. vm_compute. split; reflexivity. }
  destruct H as (s' & H & Hlen).
  destruct (proj1 (grid_init_vector_is_init_then_flatten (with_counts 3 2 2) s'
                     eq_refl) H)
    as (s1 & H1 & H2).
  exists s1, s'. repeat split; assumption.
Defined.

Lemma length_axis_coords (s : GridState) (a : axis) :
  counts_fit s -> Z.of_nat (length (axis_coords s a)) = tget (N_ s) a.
Proof.
  intros Hfit. specialize (Hfit a). unfold axis_coords.
  destruct (F64.eqb _ _); simpl.
  - by rewrite Hfit.
  - rewrite length_fmap, length_seqZ. lia.
Qed.

(** X6. For an uninitialized grid whose counts fit its bounds, on
    which no division raises, and which has at most [INT_MAX] points per
    axis and in all (the range of the C counters), [grid_init(True)]
    returns and leaves the vector grid of the regular grid it has built:
    [N_[0]*N_[1]*N_[2]] points, the Cartesian product of the three axes
    with the last axis varying fastest; the grid is marked as
    initialized. *)
Theorem grid_init_vector_points (s : GridState) :
  is_initialized s = false ->
  (forall a, zero_division s a = false) ->
  counts_fit s ->
  (forall a, tget (N_ s) a <= INT_MAX) ->
  t0 (N_ s) * t1 (N_ s) * t2 (N_ s) <= INT_MAX ->
  exists s',
    grid_init true s = Some (Ok 0, s') /\
    x s' = px <$> points (axis_coords s Ax0) (axis_coords s Ax1) (axis_coords s Ax2) /\
    y s' = py <$> points (axis_coords s Ax0) (axis_coords s Ax1) (axis_coords s Ax2) /\
    z s' = pz <$> points (axis_coords s Ax0) (axis_coords s Ax1) (axis_coords s Ax2) /\
    Z.of_nat (length (x s')) = t0 (N_ s) * t1 (N_ s) * t2 (N_ s) /\
    is_initialized s' = true.
Proof.
  intros Hinit Hz Hfit Hmax Hprod.
  pose proof (length_axis_coords s Ax0 Hfit) as L0.
  pose proof (length_axis_coords s Ax1 Hfit) as L1.
  pose proof (length_axis_coords s Ax2 Hfit) as L2.
  pose proof (Hmax Ax0) as M0. pose proof (Hmax Ax1) as M1.
  simpl in L0, L1, L2, M0, M1.
  assert (Hp : product_Z (N_ (built s))
               = npoints (x (built s)) (y (built s)) (z (built s))).
  { by apply product_Z_lengths. }
  assert (Hd : loops_defined (product_Z (N_ (built s)))
                 (x (built s)) (y (built s)) (z (built s))).
  { unfold loops_defined. rewrite Hp. unfold npoints. simpl.
    rewrite L0, L1, L2. lia. }
  pose proof (grid2vector_defined (built s) Hd) as Hg.
  rewrite Hp, Z.sub_diag in Hg.
  rewrite grid_init_vector_unfold by done.
  pose proof (grid2vector_set_is_initialized false (built s)) as Hpre.
  fold (prepared s) in Hpre. rewrite Hpre, Hg.
  eexists. split; [reflexivity|].
  unfold flattened, buffer_of. simpl.
  rewrite !app_nil_r, !length_fmap, <- npoints_length. unfold npoints.
  rewrite L0, L1, L2.
  repeat split; done.
Qed.

Lemma grid_init_vector_points_witness :
  exists s',
    grid_init true (with_counts 3 2 2) = Some (Ok 0, s') /\
    length (x s') = 12%nat /\ is_initialized s' = true.
Proof.
  destruct (grid_init_vector_points (with_counts 3 2 2))
    as (s' & Hg & _ & _ & _ & HN & Hi);
    [reflexivity | by intros [] | by intros [] | by intros [] | by vm_compute |].
  exists s'. split; [exact Hg|]. split; [|exact Hi].
  apply Nat2Z.inj. rewrite HN. reflexivity.
Defined.



(** X8. From any state, [reset_grid] followed by [grid_init(False)]
    returns and leaves exactly the globals that the same call builds on the
    freshly imported module: 101 points per axis, from -8 to 8. *)
Theorem reset_then_grid_init (s : GridState) :
  (reset_grid ≫= fun _ => grid_init false) s = Some (Ok 0, built initial_state) /\
  forall a,
    length (coords (built initial_state) a) = 101%nat /\
    head (coords (built initial_state) a) = Some (F64.of_Z (-8)) /\
    last (coords (built initial_state) a) = Some (F64.of_Z 8).
Proof.
  split.
  - unfold reset_grid. run.
    rewrite grid_init_Ok; [done | done | by intros []].
  - by intros []; vm_compute.
Qed.

(** ** The description of the grid *)

Lemma fold_left_pick (f : float -> float -> bool) (l : list float) (v : float) :
  fold_left (fun m e => if f m e then e else m) l v ∈ v :: l.
Proof.
  revert v. induction l as [|e l IH]; intros v; simpl.
  - apply list_elem_of_here.
  - destruct (f v e).
    + apply list_elem_of_further, IH.
    + specialize (IH v). apply elem_of_cons in IH as [->|IH].
      * apply list_elem_of_here.
      * by do 2 apply list_elem_of_further.
Qed.

Lemma py_min_elem (l : list float) (m : float) : py_min l = Ok m -> m ∈ l.
Proof.
  destruct l as [|v l]; [done|]. simpl. intros [= <-].
  apply (fold_left_pick (fun m e => F64.ltb e m)).
Qed.

Lemma py_max_elem (l : list float) (m : float) : py_max l = Ok m -> m ∈ l.
Proof.
  destruct l as [|v l]; [done|]. simpl. intros [= <-].
  apply (fold_left_pick (fun m e => F64.ltb m e)).
Qed.

Lemma get_grid_axis_describes (start : string) (ii : axis) (s : GridState) :
  coords s ii <> [] ->
  exists l, get_grid_axis start ii s = Some (Ok l, s) /\ describes start s ii l.
Proof.
  intros Hne. unfold get_grid_axis. run.
  destruct (py_min_nonempty _ Hne) as [mn Hmn].
  destruct (py_max_nonempty _ Hne) as [mx Hmx].
  rewrite Hmn, Hmx. eexists. split; [reflexivity|].
  unfold describes. simpl.
  repeat split; try done; [by apply py_min_elem | by apply py_max_elem|].
  destruct (_ && _); [by right | by left].
Qed.

Lemma get_grid_axis_empty (start : string) (ii : axis) (s : GridState) :
  coords s ii = [] -> get_grid_axis start ii s = Some (Raise ValueError, s).
Proof. intros He. unfold get_grid_axis. run. by rewrite He. Qed.

(** X9. [get_grid] never changes the globals.  When one of [x], [y], [z]
    is empty it raises [ValueError] (the minimum of an empty sequence);
    otherwise it returns one line per axis, in the order x, y, z, whose
    count is the length of the array and whose minimum and maximum are
    elements of the array. *)
Theorem get_grid_report (start : string) (s : GridState) :
  ((exists a, coords s a = []) -> get_grid start s = Some (Raise ValueError, s)) /\
  ((forall a, coords s a <> []) ->
   exists l0 l1 l2,
     get_grid start s = Some (Ok [l0; l1; l2], s) /\
     describes start s Ax0 l0 /\ describes start s Ax1 l1 /\
     describes start s Ax2 l2).
Proof.
  split.
  - intros Hex. unfold get_grid. run.
    destruct (decide (x s = [])) as [E0|N0].
    { by rewrite (get_grid_axis_empty start Ax0 s E0). }
    destruct (get_grid_axis_describes start Ax0 s N0) as (l0 & -> & _).
    destruct (decide (y s = [])) as [E1|N1].
    { by rewrite (get_grid_axis_empty start Ax1 s E1). }
    destruct (get_grid_axis_describes start Ax1 s N1) as (l1 & -> & _).
    destruct (decide (z s = [])) as [E2|N2].
    { by rewrite (get_grid_axis_empty start Ax2 s E2). }
    destruct Hex as [[] He]; done.
  - intros Hne. unfold get_grid. run.
    destruct (get_grid_axis_describes start Ax0 s (Hne Ax0)) as (l0 & -> & D0).
    destruct (get_grid_axis_describes start Ax1 s (Hne Ax1)) as (l1 & -> & D1).
    destruct (get_grid_axis_describes start Ax2 s (Hne Ax2)) as (l2 & -> & D2).
    by exists l0, l1, l2.
Qed.

Lemma get_grid_report_witness :
  get_grid tab (built (with_counts 0 2 2))
  = Some (Raise ValueError, built (with_counts 0 2 2)) /\
  (exists l0 l1 l2, get_grid tab grid_221 = Some (Ok [l0; l1; l2], grid_221) /\
                    line_N l0 = 2%nat).
Proof.
  split.
  - apply (proj1 (get_grid_report tab _)). by exists Ax0.
  - destruct (proj2 (get_grid_report tab grid_221)) as (l0 & l1 & l2 & H & D0 & _).
    + by intros [].
    + exists l0, l1, l2. split; [exact H|]. by destruct D0 as (_ & _ & -> & _).
Defined.

(** ** What centering does to the grid *)

Lemma nonzero_from_find (f : float -> bool) (l : list float) :
  forall (i p : nat) (rest : list nat),
    nonzero_from i (map f l) = p :: rest ->
    exists v, l !! (p - i)%nat = Some v /\ List.find f l = Some v.
Proof.
  induction l as [|e l IH]; intros i p rest; simpl; [done|].
  destruct (f e) eqn:Hf.
  - intros [= <- _]. exists e. by rewrite Nat.sub_diag.
  - intros H. pose proof (nonzero_from_head _ _ _ _ H) as Hp.
    destruct (IH _ _ _ H) as (v & Hv & Hfind).
    exists v. split; [|done].
    replace (p - i)%nat with (S (p - S i)) by lia. done.
Qed.

Lemma center_axis_shift (ac : triple float) (ii : axis) (s : GridState) :
  reaches ac s ii = true ->
  exists v,
    List.find (F64.leb (tget ac ii)) (coords s ii) = Some v /\
    center_axis ac ii s
    = Some (Ok tt,
       set_coords ii
         ((fun e => F64.add e
                      (F64.sub (F64.mul F64.half (tget (delta_ s) ii))
                               (F64.abs (F64.sub v (tget ac ii)))))
          <$> coords s ii) s).
Proof.
  intros (c & Hc & Hle)%reaches_true. unfold center_axis, nonzero. run.
  destruct (nonzero_from 0 (map (F64.leb (tget ac ii)) (coords s ii)))
    as [|p rest] eqn:Hnz.
  { exfalso. enough (true = false) by done.
    apply (proj1 (nonzero_from_nil _ _) Hnz).
    apply list_elem_of_fmap. by exists c. }
  destruct (nonzero_from_find _ _ _ _ _ Hnz) as (v & Hv & Hfind).
  rewrite Nat.sub_0_r in Hv.
  exists v. split; [done|].
  unfold getitem. simpl. by rewrite Hv.
Qed.

Lemma center_deltas_spacing (ac : triple float) (s : GridState) :
  for_each axes
    (center_delta
       (tmap (fun a => F64.abs (F64.sub F64.zero a)) ac)
       (Triple
          (F64.round (F64.abs (F64.div (F64.abs (F64.sub F64.zero (t0 ac))) (t0 (delta_ s)))))
          (F64.round (F64.abs (F64.div (F64.abs (F64.sub F64.zero (t1 ac))) (t1 (delta_ s)))))
          (F64.round (F64.abs (F64.div (F64.abs (F64.sub F64.zero (t2 ac))) (t2 (delta_ s)))))))
    s
  = Some (Ok tt,
     set_delta_ (Triple (centered_spacing ac s Ax0) (centered_spacing ac s Ax1)
                        (centered_spacing ac s Ax2)) s).
Proof.
  unfold axes, center_delta, centered_spacing. destruct s as [? ? ? ? ? ? ? [d0 d1 d2] ?].
  run.
  destruct (F64.eqb (F64.round (F64.abs (F64.div _ d0))) F64.zero);
    destruct (F64.eqb (F64.round (F64.abs (F64.div _ d1))) F64.zero);
    destruct (F64.eqb (F64.round (F64.abs (F64.div _ d2))) F64.zero);
    reflexivity.
Qed.

(** [center_grid] when every axis reaches the anchor, with what it leaves. *)
Lemma center_grid_shift_Ok (ac : triple float) (s : GridState) :
  (forall a, reaches ac s a = true) ->
  exists msgs s',
    center_grid ac s = Some (Ok (0, msgs), s') /\
    (forall a, exists c,
        center_offset ac s a = Some c /\
        coords s' a = (fun e => F64.add e c) <$> coords s a) /\
    (forall a, tget (delta_ s') a = centered_spacing ac s a) /\
    d3r s' = Some (product_F (delta_ s')) /\
    (forall a, exists mn mx,
        tget (min_ s') a = NpFloat mn /\ mn ∈ coords s' a /\
        tget (max_ s') a = NpFloat mx /\ mx ∈ coords s' a) /\
    is_initialized s' = is_initialized s.
Proof.
  intros Hr.
  pose proof (center_deltas_spacing ac s) as Hd.
  set (s1 := set_delta_ (Triple (centered_spacing ac s Ax0) (centered_spacing ac s Ax1)
                                (centered_spacing ac s Ax2)) s) in *.
  destruct (center_axis_shift ac Ax0 s1) as (v0 & F0 & A0); [apply Hr|].
  set (lx := (fun e => F64.add e _) <$> coords s1 Ax0) in A0.
  destruct (center_axis_shift ac Ax1 (set_coords Ax0 lx s1)) as (v1 & F1 & A1);
    [apply Hr|].
  set (ly := (fun e => F64.add e _) <$> coords (set_coords Ax0 lx s1) Ax1) in A1.
  destruct (center_axis_shift ac Ax2 (set_coords Ax1 ly (set_coords Ax0 lx s1)))
    as (v2 & F2 & A2); [apply Hr|].
  set (lz := (fun e => F64.add e _)
             <$> coords (set_coords Ax1 ly (set_coords Ax0 lx s1)) Ax2) in A2.
  assert (Nx : lx <> []).
  { apply (length_nonempty _ (x s)); [apply length_fmap|].
    apply (reaches_nonempty ac s Ax0), Hr. }
  assert (Ny : ly <> []).
  { apply (length_nonempty _ (y s)); [apply length_fmap|].
    apply (reaches_nonempty ac s Ax1), Hr. }
  assert (Nz : lz <> []).
  { apply (length_nonempty _ (z s)); [apply length_fmap|].
    apply (reaches_nonempty ac s Ax2), Hr. }
  destruct (py_min_nonempty _ Nx) as [mn0 Hmn0].
  destruct (py_min_nonempty _ Ny) as [mn1 Hmn1].
  destruct (py_min_nonempty _ Nz) as [mn2 Hmn2].
  destruct (py_max_nonempty _ Nx) as [mx0 Hmx0].
  destruct (py_max_nonempty _ Ny) as [mx1 Hmx1].
  destruct (py_max_nonempty _ Nz) as [mx2 Hmx2].
  unfold center_grid. unfold axes in Hd.
  run. rewrite Hd, A0, A1, A2. clear Hd A0 A1 A2. state.
  rewrite Hmn0, Hmn1, Hmn2, Hmx0, Hmx1, Hmx2.
  match goal with
  | |- context [get_grid tab ?st] =>
      destruct (get_grid_Ok tab st) as [lines ->]; [by intros []|]
  end.
  unfold center_warning. run.
  eexists _, _. split; [reflexivity|]. state.
  split; [|split; [by intros []|split; [done|split; [|done]]]].
  - intros []; eexists; (split; [|reflexivity]); unfold center_offset; simpl.
    + by rewrite F0.
    + by rewrite F1.
    + by rewrite F2.
  - intros []; simpl; eexists _, _;
      (split; [reflexivity|split; [|split; [reflexivity|]]]);
      first [by apply py_min_elem | by apply py_max_elem].
Qed.

(** X10. A [center_grid] that returns has translated each axis rigidly:
    every coordinate of the axis gets the same offset, half the adapted
    spacing minus the distance between the anchor and the first coordinate
    at or above it.  The spacing of the axis is the adapted one, [d3r] is
    the product of the three spacings, the new bounds are numpy doubles
    taken from the shifted arrays, and [is_initialized] is left as it
    was. *)
Theorem center_grid_shift (ac : triple float) (s s' : GridState)
    (r : Z * list message) :
  center_grid ac s = Some (Ok r, s') ->
  (forall a, exists c,
      center_offset ac s a = Some c /\
      coords s' a = (fun e => F64.add e c) <$> coords s a) /\
  (forall a, tget (delta_ s') a = centered_spacing ac s a) /\
  d3r s' = Some (product_F (delta_ s')) /\
  (forall a, exists mn mx,
      tget (min_ s') a = NpFloat mn /\ mn ∈ coords s' a /\
      tget (max_ s') a = NpFloat mx /\ mx ∈ coords s' a) /\
  is_initialized s' = is_initialized s.
Proof.
  intros Hc.
  destruct (reaches_all_or_not ac s) as [Hr|Hr].
  - destruct (center_grid_shift_Ok ac s Hr) as (msgs & s1 & Hc1 & H).
    rewrite Hc in Hc1. injection Hc1 as _ <-. exact H.
  - destruct (center_grid_Raise ac s Hr) as [s1 Hc1].
    by rewrite Hc in Hc1.
Qed.

Lemma center_grid_shift_witness :
  exists r s',
    center_grid anchor_inside grid_221 = Some (Ok r, s') /\
    x s' = (fun e => F64.add e F64.half) <$> x grid_221 /\
    d3r s' = Some f1.
Proof.
  assert (H : exists r s', center_grid anchor_inside grid_221 = Some (Ok r, s')).
  { eexists _, _. vm_compute. reflexivity. }
  destruct H as (r & s' & H). exists r, s'. split; [exact H|].
  destruct (center_grid_shift _ _ _ _ H) as (Hsh & Hd & Hv & _).
  destruct (Hsh Ax0) as (c & Hc & Hx). simpl in Hx.
  vm_compute in Hc. injection Hc as <-.
  split; [exact Hx|].
  rewrite Hv. unfold product_F.
  replace (t0 (delta_ s')) with (tget (delta_ s') Ax0) by done.
  replace (t1 (delta_ s')) with (tget (delta_ s') Ax1) by done.
  replace (t2 (delta_ s')) with (tget (delta_ s') Ax2) by done.
  rewrite !Hd. by vm_compute.
Defined.

Lemma centered_spacing_origin (ac : triple float) (s : GridState) (a : axis) :
  is_zero (tget ac a) = true ->
  centered_spacing ac s a
  = if is_zero (tget (delta_ s) a) then S754_nan else tget (delta_ s) a.
Proof.
  unfold centered_spacing.
  destruct (tget ac a) as [b| | |]; try done. intros _.
  destruct (tget (delta_ s) a) as [[]|[]| |[] m e]; by destruct b.
Qed.

Lemma add_nan (e : float) : F64.add e S754_nan = S754_nan.
Proof. by destruct e. Qed.

(** X11. Centering on an anchor that is zero on some axis.  When
    [center_grid] returns, the spacing of that axis is what it was, unless
    it was zero (as it is when the module is imported, or after [read] of
    a vector grid): then the spacing becomes NaN, and so does every
    coordinate of the axis. *)
Theorem center_grid_zero_anchor (ac : triple float) (s s' : GridState)
    (r : Z * list message) (a : axis) :
  center_grid ac s = Some (Ok r, s') ->
  is_zero (tget ac a) = true ->
  (is_zero (tget (delta_ s) a) = false ->
   tget (delta_ s') a = tget (delta_ s) a) /\
  (is_zero (tget (delta_ s) a) = true ->
   tget (delta_ s') a = S754_nan /\
   coords s' a = replicate (length (coords s a)) S754_nan).
Proof.
  intros Hc Hz.
  destruct (reaches_all_or_not ac s) as [Hr|Hr];
    [|destruct (center_grid_Raise ac s Hr) as [s1 Hc1]; by rewrite Hc in Hc1].
  destruct (center_grid_shift_Ok ac s Hr) as (msgs & s1 & Hc1 & Hsh & Hd & _).
  rewrite Hc in Hc1. injection Hc1 as _ <-.
  pose proof (centered_spacing_origin ac s a Hz) as Hsp.
  split; intros Hdz; rewrite Hdz in Hsp.
  - by rewrite Hd.
  - split; [by rewrite Hd|].
    destruct (Hsh a) as (c & Hoff & ->).
    unfold center_offset in Hoff. rewrite Hsp in Hoff.
    destruct (List.find _ _) as [v|]; [|done].
    injection Hoff as <-.
    change (F64.sub (F64.mul F64.half S754_nan) (F64.abs (F64.sub v (tget ac a))))
      with S754_nan.
    induction (coords s a) as [|e l IH]; [done|].
    simpl. by rewrite add_nan, <- IH.
Qed.

Lemma center_grid_zero_anchor_witness :
  exists r s',
    center_grid (Triple F64.zero F64.zero F64.zero) initial_state = Some (Ok r, s') /\
    x s' = [S754_nan] /\ delta_ s' = Triple S754_nan S754_nan S754_nan.
Proof.
  assert (H : exists r s',
             center_grid (Triple F64.zero F64.zero F64.zero) initial_state
             = Some (Ok r, s')).
  { eexists _, _. vm_compute. reflexivity. }
  destruct H as (r & s' & H). exists r, s'. split; [exact H|].
  destruct (proj2 (center_grid_zero_anchor _ _ _ _ Ax0 H eq_refl) eq_refl) as [_ Hx].
  split; [exact Hx|].
  vm_compute in H. by injection H as _ <-.
Defined.

(** ** Further properties of the reader *)

Lemma check_Ok (cl : list string) (v : option bool) (b : bool) :
  check cl v = Ok b ->
  length cl = tokens_of_format b /\ (v = None \/ v = Some b).
Proof.
  unfold check.
  destruct (length cl =? 3)%nat eqn:H3; simpl.
  - apply Nat.eqb_eq in H3.
    destruct v as [[]|]; simpl.
    + intros [= <-]. auto.
    + destruct (length cl =? 4)%nat eqn:H4; simpl; [|done].
      apply Nat.eqb_eq in H4. lia.
    + intros [= <-]. auto.
  - destruct (length cl =? 4)%nat eqn:H4; simpl; [|done].
    apply Nat.eqb_eq in H4.
    destruct v as [[]|]; simpl; try done; intros [= <-]; auto.
Qed.

(** One counted line that is read without an exception. *)
Lemma read_line_Ok (comment line : string) (st st' : read_locals) :
  counted comment line = true ->
  read_line comment line st = Ok st' ->
  exists b,
    rl_is_vector st' = Some b /\
    length (split line) = tokens_of_format b /\
    (rl_is_vector st = None \/ rl_is_vector st = Some b) /\
    (b = false -> empty_or_three (rl_grid st) -> empty_or_three (rl_grid st')).
Proof.
  intros Hc.
  destruct (counted_tokens comment line Hc) as (c0 & rest & Hsp & Hc0).
  unfold read_line. rewrite Hsp, Hc0, <- Hsp.
  destruct (check (split line) (rl_is_vector st)) as [b|] eqn:Hch; [|done].
  apply check_Ok in Hch as [Hlen Hv]. simpl.
  destruct b.
  - destruct (read_vector_tokens 0 (split line) (rl_grid st) (rl_index st))
      as [[grid index]|]; [|done].
    simpl. intros [= <-]. exists true. by repeat split.
  - assert (Hrest : length rest = 3%nat).
    { rewrite Hsp in Hlen. simpl in Hlen. lia. }
    rewrite Hsp. destruct (py_index3 _) as [a|]; [|done].
    simpl. intros [= <-]. exists false.
    split; [done|]. split; [simpl; by rewrite Hrest|]. split; [done|].
    intros _ Hgrid b. simpl.
    destruct (decide (a = b)) as [<-|Hne].
    + rewrite tget_tset_eq. by right.
    + rewrite tget_tset_ne by done. apply Hgrid.
Qed.

(** What the loop over the lines has seen when it ends without an
    exception. *)
Lemma read_lines_Ok (comment : string) (lines : list string) :
  forall st st',
    read_lines comment lines st = Ok st' ->
    match rl_is_vector st' with
    | None =>
        st' = st /\ forall l, l ∈ lines -> counted comment l = false
    | Some b =>
        (rl_is_vector st = None \/ rl_is_vector st = Some b) /\
        (forall l, l ∈ lines -> counted comment l = true ->
                   length (split l) = tokens_of_format b) /\
        (rl_is_vector st = None -> exists l, l ∈ lines /\ counted comment l = true) /\
        (b = false -> empty_or_three (rl_grid st) -> empty_or_three (rl_grid st'))
    end.
Proof.
  induction lines as [|line lines IH]; intros st st'; simpl.
  { intros [= <-]. destruct (rl_is_vector st) as [b|] eqn:Hv.
    - repeat split; try done; [by right | by intros l Hl%elem_of_nil].
    - split; [done|]. by intros l Hl%elem_of_nil. }
  destruct (counted comment line) eqn:Hc.
  - destruct (read_line comment line st) as [st1|] eqn:H1; [|done]. simpl.
    intros Hrest. specialize (IH _ _ Hrest).
    destruct (read_line_Ok _ _ _ _ Hc H1) as (b1 & Hb1 & Hlen1 & Hv1 & Hg1).
    destruct (rl_is_vector st') as [b|] eqn:Hv'.
    + destruct IH as (Hv & Hall & _ & Hg).
      assert (b1 = b) as -> by (destruct Hv as [Hv|Hv]; congruence).
      repeat split; try done.
      * intros l [->|Hl]%elem_of_cons Hcl; [done | by apply Hall].
      * intros _. exists line. split; [apply list_elem_of_here | done].
      * intros Hb Hgrid. by apply Hg, Hg1.
    + destruct IH as [-> _]. congruence.
  - rewrite read_line_skipped by (unfold counted in Hc; by apply negb_false_iff).
    simpl. intros Hrest. specialize (IH _ _ Hrest).
    destruct (rl_is_vector st') as [b|].
    + destruct IH as (Hv & Hall & Hex & Hg). repeat split; try done.
      * intros l [->|Hl]%elem_of_cons Hcl; [congruence | by apply Hall].
      * intros Hn. destruct (Hex Hn) as (l & Hl & Hcl).
        exists l. split; [by apply list_elem_of_further | done].
    + destruct IH as [-> Hall]. split; [done|].
      intros l [->|Hl]%elem_of_cons; [done | by apply Hall].
Qed.

Lemma floats_of_strings_length (float_of_string : string -> option float)
    (l : list string) (fs : list float) :
  floats_of_strings float_of_string l = Ok fs -> length fs = length l.
Proof.
  revert fs. induction l as [|t l IH]; intros fs; simpl.
  - by intros [= <-].
  - destruct (float_of_string t); [|done].
    destruct (floats_of_strings float_of_string l) as [fs'|]; [|done].
    simpl. intros [= <-]. simpl. by rewrite (IH fs').
Qed.

Lemma np_array_float64_Ok (float_of_string : string -> option float)
    (grid : triple (list string)) (arr : triple (list float)) :
  np_array_float64 float_of_string grid = Ok arr ->
  forall a b, length (tget arr a) = length (tget grid b).
Proof.
  unfold np_array_float64.
  destruct (length (t0 grid) =? length (t1 grid))%nat eqn:H01; [|done].
  destruct (length (t1 grid) =? length (t2 grid))%nat eqn:H12; [|done].
  apply Nat.eqb_eq in H01, H12. simpl.
  destruct (floats_of_strings float_of_string (t0 grid)) as [r0|] eqn:E0; [|done].
  destruct (floats_of_strings float_of_string (t1 grid)) as [r1|] eqn:E1; [|done].
  destruct (floats_of_strings float_of_string (t2 grid)) as [r2|] eqn:E2; [|done].
  simpl. intros [= <-].
  apply floats_of_strings_length in E0, E1, E2.
  intros [] []; simpl; lia.
Qed.

Lemma column_Ok (arr : triple (list float)) (k : nat) :
  (forall a, (k < length (tget arr a))%nat) -> exists c, column arr k = Ok c.
Proof.
  intros H. unfold column.
  destruct (lookup_lt_is_Some_2 _ _ (H Ax0)) as [c0 H0].
  destruct (lookup_lt_is_Some_2 _ _ (H Ax1)) as [c1 H1].
  destruct (lookup_lt_is_Some_2 _ _ (H Ax2)) as [c2 H2].
  simpl in H0, H1, H2. rewrite H0, H1, H2. by eexists.
Qed.

Lemma column_empty (arr : triple (list float)) (k : nat) :
  t0 arr = [] -> column arr k = Raise IndexError.
Proof. unfold column. by intros ->. Qed.

Lemma filter_counted_nil (comment : string) (lines : list string) :
  (forall l, l ∈ lines -> counted comment l = false) ->
  List.filter (counted comment) lines = [].
Proof.
  induction lines as [|line lines IH]; intros H; simpl; [done|].
  rewrite (H line) by apply list_elem_of_here.
  apply IH. intros l Hl. apply H. by apply list_elem_of_further.
Qed.

(** X12. A file without a single counted line (empty, or blank and
    comment lines only) is not read as an empty grid: [read] raises
    [IndexError] when it takes the first column of the empty array, and
    no global is changed. *)
Theorem read_without_lines (float_of_string : string -> option float)
    (text comment : string) (s : GridState) :
  (forall l, l ∈ file_lines text -> counted comment l = false) ->
  read float_of_string (Some text) comment s = Some (Raise IndexError, s).
Proof.
  intros H. unfold read. run.
  by rewrite read_lines_counted, (filter_counted_nil _ _ H).
Qed.

Lemma read_without_lines_witness :
  read integer_literal (Some comments_text) "#" initial_state
  = Some (Raise IndexError, initial_state).
Proof.
  apply read_without_lines. intros l Hl.
  apply list_elem_of_In in Hl. vm_compute in Hl.
  by destruct Hl as [<-|[<-|[]]].
Defined.

(** The three columns of a regular grid are taken without an exception,
    or none of them is. *)
Lemma read_columns (arr : triple (list float)) (grid : triple (list string)) :
  (forall a b, length (tget arr a) = length (tget grid b)) ->
  empty_or_three grid ->
  column arr 0 = Raise IndexError \/
  exists c0 c1 c2, column arr 0 = Ok c0 /\ column arr 1 = Ok c1 /\ column arr 2 = Ok c2.
Proof.
  intros Hlen Hgrid.
  destruct (Hgrid Ax0) as [H0|H3].
  - left. apply column_empty.
    pose proof (Hlen Ax0 Ax0) as H. rewrite H0 in H. simpl in H.
    by destruct (t0 arr).
  - right.
    destruct (column_Ok arr 0) as [c0 ->]; [intros a; rewrite (Hlen a Ax0); lia|].
    destruct (column_Ok arr 1) as [c1 ->]; [intros a; rewrite (Hlen a Ax0); lia|].
    destruct (column_Ok arr 2) as [c2 ->]; [intros a; rewrite (Hlen a Ax0); lia|].
    by exists c0, c1, c2.
Qed.

Lemma empty_or_three_init : empty_or_three (rl_grid read_locals_init).
Proof. intros []; by left. Qed.

(** X13. [read] is all or nothing: whenever it raises, for whatever
    reason (a file that cannot be opened, mixed token counts, a token that
    is not a number, lists of different lengths, no line at all), the
    globals are exactly what they were before the call. *)
Theorem read_failure_changes_nothing (float_of_string : string -> option float)
    (file : option string) (comment : string) (s s' : GridState) (e : exn) :
  read float_of_string file comment s = Some (Raise e, s') -> s' = s.
Proof.
  destruct file as [text|]; [|by intros [= _ <-]].
  unfold read. run.
  destruct (read_lines comment (file_lines text) read_locals_init)
    as [st|] eqn:Hl; [|by intros [= _ <-]].
  destruct (np_array_float64 float_of_string (rl_grid st)) as [arr|] eqn:Ha;
    [|by intros [= _ <-]].
  pose proof (np_array_float64_Ok _ _ _ Ha) as Hlen.
  apply read_lines_Ok in Hl.
  assert (Hgrid : rl_is_vector st <> Some true -> empty_or_three (rl_grid st)).
  { destruct (rl_is_vector st) as [[]|]; [done| |].
    - intros _. destruct Hl as (_ & _ & _ & Hg).
      by apply Hg, empty_or_three_init.
    - intros _. destruct Hl as [-> _]. apply empty_or_three_init. }
  destruct (rl_is_vector st) as [[]|]; [done| |];
    (destruct (read_columns arr (rl_grid st) Hlen) as [->|(c0 & c1 & c2 & -> & -> & ->)];
     [by apply Hgrid | by intros [= _ <-] | done]).
Qed.

Lemma read_failure_changes_nothing_witness :
  exists s',
    read integer_literal (Some misspelt_text) "#" grid_221
    = Some (Raise ValueError, s') /\ s' = grid_221.
Proof.
  assert (H : exists s', read integer_literal (Some misspelt_text) "#" grid_221
                         = Some (Raise ValueError, s')).
  { eexists. vm_compute. reflexivity. }
  destruct H as [s' H]. exists s'. split; [exact H|].
  exact (read_failure_changes_nothing _ _ _ _ _ _ H).
Defined.

(** X14. When [read] returns, it returns [True] or [False], never
    [None]; the file has at least one counted line and all its counted
    lines have the token count of the format returned, three for a vector
    grid and four for a regular one.  For a vector grid only [x], [y], [z]
    and [is_initialized] (now true) are assigned; for a regular grid only
    [min_], [max_] and [N_]. *)
Theorem read_returns_format (float_of_string : string -> option float)
    (text comment : string) (s s' : GridState) (r : option bool) :
  read float_of_string (Some text) comment s = Some (Ok r, s') ->
  exists b,
    r = Some b /\
    (exists l, l ∈ file_lines text /\ counted comment l = true) /\
    (forall l, l ∈ file_lines text -> counted comment l = true ->
               length (split l) = tokens_of_format b) /\
    (if b
     then is_initialized s' = true /\
          min_ s' = min_ s /\ max_ s' = max_ s /\ N_ s' = N_ s
     else is_initialized s' = is_initialized s /\
          x s' = x s /\ y s' = y s /\ z s' = z s) /\
    d3r s' = d3r s /\ delta_ s' = delta_ s.
Proof.
  unfold read. run.
  destruct (read_lines comment (file_lines text) read_locals_init)
    as [st|] eqn:Hl; [|done].
  destruct (np_array_float64 float_of_string (rl_grid st)) as [arr|] eqn:Ha; [|done].
  pose proof (np_array_float64_Ok _ _ _ Ha) as Hlen.
  apply read_lines_Ok in Hl.
  destruct (rl_is_vector st) as [[]|] eqn:Hv.
  - destruct Hl as (_ & Hall & Hex & _).
    intros [= <- <-]. exists true. repeat split; try done. by apply Hex.
  - destruct Hl as (_ & Hall & Hex & _).
    destruct (column arr 0) as [c0|]; [|done]. simpl.
    destruct (column arr 1) as [c1|]; [|done]. simpl.
    destruct (column arr 2) as [c2|]; [|done]. simpl.
    intros [= <- <-]. exists false. repeat split; try done. by apply Hex.
  - destruct Hl as [-> _]. simpl in Ha. injection Ha as <-. done.
Qed.

Lemma read_returns_format_witness :
  exists s',
    read integer_literal (Some regular_text) "#" initial_state
    = Some (Ok (Some false), s') /\
    (forall l, l ∈ file_lines regular_text -> counted "#" l = true ->
               length (split l) = 4%nat).
Proof.
  assert (H : exists s', read integer_literal (Some regular_text) "#" initial_state
                         = Some (Ok (Some false), s')).
  { eexists. vm_compute. reflexivity. }
  destruct H as [s' H]. exists s'. split; [exact H|].
  destruct (read_returns_format _ _ _ _ _ _ H) as (b & Hb & _ & Hall & _).
  injection Hb as <-. exact Hall.
Defined.

(** The loop over the lines of a regular file in which no line is for the
    axis [a]. *)
Lemma read_lines_missing_axis (comment : string) (a : axis) (lines : list string) :
  forall st,
    rl_is_vector st <> Some true ->
    (forall l, l ∈ lines -> counted comment l = true -> length (split l) = 4%nat) ->
    (forall l, l ∈ lines -> counted comment l = true -> line_axis l <> Ok a) ->
    exists st',
      read_lines comment lines st = Ok st' /\
      tget (rl_grid st') a = tget (rl_grid st) a /\
      ((exists l, l ∈ lines /\ counted comment l = true) \/
       (exists b, length (tget (rl_grid st) b) = 3%nat) ->
       exists b, length (tget (rl_grid st') b) = 3%nat).
Proof.
  induction lines as [|line lines IH]; intros st Hv H4 Ha; simpl.
  { exists st. repeat split; try done.
    intros [(l & Hl & _)|H]; [by apply elem_of_nil in Hl | done]. }
  assert (H4' : forall l, l ∈ lines -> counted comment l = true ->
                          length (split l) = 4%nat).
  { intros l Hl. apply H4. by apply list_elem_of_further. }
  assert (Ha' : forall l, l ∈ lines -> counted comment l = true -> line_axis l <> Ok a).
  { intros l Hl. apply Ha. by apply list_elem_of_further. }
  destruct (counted comment line) eqn:Hc.
  - destruct (counted_tokens comment line Hc) as (c0 & rest & Hsp & Hc0).
    pose proof (H4 line (list_elem_of_here _ _) Hc) as Hlen.
    pose proof (Ha line (list_elem_of_here _ _) Hc) as Hax.
    unfold line_axis in Hax. rewrite Hsp in Hax, Hlen. simpl in Hlen.
    destruct (py_index3_Ok _ (find_dim_range (lower c0))) as [c Hc3].
    rewrite Hc3 in Hax.
    assert (Hline : read_line comment line st
                    = Ok (ReadLocals (Some false) (tset (rl_grid st) c rest)
                                     (rl_index st))).
    { unfold read_line, check. rewrite Hsp, Hc0. simpl.
      replace (length rest =? 2)%nat with false
        by (symmetry; apply Nat.eqb_neq; lia).
      replace (length rest =? 3)%nat with true
        by (symmetry; apply Nat.eqb_eq; lia).
      simpl. destruct (rl_is_vector st) as [[]|]; [done | |];
        simpl; by rewrite Hc3. }
    rewrite Hline. simpl.
    destruct (IH (ReadLocals (Some false) (tset (rl_grid st) c rest) (rl_index st)))
      as (st' & Hr & Hsame & Hthree); [done | done | done|].
    exists st'. split; [done|]. simpl in *. split.
    + rewrite Hsame. apply tget_tset_ne. congruence.
    + intros _. apply Hthree. right. exists c. rewrite tget_tset_eq. lia.
  - rewrite read_line_skipped by (unfold counted in Hc; by apply negb_false_iff).
    simpl. destruct (IH st Hv H4' Ha') as (st' & Hr & Hsame & Hthree).
    exists st'. repeat split; try done.
    intros [(l & [->|Hl]%elem_of_cons & Hcl)|H]; [congruence | |].
    + apply Hthree. left. by exists l.
    + apply Hthree. by right.
Qed.

(** X15. A regular file that leaves out an axis: when all counted lines
    have four tokens, there is at least one, and none of them is for some
    axis, [read] raises [ValueError] (the three lists do not make an
    array) and no global is changed.  All three axes are required. *)
Theorem read_regular_missing_axis (float_of_string : string -> option float)
    (text comment : string) (s : GridState) (a : axis) :
  (exists l, l ∈ file_lines text /\ counted comment l = true) ->
  (forall l, l ∈ file_lines text -> counted comment l = true ->
             length (split l) = 4%nat) ->
  (forall l, l ∈ file_lines text -> counted comment l = true ->
             line_axis l <> Ok a) ->
  read float_of_string (Some text) comment s = Some (Raise ValueError, s).
Proof.
  intros Hex H4 Ha.
  destruct (read_lines_missing_axis comment a (file_lines text) read_locals_init)
    as (st & Hr & Hsame & Hthree); [done | done | done|].
  destruct Hthree as [b Hb]; [by left|].
  unfold read. run. rewrite Hr. simpl.
  unfold np_array_float64.
  destruct (length (t0 (rl_grid st)) =? length (t1 (rl_grid st)))%nat eqn:H01;
    [|done].
  destruct (length (t1 (rl_grid st)) =? length (t2 (rl_grid st)))%nat eqn:H12;
    [|done].
  apply Nat.eqb_eq in H01, H12. exfalso.
  assert (H0 : length (tget (rl_grid st) a) = 0%nat) by (rewrite Hsame; by destruct a).
  destruct a, b; simpl in *; lia.
Qed.

Lemma read_regular_missing_axis_witness :
  read integer_literal (Some ("x -5 5 11" ++ nl ++ "y -2 2 5" ++ nl)%string) "#" grid_221
  = Some (Raise ValueError, grid_221).
Proof.
  apply (read_regular_missing_axis integer_literal _ "#" grid_221 Ax2).
  - exists ("x -5 5 11" ++ nl)%string. split; [|reflexivity].
    apply list_elem_of_In. vm_compute. tauto.
  - intros l Hl. apply list_elem_of_In in Hl. vm_compute in Hl.
    by destruct Hl as [<-|[<-|[]]].
  - intros l Hl. apply list_elem_of_In in Hl. vm_compute in Hl.
    by destruct Hl as [<-|[<-|[]]].
Defined.

(** The header of a vector file fills [index]. *)
Lemma read_line_header (comment header h0 h1 h2 : string) (st : read_locals) :
  split header = [h0; h1; h2] ->
  counted comment header = true ->
  rl_is_vector st = None ->
  rl_index st = Triple None None None ->
  read_line comment header st
  = Ok (ReadLocals (Some true) (rl_grid st)
          (Triple (Some (find dim h0)) (Some (find dim h1)) (Some (find dim h2)))).
Proof.
  intros Hsp Hc Hv Hi.
  destruct (counted_tokens comment header Hc) as (c0 & rest & Hsp' & Hc0).
  rewrite Hsp in Hsp'. injection Hsp' as <- <-.
  unfold read_line, check. rewrite Hsp, Hc0, Hv, Hi. reflexivity.
Qed.

(** A row of a vector file appends one token to each list, as [index]
    says. *)
Lemma read_line_row (comment row a b c : string) (st : read_locals)
    (k0 k1 k2 : Z) (o0 o1 o2 : axis) :
  split row = [a; b; c] ->
  counted comment row = true ->
  rl_is_vector st = Some true ->
  rl_index st = Triple (Some k0) (Some k1) (Some k2) ->
  py_index3 k0 = Ok o0 -> py_index3 k1 = Ok o1 -> py_index3 k2 = Ok o2 ->
  o0 <> o1 -> o0 <> o2 -> o1 <> o2 ->
  exists grid,
    read_line comment row st = Ok (ReadLocals (Some true) grid (rl_index st)) /\
    tget grid o0 = tget (rl_grid st) o0 ++ [a] /\
    tget grid o1 = tget (rl_grid st) o1 ++ [b] /\
    tget grid o2 = tget (rl_grid st) o2 ++ [c].
Proof.
  intros Hsp Hc Hv Hi H0 H1 H2 N01 N02 N12.
  destruct (counted_tokens comment row Hc) as (c0 & rest & Hsp' & Hc0).
  rewrite Hsp in Hsp'. injection Hsp' as <- <-.
  unfold read_line, check. rewrite Hsp, Hc0, Hv, Hi. simpl.
  rewrite H0. simpl. rewrite H1. simpl. rewrite H2. simpl.
  eexists. split; [reflexivity|].
  repeat split.
  - rewrite !tget_tset_ne by done. by rewrite tget_tset_eq.
  - rewrite tget_tset_ne, tget_tset_eq by done. by rewrite tget_tset_ne.
  - rewrite tget_tset_eq. by rewrite !tget_tset_ne.
Qed.

Lemma axis_covered (o0 o1 o2 a : axis) :
  o0 <> o1 -> o0 <> o2 -> o1 <> o2 -> a = o0 \/ a = o1 \/ a = o2.
Proof. destruct o0, o1, o2, a; intros; auto; congruence. Qed.

Lemma read_lines_rows (comment : string) (k0 k1 k2 : Z) (o0 o1 o2 : axis)
    (rows : list string) (data : list (triple string)) :
  py_index3 k0 = Ok o0 -> py_index3 k1 = Ok o1 -> py_index3 k2 = Ok o2 ->
  o0 <> o1 -> o0 <> o2 -> o1 <> o2 ->
  Forall2 (fun row d => counted comment row = true /\
                        split row = [tget d o0; tget d o1; tget d o2]) rows data ->
  forall st,
    rl_is_vector st = Some true ->
    rl_index st = Triple (Some k0) (Some k1) (Some k2) ->
    exists st',
      read_lines comment rows st = Ok st' /\
      rl_is_vector st' = Some true /\
      forall a, tget (rl_grid st') a
                = tget (rl_grid st) a ++ ((fun d => tget d a) <$> data).
Proof.
  intros H0 H1 H2 N01 N02 N12.
  induction 1 as [|row d rows data [Hc Hsp] _ IH]; intros st Hv Hi; simpl.
  { exists st. repeat split; try done. intros a. by rewrite app_nil_r. }
  destruct (read_line_row comment row (tget d o0) (tget d o1) (tget d o2) st
              k0 k1 k2 o0 o1 o2)
    as (grid & -> & G0 & G1 & G2); try done.
  simpl.
  destruct (IH (ReadLocals (Some true) grid (rl_index st))) as (st' & -> & Hv' & Hg);
    [done | done|].
  exists st'. repeat split; try done.
  intros a. rewrite Hg. simpl.
  destruct (axis_covered o0 o1 o2 a) as [->|[->| ->]]; try done.
  - by rewrite G0, <- app_assoc.
  - by rewrite G1, <- app_assoc.
  - by rewrite G2, <- app_assoc.
Qed.

Lemma floats_of_strings_Ok (float_of_string : string -> option float)
    (tokens : list string) (values : list float) :
  Forall2 (fun t v => float_of_string t = Some v) tokens values ->
  floats_of_strings float_of_string tokens = Ok values.
Proof.
  induction 1 as [|t v tokens values Ht _ IH]; simpl; [done|].
  by rewrite Ht, IH.
Qed.

(** X16. A vector file: apart from blank and comment lines, a header of
    three names and rows of three numbers.  The names are looked up in
    ['xyz'] as they stand (no lower-casing, a name that is not found counts
    as the last axis); when they name the three axes, [read] returns
    [True], puts each column into the array its name stands for, whatever
    the order of the columns, and marks the grid as initialized; bounds,
    counts, spacing and [d3r] are left as they were. *)
Theorem read_vector_file (float_of_string : string -> option float)
    (comment text header h0 h1 h2 : string) (o0 o1 o2 : axis)
    (rows : list string) (data : list (triple string))
    (values : list (triple float)) (s : GridState) :
  List.filter (counted comment) (file_lines text) = header :: rows ->
  split header = [h0; h1; h2] ->
  py_index3 (find dim h0) = Ok o0 ->
  py_index3 (find dim h1) = Ok o1 ->
  py_index3 (find dim h2) = Ok o2 ->
  o0 <> o1 -> o0 <> o2 -> o1 <> o2 ->
  Forall2 (fun row d => split row = [tget d o0; tget d o1; tget d o2]) rows data ->
  Forall2 (fun d v => forall a, float_of_string (tget d a) = Some (tget v a))
          data values ->
  exists s',
    read float_of_string (Some text) comment s = Some (Ok (Some true), s') /\
    x s' = t0 <$> values /\ y s' = t1 <$> values /\ z s' = t2 <$> values /\
    is_initialized s' = true /\
    min_ s' = min_ s /\ max_ s' = max_ s /\ N_ s' = N_ s /\
    delta_ s' = delta_ s /\ d3r s' = d3r s.
Proof.
  intros Hdata Hsp H0 H1 H2 N01 N02 N12 Hrows Hvals.
  assert (Hcounted : forall l, In l (header :: rows) -> counted comment l = true).
  { intros l Hl. rewrite <- Hdata in Hl. by apply filter_In in Hl as [_ Hl]. }
  assert (Hrows' : Forall2 (fun row d => counted comment row = true /\
                              split row = [tget d o0; tget d o1; tget d o2])
                           rows data).
  { assert (Hin : forall l, In l rows -> counted comment l = true).
    { intros l Hl. apply Hcounted. by right. }
    clear -Hrows Hin. induction Hrows as [|row d rows data Hr _ IH]; [done|].
    constructor.
    - split; [apply Hin; by left | done].
    - apply IH. intros l Hl. apply Hin. by right. }
  destruct (read_lines_rows comment _ _ _ o0 o1 o2 rows data H0 H1 H2 N01 N02 N12
              Hrows'
              (ReadLocals (Some true) (rl_grid read_locals_init)
                 (Triple (Some (find dim h0)) (Some (find dim h1))
                         (Some (find dim h2)))))
    as (st & Hr & Hv & Hg); [done | done|].
  assert (Hread : read_lines comment (file_lines text) read_locals_init = Ok st).
  { rewrite read_lines_counted, Hdata. simpl.
    rewrite (read_line_header comment header h0 h1 h2); try done.
    apply Hcounted. by left. }
  assert (Hg' : forall a, tget (rl_grid st) a = (fun d => tget d a) <$> data).
  { intros a. rewrite Hg. by destruct a. }
  assert (Hcol : forall a,
             floats_of_strings float_of_string (tget (rl_grid st) a)
             = Ok ((fun v => tget v a) <$> values)).
  { intros a. rewrite Hg'. apply floats_of_strings_Ok. clear -Hvals.
    induction Hvals as [|d v data values Hd _ IH]; simpl; constructor; auto. }
  assert (Hlen : forall a, length (tget (rl_grid st) a) = length data).
  { intros a. by rewrite Hg', length_fmap. }
  unfold read. run. rewrite Hread. simpl.
  unfold np_array_float64.
  pose proof (Hlen Ax0) as L0. pose proof (Hlen Ax1) as L1. pose proof (Hlen Ax2) as L2.
  pose proof (Hcol Ax0) as C0. pose proof (Hcol Ax1) as C1. pose proof (Hcol Ax2) as C2.
  simpl in L0, L1, L2, C0, C1, C2.
  rewrite L0, L1, L2, !Nat.eqb_refl, C0, C1, C2. simpl. rewrite Hv.
  eexists. split; [reflexivity|]. by simpl.
Qed.

Lemma read_vector_file_witness :
  exists s',
    read integer_literal (Some vector_text) "#" grid_221 = Some (Ok (Some true), s') /\
    x s' = [f3; F64.of_Z 6] /\ z s' = [f1; f4].
Proof.
  destruct (read_vector_file integer_literal "#" vector_text ("z y x" ++ nl)%string
              "z" "y" "x" Ax2 Ax1 Ax0 vector_rows vector_data vector_values grid_221)
    as (s' & Hr & Hx & _ & Hz & _); try done.
  - repeat constructor.
  - repeat constructor; by intros [].
  - exists s'. split; [exact Hr|]. rewrite Hx, Hz. by vm_compute.
Defined.

(** ** The order of the random draws *)

Lemma tset_tget {A} (t : triple A) (a : axis) : tset t a (tget t a) = t.
Proof. by destruct t, a. Qed.

Lemma tset_tset {A} (t : triple A) (a : axis) (v w : A) :
  tset (tset t a v) a w = tset t a w.
Proof. by destruct a. Qed.

Section RandomDrawsFacts.
Variable rng : Type.
Variable normal : float -> float -> nat -> rng -> list float * rng.

Lemma random_atoms_draws (ii_d : axis) (N : Z) (geo_spec : list (triple float)) :
  forall (ii_a : nat) (grid : triple (list (list float))) (g : rng)
         (pre : list (list float)),
    tget grid ii_d
    = pre ++ replicate (length geo_spec) (replicate (Z.to_nat N) F64.zero) ->
    ii_a = length pre ->
    random_atoms rng normal ii_d ii_a geo_spec N (grid, g)
    = (tset grid ii_d (pre ++ fst (draw_axis rng normal ii_d geo_spec N g)),
       snd (draw_axis rng normal ii_d geo_spec N g)).
Proof.
  induction geo_spec as [|atom rest IH]; intros ii_a grid g pre Hgrid ->; simpl in *.
  { rewrite app_nil_r in *. by rewrite <- Hgrid, tset_tget. }
  destruct (normal (tget atom ii_d) F64.half (Z.to_nat N) g) as [sample g1].
  rewrite (IH (S (length pre)) _ g1 (pre ++ [sample])).
  - rewrite tset_tset.
    destruct (draw_axis rng normal ii_d rest N g1) as [rows g2]. simpl.
    by rewrite <- app_assoc.
  - rewrite tget_tset_eq, Hgrid.
    replace (length pre) with (length pre + 0)%nat at 1 by lia.
    rewrite insert_app_r. simpl. by rewrite <- app_assoc.
  - rewrite length_app. simpl. lia.
Qed.

(** X17. For a count that is not negative [random_grid] never raises.
    It asks the generator once for every center and coordinate, all
    x-coordinates first, then all y, then all z, each time for [N] samples
    around the coordinate of the center; [x], [y], [z] are the samples of
    their coordinate, center after center; the grid is marked as
    initialized and no other global is touched.  A negative count raises
    [ValueError] before the generator has been used, and changes
    nothing. *)
Theorem random_grid_draws (geo_spec : list (triple float)) (N : Z) (scale : float)
    (g : rng) (s : GridState) :
  (0 <= N ->
   let dx := draw_axis rng normal Ax0 geo_spec N g in
   let dy := draw_axis rng normal Ax1 geo_spec N (snd dx) in
   let dz := draw_axis rng normal Ax2 geo_spec N (snd dy) in
   random_grid rng normal geo_spec N scale g s
   = Some (Ok (0, snd dz),
      set_is_initialized true
        (set_z (concat (fst dz)) (set_y (concat (fst dy))
           (set_x (concat (fst dx)) s))))) /\
  (N < 0 ->
   random_grid rng normal geo_spec N scale g s = Some (Raise ValueError, s)).
Proof.
  split; intros HN; unfold random_grid, np_zeros3d; run.
  - destruct (N <? 0) eqn:Hneg; [lia|]. simpl.
    rewrite (random_atoms_draws Ax0 N geo_spec 0 _ g []); [|done|done].
    rewrite (random_atoms_draws Ax1 N geo_spec 0 _ _ []); [|done|done].
    rewrite (random_atoms_draws Ax2 N geo_spec 0 _ _ []); [|done|done].
    reflexivity.
  - destruct (N <? 0) eqn:Hneg; [done | lia].
Qed.

End RandomDrawsFacts.

Lemma random_grid_draws_witness :
  random_grid (list request) recording_normal
    [Triple f1 f2 f3; Triple f4 f5 f0] 2 f2 [] grid_221
  = Some (Ok (0, [(f1, F64.half, 2%nat); (f4, F64.half, 2%nat);
             (f2, F64.half, 2%nat); (f5, F64.half, 2%nat);
             (f3, F64.half, 2%nat); (f0, F64.half, 2%nat)]),
     set_is_initialized true
       (set_z [f3; f3; f0; f0] (set_y [f2; f2; f5; f5] (set_x [f1; f1; f4; f4] grid_221)))).
Proof.
  rewrite (proj1 (random_grid_draws (list request) recording_normal
                    [Triple f1 f2 f3; Triple f4 f5 f0] 2 f2 [] grid_221));
    [by vm_compute | lia].
Defined.

(** ** The regular form *)

(** X18. After a [grid_init(False)] that returns on an uninitialized
    grid, the arrays have the stored counts as their lengths exactly when
    the counts fit the bounds: an axis with equal bounds always gets one
    point, whatever its count, and a negative count gives an empty
    axis. *)
Theorem grid_init_lengths_match_counts (s : GridState) :
  is_initialized s = false ->
  (forall a, zero_division s a = false) ->
  exists s',
    grid_init false s = Some (Ok 0, s') /\
    ((forall a, Z.of_nat (length (coords s' a)) = tget (N_ s') a) <-> counts_fit s).
Proof.
  intros Hinit Hz. exists (built s). split; [by apply grid_init_Ok|].
  split.
  - intros H a. specialize (H a).
    replace (coords (built s) a) with (axis_coords s a) in H by by destruct a.
    change (N_ (built s)) with (N_ s) in H.
    unfold axis_coords in H. destruct (F64.eqb _ _); simpl in H.
    + lia.
    + rewrite length_fmap, length_seqZ in H. lia.
  - intros Hfit a.
    replace (coords (built s) a) with (axis_coords s a) by by destruct a.
    change (N_ (built s)) with (N_ s).
    by apply length_axis_coords.
Qed.

Lemma grid_init_lengths_match_counts_witness :
  exists s',
    grid_init false (with_counts 3 2 2) = Some (Ok 0, s') /\
    length (x s') = 3%nat.
Proof.
  destruct (grid_init_lengths_match_counts (with_counts 3 2 2))
    as (s' & Hg & Hiff); [reflexivity | by intros [] |].
  exists s'. split; [exact Hg|].
  pose proof (proj2 Hiff (fun a => ltac:(by destruct a)) Ax0) as H.
  simpl in H. apply Nat2Z.inj. rewrite H.
  vm_compute in Hg. by injection Hg as <-.
Defined.

(** ** The exceptions of the reader *)

Lemma index_ok_init : index_ok (rl_index read_locals_init).
Proof. by intros [] k. Qed.

(** One line: the only exception is the one of [check], and [index] keeps
    holding results of [dim.find]. *)
Lemma read_line_outcome (comment line : string) (st : read_locals) :
  index_ok (rl_index st) ->
  match read_line comment line st with
  | Ok st' => index_ok (rl_index st')
  | Raise e => exists cl, e = IOError_Inconsistency cl
  end.
Proof.
  intros Hok.
  destruct (skipped comment line) eqn:Hs.
  { by rewrite read_line_skipped. }
  destruct (counted_tokens comment line) as (c0 & rest & Hsp & Hc0).
  { unfold counted. by rewrite Hs. }
  unfold read_line. rewrite Hsp, Hc0, <- Hsp.
  destruct (check (split line) (rl_is_vector st)) as [b|] eqn:Hch.
  - apply check_Ok in Hch as [Hlen _]. simpl. destruct b.
    + destruct (read_vector_tokens_Ok (split line) 0 (rl_grid st) (rl_index st))
        as (grid' & index' & -> & Hok'); [lia | simpl in Hlen; lia | done|].
      done.
    + rewrite ?Hsp.
      destruct (py_index3_Ok _ (find_dim_range (lower c0))) as [a ->]. done.
  - unfold check in Hch.
    destruct (_ && _); [done|]. destruct (_ && _); [done|].
    injection Hch as <-. simpl. by eexists.
Qed.

Lemma read_lines_Raise (comment : string) (lines : list string) :
  forall st e,
    index_ok (rl_index st) ->
    read_lines comment lines st = Raise e ->
    exists cl, e = IOError_Inconsistency cl.
Proof.
  induction lines as [|line lines IH]; intros st e Hok; simpl; [done|].
  pose proof (read_line_outcome comment line st Hok) as H1.
  destruct (read_line comment line st) as [st1|e1]; simpl.
  - by apply IH.
  - by intros [= <-].
Qed.

Lemma read_line_three (comment line : string) (st st' : read_locals) :
  counted comment line = true ->
  read_line comment line st = Ok st' ->
  rl_is_vector st' = Some false ->
  exists a, length (tget (rl_grid st') a) = 3%nat.
Proof.
  intros Hc.
  destruct (counted_tokens comment line Hc) as (c0 & rest & Hsp & Hc0).
  unfold read_line. rewrite Hsp, Hc0, <- Hsp.
  destruct (check (split line) (rl_is_vector st)) as [b|] eqn:Hch; [|done].
  apply check_Ok in Hch as [Hlen _]. simpl. destruct b.
  - destruct (read_vector_tokens 0 (split line) (rl_grid st) (rl_index st))
      as [[grid index]|]; [|done].
    simpl. by intros [= <-].
  - assert (Hrest : length rest = 3%nat).
    { rewrite Hsp in Hlen. simpl in Hlen. lia. }
    rewrite ?Hsp. destruct (py_index3 _) as [a|]; [|done].
    simpl. intros [= <-] _. exists a. simpl. by rewrite tget_tset_eq.
Qed.

Lemma read_lines_three (comment : string) (lines : list string) :
  forall st st',
    read_lines comment lines st = Ok st' ->
    rl_is_vector st' = Some false ->
    rl_is_vector st = None \/ (exists a, length (tget (rl_grid st) a) = 3%nat) ->
    exists a, length (tget (rl_grid st') a) = 3%nat.
Proof.
  induction lines as [|line lines IH]; intros st st'; simpl.
  { intros [= <-] Hv [Hn|H]; [congruence | done]. }
  destruct (counted comment line) eqn:Hc.
  - destruct (read_line comment line st) as [st1|] eqn:H1; [|done]. simpl.
    intros Hrest Hv' _.
    pose proof (read_lines_Ok _ _ _ _ Hrest) as Hres. rewrite Hv' in Hres.
    destruct Hres as (Hv1 & _).
    destruct (read_line_Ok _ _ _ _ Hc H1) as (b1 & Hb1 & _).
    assert (b1 = false) as -> by (destruct Hv1; congruence).
    apply (IH _ _ Hrest Hv'). right.
    by apply (read_line_three comment line st).
  - rewrite read_line_skipped by (unfold counted in Hc; by apply negb_false_iff).
    simpl. apply IH.
Qed.

Lemma floats_of_strings_Raise (float_of_string : string -> option float)
    (l : list string) (e : exn) :
  floats_of_strings float_of_string l = Raise e -> e = ValueError.
Proof.
  induction l as [|t l IH]; simpl; [done|].
  destruct (float_of_string t); [|by intros [= <-]].
  destruct (floats_of_strings float_of_string l) as [fs|e']; simpl; [done|].
  intros [= <-]. by apply IH.
Qed.

Lemma np_array_float64_Raise (float_of_string : string -> option float)
    (grid : triple (list string)) (e : exn) :
  np_array_float64 float_of_string grid = Raise e -> e = ValueError.
Proof.
  unfold np_array_float64. destruct (_ && _); [|by intros [= <-]].
  destruct (floats_of_strings float_of_string (t0 grid)) as [r0|e0] eqn:E0; simpl;
    [|intros [= <-]; by apply floats_of_strings_Raise in E0].
  destruct (floats_of_strings float_of_string (t1 grid)) as [r1|e1] eqn:E1; simpl;
    [|intros [= <-]; by apply floats_of_strings_Raise in E1].
  destruct (floats_of_strings float_of_string (t2 grid)) as [r2|e2] eqn:E2; simpl;
    [done|intros [= <-]; by apply floats_of_strings_Raise in E2].
Qed.

(** X19. The exceptions of [read] are of four kinds and no other: the
    [IOError] of [open], exactly when the file cannot be opened; and, for
    a file that has been opened, the inconsistency error of the token
    counts; [ValueError], when a token is not a number or the three lists
    have different lengths; and [IndexError], which is raised only for a
    file that has no counted line at all. *)
Theorem read_exceptions (float_of_string : string -> option float)
    (file : option string) (comment : string) (s s' : GridState) (e : exn) :
  read float_of_string file comment s = Some (Raise e, s') ->
  (file = None /\ e = IOError_Open) \/
  (exists text,
     file = Some text /\
     ((exists cl, e = IOError_Inconsistency cl) \/
      e = ValueError \/
      (e = IndexError /\
       forall l, l ∈ file_lines text -> counted comment l = false))).
Proof.
  destruct file as [text|]; [|intros [= <- _]; by left].
  intros H. right. exists text. split; [done|]. revert H.
  unfold read. run.
  destruct (read_lines comment (file_lines text) read_locals_init)
    as [st|e1] eqn:Hl.
  2:{ intros [= <- _]. left. by apply (read_lines_Raise _ _ _ _ index_ok_init Hl). }
  destruct (np_array_float64 float_of_string (rl_grid st)) as [arr|e2] eqn:Ha.
  2:{ intros [= <- _]. right. left. by apply (np_array_float64_Raise _ _ _ Ha). }
  pose proof (np_array_float64_Ok _ _ _ Ha) as Hlen.
  pose proof (read_lines_Ok _ _ _ _ Hl) as Hres.
  destruct (rl_is_vector st) as [[]|] eqn:Hv; [done| |].
  - destruct (read_lines_three _ _ _ _ Hl Hv) as [a Hthree]; [by left|].
    destruct (column_Ok arr 0) as [c0 ->]; [intros b; rewrite (Hlen b a); lia|].
    destruct (column_Ok arr 1) as [c1 ->]; [intros b; rewrite (Hlen b a); lia|].
    destruct (column_Ok arr 2) as [c2 ->]; [intros b; rewrite (Hlen b a); lia|].
    done.
  - destruct Hres as [-> Hnone]. simpl in Ha. injection Ha as <-. simpl.
    intros [= <- _]. right. right. done.
Qed.

Lemma read_exceptions_witness :
  read integer_literal None "#" grid_221 = Some (Raise IOError_Open, grid_221) /\
  ((Some misspelt_text = None /\ ValueError = IOError_Open) \/
   (exists text,
      Some misspelt_text = Some text /\
      ((exists cl, ValueError = IOError_Inconsistency cl) \/
       ValueError = ValueError \/
       (ValueError = IndexError /\
        forall l, l ∈ file_lines text -> counted "#" l = false)))).
Proof.
  split; [reflexivity|].
  apply (read_exceptions integer_literal (Some misspelt_text) "#" grid_221 grid_221).
  by vm_compute.
Defined.

(** ** A centering that fails *)

(** X20. [center_grid] raises nothing but [IndexError], and does not undo
    what it has done by then: the spacing of all three axes is already
    adapted, and the axes before the first one that does not reach the
    anchor are already shifted; that axis and the later ones, the bounds,
    the counts, [d3r] and [is_initialized] are as they were. *)
Theorem center_grid_failure (ac : triple float) (s s' : GridState) (e : exn) :
  center_grid ac s = Some (Raise e, s') ->
  e = IndexError /\
  (exists a0,
      reaches ac s a0 = false /\
      forall a,
        if decide (axis_rank a < axis_rank a0)%nat
        then exists c, center_offset ac s a = Some c /\
                       coords s' a = (fun v => F64.add v c) <$> coords s a
        else coords s' a = coords s a) /\
  (forall a, tget (delta_ s') a = centered_spacing ac s a) /\
  min_ s' = min_ s /\ max_ s' = max_ s /\ N_ s' = N_ s /\
  d3r s' = d3r s /\ is_initialized s' = is_initialized s.
Proof.
  intros Hc.
  destruct (reaches_all_or_not ac s) as [Hall|_].
  { destruct (center_grid_shift_Ok ac s Hall) as (msgs & s1 & Hc1 & _).
    by rewrite Hc in Hc1. }
  pose proof (center_deltas_spacing ac s) as Hd.
  set (s1 := set_delta_ (Triple (centered_spacing ac s Ax0) (centered_spacing ac s Ax1)
                                (centered_spacing ac s Ax2)) s) in *.
  unfold center_grid in Hc. unfold axes in Hd, Hc.
  destruct (reaches ac s Ax0) eqn:R0.
  2:{ pose proof (center_axis_Raise ac Ax0 s1 (proj1 (reaches_false ac s1 Ax0) R0)) as A0.
      run. rewrite Hd, A0 in Hc. injection Hc as <- <-.
      split; [done|]. split; [|by repeat split; try intros []].
      exists Ax0. split; [done|]. by intros []. }
  destruct (center_axis_shift ac Ax0 s1 R0) as (v0 & F0 & A0).
  set (lx := (fun e => F64.add e _) <$> coords s1 Ax0) in A0.
  destruct (reaches ac s Ax1) eqn:R1.
  2:{ pose proof (center_axis_Raise ac Ax1 (set_coords Ax0 lx s1)
                    (proj1 (reaches_false ac (set_coords Ax0 lx s1) Ax1) R1)) as A1.
      run. rewrite Hd, A0, A1 in Hc. injection Hc as <- <-.
      split; [done|]. split; [|by repeat split; try intros []].
      exists Ax1. split; [done|]. intros []; simpl; try done.
      eexists. split; [|reflexivity]. unfold center_offset. simpl. by rewrite F0. }
  destruct (center_axis_shift ac Ax1 (set_coords Ax0 lx s1) R1) as (v1 & F1 & A1).
  set (ly := (fun e => F64.add e _) <$> coords (set_coords Ax0 lx s1) Ax1) in A1.
  destruct (reaches ac s Ax2) eqn:R2.
  2:{ pose proof (center_axis_Raise ac Ax2 (set_coords Ax1 ly (set_coords Ax0 lx s1))
                    (proj1 (reaches_false ac (set_coords Ax1 ly (set_coords Ax0 lx s1))
                              Ax2) R2)) as A2.
      run. rewrite Hd, A0, A1, A2 in Hc. injection Hc as <- <-.
      split; [done|]. split; [|by repeat split; try intros []].
      exists Ax2. split; [done|]. intros []; simpl; try done.
      - eexists. split; [|reflexivity]. unfold center_offset. simpl. by rewrite F0.
      - eexists. split; [|reflexivity]. unfold center_offset. simpl. by rewrite F1. }
  destruct (center_grid_shift_Ok ac s) as (msgs & s2 & Hc2 & _).
  { by intros []. }
  unfold center_grid, axes in Hc2. by rewrite Hc in Hc2.
Qed.

Lemma center_grid_failure_witness :
  exists s',
    center_grid (Triple f1 (F64.of_Z 9) f5) grid_221 = Some (Raise IndexError, s') /\
    x s' = (fun v => F64.add v F64.half) <$> x grid_221 /\
    y s' = y grid_221 /\ min_ s' = min_ grid_221.
Proof.
  assert (H : exists s', center_grid (Triple f1 (F64.of_Z 9) f5) grid_221
                         = Some (Raise IndexError, s')).
  { eexists. vm_compute. reflexivity. }
  destruct H as (s' & H). exists s'. split; [exact H|].
  destruct (center_grid_failure _ _ _ _ H) as (_ & _ & _ & Hmin & _).
  split; [|split; [|exact Hmin]];
    vm_compute in H; by injection H as <-.
Defined.

(** ** Reading, then building *)

Lemma read_Ok_cases (float_of_string : string -> option float)
    (text comment : string) (s s' : GridState) (r : option bool) :
  read float_of_string (Some text) comment s = Some (Ok r, s') ->
  (r = Some true /\ is_initialized s' = true) \/
  (r = Some false /\ forall a, is_py (tget (max_ s') a) = false).
Proof.
  unfold read. run.
  destruct (read_lines comment (file_lines text) read_locals_init)
    as [st|] eqn:Hl; [|done].
  destruct (np_array_float64 float_of_string (rl_grid st)) as [arr|] eqn:Ha; [|done].
  apply read_lines_Ok in Hl.
  destruct (rl_is_vector st) as [[]|] eqn:Hv.
  - intros [= <- <-]. by left.
  - destruct (column arr 0) as [c0|]; [|done]. simpl.
    destruct (column arr 1) as [c1|]; [|done]. simpl.
    destruct (column arr 2) as [c2|]; [|done]. simpl.
    intros [= <- <-]. right. split; [done|]. by intros [].
  - destruct Hl as [-> _]. simpl in Ha. injection Ha as <-. done.
Qed.

(** X21. After a [read] that has returned, [grid_init(False)] always
    returns.  After a vector file it changes nothing, the grid being
    marked as initialized; after a regular file the bounds are numpy
    doubles, so that even a count of 1 between two different bounds does
    not raise the [ZeroDivisionError] that the same numbers raise when
    they are assigned as Python floats. *)
Theorem grid_init_after_read (float_of_string : string -> option float)
    (text comment : string) (s s' : GridState) (r : option bool) :
  read float_of_string (Some text) comment s = Some (Ok r, s') ->
  (exists s'', grid_init false s' = Some (Ok 0, s'')) /\
  (r = Some true -> forall is_vector, grid_init is_vector s' = Some (Ok 0, s')).
Proof.
  intros Hr.
  destruct (read_Ok_cases _ _ _ _ _ _ Hr) as [[-> Hi]|[-> Hnp]].
  - split; [exists s'|intros _ is_vector]; by apply grid_init_guard.
  - split; [|done].
    destruct (is_initialized s') eqn:Hi.
    + exists s'. by apply grid_init_guard.
    + exists (built s'). apply grid_init_Ok; [done|].
      intros a. unfold zero_division.
      rewrite (Hnp a).
      by rewrite andb_false_r.
Qed.

Lemma grid_init_after_read_witness :
  exists s' s'',
    read integer_literal (Some ("x 0 1 1" ++ nl ++ "y 0 0 1" ++ nl ++ "z 0 0 1")%string)
         "#" initial_state
    = Some (Ok (Some false), s') /\
    tget (N_ s') Ax0 = 1 /\
    grid_init false s' = Some (Ok 0, s'').
Proof.
  assert (H : exists s',
             read integer_literal
                  (Some ("x 0 1 1" ++ nl ++ "y 0 0 1" ++ nl ++ "z 0 0 1")%string)
                  "#" initial_state
             = Some (Ok (Some false), s') /\ tget (N_ s') Ax0 = 1).
  { eexists. vm_compute. split; reflexivity. }
  destruct H as (s' & H & HN).
  destruct (proj1 (grid_init_after_read _ _ _ _ _ _ H)) as [s'' H2].
  exists s', s''. repeat split; assumption.
Defined.
